(** * HRP-Animals CMS: the JSON document store, its validator and the
      item duplication route, embedded in Rocq.

    Sources embedded here:
    - [cms/services/validator.py]      ([Validator])
    - [cms/services/file_handler.py]   ([FileHandler]: [get_upload_directory],
                                        [allowed_file], [delete_file],
                                        [file_exists], [list_assets])
    - [cms/services/json_handler.py]   ([JSONHandler])
    - [cms/services/backup_service.py] ([BackupService])
    - [cms/routes/item_routes.py]      ([duplicate], [delete])
    - [cms/routes/badge_routes.py]     ([edit_game], [delete_game])
    - [cms/routes/map_routes.py]       ([update_location])
    - [cms/routes/content_routes.py]   ([update])
    - [cms/routes/admin_routes.py]     ([backups], [restore_backup])

    Python values are modelled as a tree of JSON values, exceptions as an
    inductive type, the file system as explicit state. *)

From Stdlib Require Import Ascii.
From stdpp Require Import gmap strings list sorting pretty.

Set Warnings "-register-all".

Open Scope string_scope.
Open Scope list_scope.

(** ** Python exceptions and results *)

Inductive exn : Type :=
| ValueError (msg : string)
| TypeError (msg : string)
| KeyError (msg : string)
| AttributeError (msg : string)
| FileNotFoundError (msg : string)
| OSError (msg : string)
| RecursionError (msg : string)
| UnicodeDecodeError (msg : string)
| Exception_ (msg : string).

(** [str(e)] as used by the f-strings of the handlers. *)
Definition exn_str (e : exn) : string :=
  match e with
  | ValueError m | TypeError m | KeyError m | AttributeError m
  | FileNotFoundError m | OSError m | RecursionError m | UnicodeDecodeError m
  | Exception_ m => m
  end.

Inductive result (A : Type) : Type :=
| Ok (a : A)
| Raise (e : exn).
Arguments Ok {A} a.
Arguments Raise {A} e.

(** ** JSON values as Python holds them after [json.load] *)

(** A Python float: binary64, so a finite value is [m * 2^e]. *)
Inductive pyfloat : Type :=
| FNan
| FInf (negative : bool)
| FFinite (m : Z) (e : Z).

Inductive json : Type :=
| JNull
| JBool (b : bool)
| JInt (z : Z)
| JFloat (f : pyfloat)
| JStr (s : string)
| JList (l : list json)
| JDict (kvs : list (string * json)).

(** A Python dict with string keys, in insertion order. *)
Abbreviation dict := (list (string * json)).

(** [k in d] *)
Fixpoint dict_mem {A : Type} (k : string) (d : list (string * A)) : bool :=
  match d with
  | [] => false
  | (k', _) :: d' => if String.eqb k k' then true else dict_mem k d'
  end.

(** [d.get(k)] *)
Fixpoint dict_get {A : Type} (k : string) (d : list (string * A)) : option A :=
  match d with
  | [] => None
  | (k', v) :: d' => if String.eqb k k' then Some v else dict_get k d'
  end.

(** [d[k]], used only where [k in d] has been established; the [KeyError]
    of an absent key is therefore never reached and reads as [JNull]. *)
Definition dict_item (k : string) (d : dict) : json :=
  default JNull (dict_get k d).

(** [type(v).__name__] *)
Definition type_name (v : json) : string :=
  match v with
  | JNull => "NoneType"
  | JBool _ => "bool"
  | JInt _ => "int"
  | JFloat _ => "float"
  | JStr _ => "str"
  | JList _ => "list"
  | JDict _ => "dict"
  end.

(** ** Numbers: [isinstance(v, (int, float))] and comparisons

    bool is a subclass of int in Python, so [True] and [False] pass the
    isinstance test and compare as 1 and 0; an int [z] is the value [z * 2^0]. *)

Definition of_int (z : Z) : pyfloat := FFinite z 0.

Definition as_number (v : json) : option pyfloat :=
  match v with
  | JBool b => Some (of_int (if b then 1 else 0))
  | JInt z => Some (of_int z)
  | JFloat f => Some f
  | _ => None
  end.

(** Exact comparison of two numbers, as Python compares int with float;
    [None] when one of them is NaN. *)
Definition num_cmp (a b : pyfloat) : option comparison :=
  match a, b with
  | FNan, _ | _, FNan => None
  | FInf na, FInf nb =>
      Some (if na then (if nb then Eq else Lt) else (if nb then Gt else Eq))
  | FInf na, FFinite _ _ => Some (if na then Lt else Gt)
  | FFinite _ _, FInf nb => Some (if nb then Gt else Lt)
  | FFinite m1 e1, FFinite m2 e2 =>
      let e := Z.min e1 e2 in
      Some (Z.compare (m1 * 2 ^ (e1 - e)) (m2 * 2 ^ (e2 - e)))
  end.

(** [a <= b] *)
Definition num_le (a b : pyfloat) : bool :=
  match num_cmp a b with
  | Some Lt | Some Eq => true
  | _ => false
  end.

(** ** Strings and paths *)

Fixpoint str_drop (n : nat) (s : string) : string :=
  match n, s with
  | O, _ => s
  | S n', String _ s' => str_drop n' s'
  | S _, EmptyString => EmptyString
  end.

(** [s.startswith(p)] *)
Definition startswith (p s : string) : bool := String.prefix p s.

Fixpoint split_go (sep : ascii) (cur : string) (s : string) : list string :=
  match s with
  | EmptyString => [String.rev cur]
  | String c s' =>
      if Ascii.eqb c sep then String.rev cur :: split_go sep EmptyString s'
      else split_go sep (String c cur) s'
  end.

(** [s.split('/')] *)
Definition split_slash (s : string) : list string :=
  split_go "/"%char EmptyString s.

Fixpoint join_slash (parts : list string) : string :=
  match parts with
  | [] => ""
  | [p] => p
  | p :: ps => p +:+ "/" +:+ join_slash ps
  end.

(** ** The file system seen by [pathlib]

    A tree of directories and regular files (no symbolic links).  A path is
    the list of its parts; [Path.exists] follows the parts from the root the
    way the kernel does, a [..] part moving to the parent directory. *)

Module FS.

Inductive node : Type :=
| File (content : string)
| Dir (entries : list (string * node)).

Fixpoint entry (name : string) (es : list (string * node)) : option node :=
  match es with
  | [] => None
  | (n, c) :: es' => if String.eqb name n then Some c else entry name es'
  end.

(** What [os.stat] answers. [NoEnt] stands for ENOENT and ENOTDIR, which
    [Path.exists] turns into [False]; [NameTooLong] is ENAMETOOLONG, which
    [Path.exists] raises again as an [OSError] (it ignores ENOENT, ENOTDIR,
    EBADF and ELOOP only).  The limit modelled is the one on a component,
    NAME_MAX; paths are taken to be shorter than PATH_MAX (4096 bytes),
    beyond which [os.stat] answers ENAMETOOLONG whatever the tree holds. *)
Inductive stat_result : Type :=
| Found (canon : list string) (n : node)
| NoEnt
| NameTooLong.

Definition NAME_MAX : nat := 255.

(** [trail] holds, innermost first, the name of each directory entered and
    the directory it was entered from. *)
Fixpoint walk (trail : list (string * node)) (cur : node)
    (parts : list string) : stat_result :=
  match parts with
  | [] => Found (reverse (trail.*1)) cur
  | p :: rest =>
      match cur with
      | File _ => NoEnt
      | Dir es =>
          if String.eqb p ".." then
            match trail with
            | [] => walk [] cur rest
            | (_, parent) :: trail' => walk trail' parent rest
            end
          else if (NAME_MAX <? String.length p)%nat then NameTooLong
          else match entry p es with
               | Some c => walk ((p, cur) :: trail) c rest
               | None => NoEnt
               end
      end
  end.

Definition stat (root : node) (parts : list string) : stat_result :=
  walk [] root parts.

(** [PurePosixPath(s).parts] without the anchor: empty and [.] parts are
    dropped, [..] parts are kept. *)
Definition parse_parts (s : string) : list string :=
  filter (λ p, p ≠ "" ∧ p ≠ ".") (split_slash s).

Definition is_abs (s : string) : bool := startswith "/" s.

(** [base / s] for an absolute [base]: an absolute right operand replaces
    the left one. *)
Definition joinpath (base : list string) (s : string) : list string :=
  if is_abs s then parse_parts s else base ++ parse_parts s.

(** [str(path)] of an absolute path. *)
Definition path_str (parts : list string) : string :=
  "/" +:+ join_slash parts.

(** [path.exists()] *)
Definition exists_ (root : node) (parts : list string) : result bool :=
  match stat root parts with
  | Found _ _ => Ok true
  | NoEnt => Ok false
  | NameTooLong =>
      Raise (OSError ("[Errno 36] File name too long: '" +:+ path_str parts +:+ "'"))
  end.

(** [path.is_file()]; like [exists] it ignores ENOENT and ENOTDIR only. *)
Definition is_file (root : node) (parts : list string) : result bool :=
  match stat root parts with
  | Found _ (File _) => Ok true
  | Found _ (Dir _) => Ok false
  | NoEnt => Ok false
  | NameTooLong =>
      Raise (OSError ("[Errno 36] File name too long: '" +:+ path_str parts +:+ "'"))
  end.

(** Removal of the entry at a canonical path (no [..] parts). *)
Fixpoint remove (canon : list string) (n : node) : node :=
  match canon, n with
  | [], _ => n
  | _, File _ => n
  | [x], Dir es => Dir (filter (λ e, e.1 ≠ x) es)
  | x :: rest, Dir es =>
      Dir ((λ e, if String.eqb e.1 x then (e.1, remove rest e.2) else e) <$> es)
  end.

(** Lexical normal form of an absolute path: what the walk reaches when
    every directory on the way exists. *)
Fixpoint normalize_go (acc : list string) (parts : list string) : list string :=
  match parts with
  | [] => reverse acc
  | p :: rest =>
      if String.eqb p ".." then normalize_go (tail acc) rest
      else normalize_go (p :: acc) rest
  end.

Definition normalize (parts : list string) : list string :=
  normalize_go [] parts.

(** The path lies within the tree rooted at [base]. *)
Definition within (base parts : list string) : Prop :=
  base `prefix_of` normalize parts.

End FS.

(** ** [Validator] (cms/services/validator.py)

    [errors.append(x)] is [errors ++ [x]] and [errors.extend(l)] is
    [errors ++ l]; the list is threaded through the checks in source order. *)

Module Validator.
Section Validator.

(** The file system at validation time and [Config.BASE_DIR]. *)
Variable root : FS.node.
Variable BASE_DIR : list string.

Definition _validate_asset_path (path : json) (field_name : string) : list string :=
  let errors := [] in
  match path with
  | JStr path =>
      if String.eqb path "" then errors
      else if negb (startswith "../../" path) then
        errors ++ ["'" +:+ field_name +:+ "' must be a relative path starting with '../../'"]
      else
        let relative_path := str_drop 6 path in
        let full_path := FS.joinpath BASE_DIR relative_path in
        match FS.exists_ root full_path with
        | Ok true => errors
        | Ok false =>
            errors ++ ["'" +:+ field_name +:+ "' path does not exist: " +:+ path]
        | Raise e =>
            errors ++ ["'" +:+ field_name +:+ "' invalid path: " +:+ exn_str e]
        end
  | _ => errors ++ ["'" +:+ field_name +:+ "' must be a string"]
  end.

Definition required_fields : list string :=
  ["id"; "name"; "scientificName"; "description"; "badgeDescription";
   "location"; "radiusMeters"; "icon"; "model"; "ping"; "badge"].

(** [isinstance(v, str) and v] *)
Definition nonempty_str (v : json) : bool :=
  match v with
  | JStr s => negb (String.eqb s "")
  | _ => false
  end.

(** [isinstance(v, (int, float)) and lo <= v <= hi] *)
Definition number_between (lo : Z) (v : json) (hi : Z) : bool :=
  match as_number v with
  | Some x => num_le (of_int lo) x && num_le x (of_int hi)
  | None => false
  end.

(** [not isinstance(v, (int, float)) or v <= 0] *)
Definition not_positive_number (v : json) : bool :=
  match as_number v with
  | Some x => num_le x (of_int 0)
  | None => true
  end.

Definition validate_item (item : dict) : list string :=
  let errors := [] in
  let errors :=
    foldl (λ errors field,
             if dict_mem field item then errors
             else errors ++ ["Missing required field: " +:+ field])
          errors required_fields in
  if negb (bool_decide (errors = [])) then errors else
  let errors :=
    if negb (nonempty_str (dict_item "id" item))
    then errors ++ ["'id' must be a non-empty string"] else errors in
  let errors :=
    if negb (nonempty_str (dict_item "name" item))
    then errors ++ ["'name' must be a non-empty string"] else errors in
  let errors :=
    match dict_item "location" item with
    | JDict location =>
        if negb (dict_mem "lat" location) || negb (dict_mem "lng" location)
        then errors ++ ["'location' must have 'lat' and 'lng'"]
        else
          let lat := dict_item "lat" location in
          let lng := dict_item "lng" location in
          let errors :=
            if negb (number_between (-90) lat 90)
            then errors ++ ["'location.lat' must be between -90 and 90"]
            else errors in
          if negb (number_between (-180) lng 180)
          then errors ++ ["'location.lng' must be between -180 and 180"]
          else errors
    | _ => errors ++ ["'location' must be an object"]
    end in
  let errors :=
    if not_positive_number (dict_item "radiusMeters" item)
    then errors ++ ["'radiusMeters' must be a positive number"] else errors in
  let errors :=
    match dict_item "icon" item with
    | JDict icon =>
        if negb (dict_mem "shadow" icon) || negb (dict_mem "found" icon)
        then errors ++ ["'icon' must have 'shadow' and 'found'"]
        else
          let errors :=
            errors ++ _validate_asset_path (dict_item "shadow" icon) "icon.shadow" in
          errors ++ _validate_asset_path (dict_item "found" icon) "icon.found"
    | _ => errors ++ ["'icon' must be an object"]
    end in
  let errors :=
    match dict_item "model" item with
    | JDict model =>
        let errors :=
          if negb (dict_mem "url" model)
          then errors ++ ["'model' must have 'url'"]
          else errors ++ _validate_asset_path (dict_item "url" model) "model.url" in
        if dict_mem "usdz" model
        then errors ++ _validate_asset_path (dict_item "usdz" model) "model.usdz"
        else errors
    | _ => errors ++ ["'model' must be an object"]
    end in
  let errors :=
    match dict_item "badge" item with
    | JDict badge =>
        let errors :=
          if negb (dict_mem "id" badge)
          then errors ++ ["'badge' must have 'id'"] else errors in
        let errors :=
          if negb (dict_mem "name" badge)
          then errors ++ ["'badge' must have 'name'"] else errors in
        if dict_mem "icon" badge
        then errors ++ _validate_asset_path (dict_item "icon" badge) "badge.icon"
        else errors
    | _ => errors ++ ["'badge' must be an object"]
    end in
  errors.

Definition validate_badge (badge : dict) : list string :=
  let errors := [] in
  let errors :=
    if negb (dict_mem "id" badge)
    then errors ++ ["Missing required field: id"] else errors in
  let errors :=
    if negb (dict_mem "name" badge)
    then errors ++ ["Missing required field: name"] else errors in
  let errors :=
    if negb (dict_mem "description" badge)
    then errors ++ ["Missing required field: description"] else errors in
  if negb (bool_decide (errors = [])) then errors else
  let errors :=
    if negb (nonempty_str (dict_item "id" badge))
    then errors ++ ["'id' must be a non-empty string"] else errors in
  let errors :=
    if dict_mem "icon" badge
    then errors ++ _validate_asset_path (dict_item "icon" badge) "icon"
    else errors in
  errors.

(** The [TypeError] of [lo <= v] for an int [lo] and a value that is no
    number. *)
Definition le_error (v : json) : exn :=
  TypeError ("'<=' not supported between instances of 'int' and '"
             +:+ type_name v +:+ "'").

(** [lo <= v <= hi]: the second comparison is made only when the first
    holds, and then [v] is a number. *)
Definition chained_le (lo : Z) (v : json) (hi : Z) : result bool :=
  match as_number v with
  | Some x => Ok (num_le (of_int lo) x && num_le x (of_int hi))
  | None => Raise (le_error v)
  end.

(** [lng] is looked at only when [lat] is in range. *)
Definition validate_coordinates (lat lng : json) : result bool :=
  match chained_le (-90) lat 90 with
  | Raise e => Raise e
  | Ok false => Ok false
  | Ok true => chained_le (-180) lng 180
  end.

End Validator.
End Validator.

(** ** [FileHandler] (cms/services/file_handler.py): path resolution,
    [file_exists] and [delete_file] *)

Module FileHandler.

(** An entry of [list_assets]: the dict with the keys [name], [path] and
    [size]. *)
Record asset : Type := {
  asset_name : string;
  asset_path : string;
  asset_size : nat
}.

(** The order of [sorted(assets, key=lambda x: x['name'])] *)
Definition by_name (a b : asset) : Prop := String.le (asset_name a) (asset_name b).
#[export] Instance by_name_dec : RelDecision by_name :=
  λ a b, decide (String.le (asset_name a) (asset_name b)).

(** [c in s] for a character [c] *)
Fixpoint has_char (c : ascii) (s : string) : bool :=
  match s with
  | EmptyString => false
  | String c' s' => if Ascii.eqb c' c then true else has_char c s'
  end.

(** [s.rsplit(sep, 1)[1]] for an [s] that holds [sep]: what follows the last
    [sep], the last piece of [s.split(sep)]. *)
Definition after_last (sep : ascii) (s : string) : string :=
  List.last (split_go sep EmptyString s) EmptyString.

(** [ext.lstrip('.')] *)
Fixpoint lstrip_dots (s : string) : string :=
  match s with
  | String c s' => if Ascii.eqb c "."%char then lstrip_dots s' else s
  | EmptyString => s
  end.

(** [s.lower()] on the letters A to Z.  A string is held as its UTF-8 bytes,
    and the bytes of a character outside ASCII are kept: no such character
    lowers to a letter of the configured extensions, so the comparison with
    them comes out as with [str.lower]. *)
Definition lower_char (c : ascii) : ascii :=
  let n := nat_of_ascii c in
  if (65 <=? n)%nat && (n <=? 90)%nat then ascii_of_nat (n + 32) else c.

Fixpoint lower (s : string) : string :=
  match s with
  | EmptyString => EmptyString
  | String c s' => String (lower_char c) (lower s')
  end.

(** [Config.UPLOAD_EXTENSIONS] *)
Definition UPLOAD_EXTENSIONS : list (string * list string) :=
  [("models", [".glb"; ".usdz"]);
   ("icons", [".svg"; ".png"]);
   ("badges", [".svg"; ".png"])].

(** [file_path.stat().st_size] of a regular file *)
Definition st_size (root : FS.node) (p : list string) : nat :=
  match FS.stat root p with
  | FS.Found _ (FS.File content) => String.length content
  | _ => 0
  end.

Section FileHandler.

Variable BASE_DIR : list string.
(** The working directory, against which [Path(file_path)] is resolved
    when [file_path] does not carry the prefix. *)
Variable cwd : list string.

Definition full_path (file_path : string) : list string :=
  if startswith "../../" file_path
  then FS.joinpath BASE_DIR (str_drop 6 file_path)
  else FS.joinpath cwd file_path.

(** [full_path.exists() and full_path.is_file()] *)
Definition exists_and_is_file (root : FS.node) (p : list string) : result bool :=
  match FS.exists_ root p with
  | Ok true => FS.is_file root p
  | r => r
  end.

(** [full_path.unlink()], reached only for an existing regular file. *)
Definition unlink (root : FS.node) (p : list string) : FS.node :=
  match FS.stat root p with
  | FS.Found canon _ => FS.remove canon root
  | _ => root
  end.

Definition delete_file (root : FS.node) (file_path : string) : FS.node * result bool :=
  let p := full_path file_path in
  match exists_and_is_file root p with
  | Ok true => (unlink root p, Ok true)
  | Ok false => (root, Ok false)
  | Raise e => (root, Raise (Exception_ ("Error deleting file: " +:+ exn_str e)))
  end.

Definition file_exists (root : FS.node) (file_path : string) : bool :=
  match exists_and_is_file root (full_path file_path) with
  | Ok b => b
  | Raise _ => false
  end.

(** [Config.ASSETS_DIR] and the asset directories below it *)
Definition ASSETS_DIR : list string := BASE_DIR ++ ["assets"].
Definition MODELS_DIR : list string := ASSETS_DIR ++ ["wayfinding"; "model"].
Definition SHADOWS_DIR : list string := ASSETS_DIR ++ ["icons"; "shadows"].
Definition FOUND_DIR : list string := ASSETS_DIR ++ ["icons"; "found"].
Definition BADGES_DIR : list string := ASSETS_DIR ++ ["badges"; "icons"].

Definition get_upload_directory (file_type : string) : result (list string) :=
  if String.eqb file_type "model" then Ok MODELS_DIR
  else if String.eqb file_type "shadow" then Ok SHADOWS_DIR
  else if String.eqb file_type "found" then Ok FOUND_DIR
  else if String.eqb file_type "badge" then Ok BADGES_DIR
  else Raise (ValueError ("Unknown file type: " +:+ file_type)).

Definition allowed_file (filename file_type : string) : bool :=
  let extensions :=
    if String.eqb file_type "model"
    then default [] (dict_get "models" UPLOAD_EXTENSIONS)
    else default [] (dict_get "icons" UPLOAD_EXTENSIONS) in
  has_char "."%char filename
  && bool_decide (lower (after_last "."%char filename) ∈ (lstrip_dots <$> extensions)).

(** The loop of [list_assets] over [upload_dir.iterdir()]: [names] are the
    entries still to visit, [assets] the list built so far. *)
Fixpoint collect_assets (root : FS.node) (upload_dir : list string)
    (names : list string) (assets : list asset) : result (list asset) :=
  match names with
  | [] => Ok assets
  | n :: rest =>
      let file_path := upload_dir ++ [n] in
      match FS.is_file root file_path with
      | Raise e => Raise e
      | Ok false => collect_assets root upload_dir rest assets
      | Ok true =>
          let relative := drop (length BASE_DIR) file_path in
          collect_assets root upload_dir rest
            (assets ++ [{| asset_name := n;
                           asset_path := "../../" +:+ join_slash relative;
                           asset_size := st_size root file_path |}])
      end
  end.

(** [iterdir] on a path that is no directory raises [NotADirectoryError],
    an [OSError]. *)
Definition list_assets (root : FS.node) (file_type : string) : result (list asset) :=
  match get_upload_directory file_type with
  | Raise e => Raise e
  | Ok upload_dir =>
      match FS.exists_ root upload_dir with
      | Raise e => Raise e
      | Ok false => Ok []
      | Ok true =>
          match FS.stat root upload_dir with
          | FS.Found _ (FS.Dir entries) =>
              match collect_assets root upload_dir (entries.*1) [] with
              | Raise e => Raise e
              | Ok assets => Ok (merge_sort by_name assets)
              end
          | _ =>
              Raise (OSError ("[Errno 20] Not a directory: '"
                              +:+ FS.path_str upload_dir +:+ "'"))
          end
      end
  end.

End FileHandler.
End FileHandler.

(** ** The Python runtime the handler relies on

    [repr], [json.dumps] and [json.loads] are library code; they are taken
    as an interface.  [json.load] on the content of a file has three kinds
    of outcome: the value; [json.JSONDecodeError] with its message, for
    content that is no JSON text; and any other exception it lets through,
    as [RecursionError] for a nesting deeper than the interpreter allows,
    [UnicodeDecodeError] for bytes that are no UTF-8 and the [ValueError] of
    the limit on the digits of an integer. *)

Inductive parsed : Type :=
| Parsed (v : json)
| Malformed (detail : string)
| Failed (e : exn).

Class Runtime : Type := {
(** [str(v)] of a value that is not a [str] *)
py_repr : json → string;
(** [json.dumps(v, indent=2, ensure_ascii=False)] *)
json_dumps : json → string;
(** [json.loads(text)]; [Malformed] is [json.JSONDecodeError] with its
    message, [Failed] any other exception *)
json_loads : string → parsed
}.

(** [str(v)], as the f-strings apply it *)
Definition py_str `{Runtime} (v : json) : string :=
  match v with
  | JStr s => s
  | _ => py_repr v
  end.

(** Only lists and dicts among JSON values have no hash. *)
Definition hashable (v : json) : bool :=
  match v with
  | JList _ | JDict _ => false
  | _ => true
  end.

(** Equality of two hashable values as a [set] sees it: numbers (and bools)
    by value, strings by content.  NaN equals NaN here because membership
    tests identity first and [json.load] yields one NaN object. *)
Definition key_eq (a b : json) : bool :=
  match a, b with
  | JNull, JNull => true
  | JStr s, JStr t => String.eqb s t
  | _, _ =>
      match as_number a, as_number b with
      | Some FNan, Some FNan => true
      | Some x, Some y => bool_decide (num_cmp x y = Some Eq)
      | _, _ => false
      end
  end.

(** [bool(v)] *)
Definition truthy (v : json) : bool :=
  match v with
  | JNull => false
  | JBool b => b
  | JInt z => negb (z =? 0)%Z
  | JFloat (FFinite m _) => negb (m =? 0)%Z
  | JFloat _ => true
  | JStr s => negb (String.eqb s "")
  | JList l => negb (bool_decide (length l = 0%nat))
  | JDict d => negb (bool_decide (length d = 0%nat))
  end.

(** [v is None] *)
Definition is_none (v : json) : bool :=
  match v with
  | JNull => true
  | _ => false
  end.

Definition is_nan (v : json) : bool :=
  match v with
  | JFloat FNan => true
  | _ => false
  end.

(** [a == b] for two values that [json.loads] has built.  Numbers (and
    bools) compare by value and NaN equals nothing; lists compare element
    by element and dicts key by key, and there, as Python compares the
    elements of a container, two elements are equal when they are the same
    object or compare equal: [json.loads] yields one and the same NaN
    object, so inside a list or a dict NaN equals NaN.  A dict holds each
    key once. *)
Fixpoint py_eq (a b : json) {struct a} : bool :=
  match a, b with
  | JNull, JNull => true
  | JStr s, JStr t => String.eqb s t
  | JList l1, JList l2 =>
      (fix elements (l1 l2 : list json) {struct l1} : bool :=
         match l1, l2 with
         | [], [] => true
         | x :: l1', y :: l2' =>
             (is_nan x && is_nan y || py_eq x y) && elements l1' l2'
         | _, _ => false
         end) l1 l2
  | JDict d1, JDict d2 =>
      (length d1 =? length d2)%nat
      && (fix items (d : list (string * json)) {struct d} : bool :=
            match d with
            | [] => true
            | kv :: d' =>
                match dict_get kv.1 d2 with
                | Some w => (is_nan kv.2 && is_nan w || py_eq kv.2 w) && items d'
                | None => false
                end
            end) d1
  | _, _ =>
      match as_number a, as_number b with
      | Some x, Some y => bool_decide (num_cmp x y = Some Eq)
      | _, _ => false
      end
  end.

(** [sep.join(l)] *)
Fixpoint str_join (sep : string) (l : list string) : string :=
  match l with
  | [] => ""
  | [x] => x
  | x :: rest => x +:+ sep +:+ str_join sep rest
  end.

(** [d[k] = v]: an existing key keeps its position. *)
Fixpoint dict_set {A : Type} (k : string) (v : A) (d : list (string * A)) : list (string * A) :=
  match d with
  | [] => [(k, v)]
  | (k', v') :: d' =>
      if String.eqb k k' then (k, v) :: d' else (k', v') :: dict_set k v d'
  end.

Fixpoint str_take (n : nat) (s : string) : string :=
  match n, s with
  | S n', String c s' => String c (str_take n' s')
  | _, _ => EmptyString
  end.

(** [s.endswith(suffix)] *)
Definition endswith (suffix s : string) : bool :=
  startswith (String.rev suffix) (String.rev s).

(** ** [JSONHandler] (cms/services/json_handler.py)

    The handler touches three places: the document file [json_path], the
    temporary file beside it and the backup directory, a finite map from
    file names to contents. *)

Module JSONHandler.

Record store : Type := {
  live : option string;            (* data/assets.json *)
  temp : option string;            (* data/assets.json.tmp *)
  backups : gmap string string     (* cms/backups/<name> *)
}.

Definition set_live (c : option string) (s : store) : store :=
  {| live := c; temp := temp s; backups := backups s |}.
Definition set_temp (c : option string) (s : store) : store :=
  {| live := live s; temp := c; backups := backups s |}.
Definition set_backups (b : gmap string string) (s : store) : store :=
  {| live := live s; temp := temp s; backups := b |}.

(** [datetime.now()] *)
Record datetime : Type := {
  year : nat; month : nat; day : nat;
  hour : nat; minute : nat; second : nat
}.

Definition digit (n : nat) : ascii := ascii_of_nat (48 + n mod 10).
Definition pad2 (n : nat) : string :=
  String (digit (n / 10)) (String (digit n) "").
Definition pad4 (n : nat) : string :=
  String (digit (n / 1000)) (String (digit (n / 100)) (pad2 n)).

(** [t.strftime('%Y%m%d_%H%M%S')], for the years 1000 to 9999 *)
Definition strftime (t : datetime) : string :=
  pad4 (year t) +:+ pad2 (month t) +:+ pad2 (day t) +:+ "_" +:+
  pad2 (hour t) +:+ pad2 (minute t) +:+ pad2 (second t).

(** What can go wrong in the environment during one call: at most one of
    the file operations of [write] and [_create_backup] raises.  The copy by
    which the handler of [write] restores the document is not among them. *)
Inductive fault : Type :=
| NoFault
| FailBackupCopy (e : exn)             (* shutil.copy(json_path, backup_path) *)
| FailUnlink (k : nat) (e : exn)       (* the k-th old_backup.unlink(), from 0 *)
| FailLock (e : exn)                   (* entering FileLock *)
| FailOpenTemp (e : exn)               (* open(temp_path, 'w') *)
| FailDump (written : nat) (e : exn)   (* json.dump, [written] characters on disk *)
| FailReopen (e : exn)                 (* open(temp_path, 'r') *)
| FailReplace (e : exn).               (* temp_path.replace(json_path) *)

Record env : Type := { now : datetime; failing : fault }.

(** [fnmatch(name, 'assets_*.json')] *)
Definition is_backup_name (name : string) : bool :=
  startswith "assets_" name && endswith ".json" (str_drop 7 name).

Definition name_ge (a b : string) : Prop := String.le b a.
#[export] Instance name_ge_dec : RelDecision name_ge := λ a b, decide (String.le b a).

(** [sorted(self.backup_dir.glob('assets_*.json'), reverse=True)] *)
Definition sorted_backups (b : gmap string string) : list string :=
  merge_sort name_ge (filter (λ n, is_backup_name n = true) (elements (dom b))).

Definition unlink_all (names : list string) (b : gmap string string) : gmap string string :=
  foldl (λ b n, delete n b) b names.

Definition empty_document : json := JDict [("items", JList []); ("gameBadges", JList [])].

(** What [get_backups] tells of one backup file: the dict with the keys
    [path], [name], [size] and [created]. *)
Record backup_entry (T : Type) : Type := {
  entry_path : string;
  entry_name : string;
  entry_size : nat;
  entry_created : T
}.
Arguments entry_path {T} _.
Arguments entry_name {T} _.
Arguments entry_size {T} _.
Arguments entry_created {T} _.

Section Handler.

Context `{Runtime}.
Variable BASE_DIR : list string.
Variable E : env.

Definition json_path : string := FS.path_str (BASE_DIR ++ ["data"; "assets.json"]).
Definition backup_dir : string := FS.path_str (BASE_DIR ++ ["cms"; "backups"]).

(** [FileNotFoundError] gives the empty document and
    [json.JSONDecodeError] is wrapped; [read] has no other [except] clause,
    so whatever else [json.load] raises leaves it as it is. *)
Definition read (s : store) : result json :=
  match live s with
  | None => Ok empty_document
  | Some text =>
      match json_loads text with
      | Parsed v => Ok v
      | Malformed e =>
          Raise (ValueError ("Invalid JSON in " +:+ json_path +:+ ": " +:+ e))
      | Failed e => Raise e
      end
  end.

(** One of the two loops of [_validate_structure]; [Label] and [label] are
    "Item"/"item" and "Game badge"/"game badge", [seen] is the set of ids. *)
Fixpoint check_entries (Label label : string) (i : nat) (seen : list json)
    (entries : list json) : result unit :=
  match entries with
  | [] => Ok ()
  | JDict item :: rest =>
      if negb (dict_mem "id" item)
      then Raise (ValueError (Label +:+ " at index " +:+ pretty i +:+ " missing 'id'"))
      else
        let id := dict_item "id" item in
        if negb (hashable id)
        then Raise (TypeError ("unhashable type: '" +:+ type_name id +:+ "'"))
        else if existsb (key_eq id) seen
        then Raise (ValueError ("Duplicate " +:+ label +:+ " ID: " +:+ py_str id))
        else check_entries Label label (S i) (id :: seen) rest
  | _ :: _ =>
      Raise (ValueError (Label +:+ " at index " +:+ pretty i +:+ " must be an object"))
  end.

Definition _validate_structure (data : json) : result unit :=
  match data with
  | JDict d =>
      if negb (dict_mem "items" d) then Raise (ValueError "Missing 'items' key")
      else if negb (dict_mem "gameBadges" d) then Raise (ValueError "Missing 'gameBadges' key")
      else
        match dict_item "items" d with
        | JList items =>
            match dict_item "gameBadges" d with
            | JList game_badges =>
                match check_entries "Item" "item" 0 [] items with
                | Ok _ => check_entries "Game badge" "game badge" 0 [] game_badges
                | Raise e => Raise e
                end
            | _ => Raise (ValueError "'gameBadges' must be a list")
            end
        | _ => Raise (ValueError "'items' must be a list")
        end
  | _ => Raise (ValueError "Root must be an object")
  end.

(** [f'assets_{timestamp}.json'] *)
Definition backup_file_name : string := "assets_" +:+ strftime (now E) +:+ ".json".

(** Returns the name of the backup file, [None] for Python's [None]. *)
Definition _create_backup (s : store) : store * result (option string) :=
  match live s with
  | None => (s, Ok None)
  | Some content =>
      let backup_path := backup_file_name in
      match failing E with
      | FailBackupCopy e => (s, Raise e)
      | _ =>
          let s := set_backups (<[backup_path := content]> (backups s)) s in
          let old := drop 50 (sorted_backups (backups s)) in
          match failing E with
          | FailUnlink k e =>
              if bool_decide (k < length old)%nat
              then (set_backups (unlink_all (take k old) (backups s)) s, Raise e)
              else (set_backups (unlink_all old (backups s)) s, Ok (Some backup_path))
          | _ => (set_backups (unlink_all old (backups s)) s, Ok (Some backup_path))
          end
      end
  end.

(** The body of the [try] block of [write]: lock, serialise to the
    temporary file, read it back, replace. *)
Definition write_locked (data : json) (s : store) : store * result bool :=
  match failing E with
  | FailLock e => (s, Raise e)
  | FailOpenTemp e => (s, Raise e)
  | FailDump written e =>
      (set_temp (Some (str_take written (json_dumps data))) s, Raise e)
  | f =>
      let text := json_dumps data in
      let s := set_temp (Some text) s in
      match f with
      | FailReopen e => (s, Raise e)
      | _ =>
          match json_loads text with
          | Malformed e => (s, Raise (ValueError e))
          | Failed e => (s, Raise e)
          | Parsed _ =>
              match f with
              | FailReplace e => (s, Raise e)
              | _ => (set_temp None (set_live (Some text) s), Ok true)
              end
          end
      end
  end.

Definition write (data : json) (validate : bool) (s : store) : store * result bool :=
  match (if validate then _validate_structure data else Ok ()) with
  | Raise e => (s, Raise e)
  | Ok _ =>
      match _create_backup s with
      | (s, Raise e) => (s, Raise e)
      | (s, Ok backup_path) =>
          match write_locked data s with
          | (s, Ok r) => (s, Ok r)
          | (s, Raise e) =>
              match backup_path with
              | None =>
                  (s, Raise (AttributeError "'NoneType' object has no attribute 'exists'"))
              | Some backup_path =>
                  let s :=
                    match backups s !! backup_path with
                    | Some content => set_live (Some content) s
                    | None => s
                    end in
                  (s, Raise (Exception_ ("Failed to write JSON: " +:+ exn_str e)))
              end
          end
      end
  end.

(** [backup_name] is the name of a file of the backup directory, which the
    store holds as a map from file names to contents.  A name with path
    separators or [..] parts, which [backup_dir / backup_name] resolves
    outside the directory, is outside this model: it is looked up as a key
    like any other. *)
Definition restore_backup (backup_name : string) (s : store) : store * result bool :=
  match backups s !! backup_name with
  | None => (s, Raise (FileNotFoundError ("Backup " +:+ backup_name +:+ " not found")))
  | Some _ =>
      match _create_backup s with
      | (s, Raise e) => (s, Raise e)
      | (s, Ok _) =>
          match backups s !! backup_name with
          | Some content => (set_live (Some content) s, Ok true)
          | None =>
              (s, Raise (FileNotFoundError
                 ("[Errno 2] No such file or directory: '" +:+ backup_dir +:+ "/"
                  +:+ backup_name +:+ "'")))
          end
      end
  end.

(** [datetime.fromtimestamp(backup_file.stat().st_mtime)] of the backup
    file of a given name: the file system keeps the modification times, and
    the handler hands them on as they are. *)
Variable timestamp : Type.
Variable created : string → timestamp.

Definition get_backups (s : store) : list (backup_entry timestamp) :=
  (λ name,
     {| entry_path := backup_dir +:+ "/" +:+ name;
        entry_name := name;
        entry_size := from_option String.length 0%nat (backups s !! name);
        entry_created := created name |})
  <$> sorted_backups (backups s).

End Handler.
End JSONHandler.

(** ** [BackupService] (cms/services/backup_service.py) *)

Module BackupService.

(** [l[:limit]] *)
Definition slice_to {A : Type} (limit : Z) (l : list A) : list A :=
  if (0 <=? limit)%Z then take (Z.to_nat limit) l
  else take (length l - Z.to_nat (- limit)) l.

(** The dict [get_backup_info] returns. *)
Record info : Type := {
  count : nat;
  total_size : nat;
  directory : string
}.

Section BackupService.

Variable BASE_DIR : list string.
Variable E : JSONHandler.env.
Variable timestamp : Type.
Variable created : string → timestamp.

Definition list_backups (limit : Z) (s : JSONHandler.store)
    : list (JSONHandler.backup_entry timestamp) :=
  let backups := JSONHandler.get_backups BASE_DIR timestamp created s in
  slice_to limit backups.

Definition restore_backup (backup_name : string) (s : JSONHandler.store)
    : JSONHandler.store * result bool :=
  JSONHandler.restore_backup BASE_DIR E backup_name s.

Definition get_backup_info (s : JSONHandler.store) : info :=
  let backups := list_backups 50 s in
  let total_size := sum_list (JSONHandler.entry_size <$> backups) in
  {| count := length backups;
     total_size := total_size;
     directory := JSONHandler.backup_dir BASE_DIR |}.

End BackupService.
End BackupService.

(** ** The change log and the answers of the routes *)

Module Models.

(** A row of [ChangeLog] (cms/models.py) as a route fills it in; the key
    and the time stamp are set by the database. *)
Record ChangeLog : Type := {
  user_id : Z;
  action : string;
  entity_type : string;
  entity_id : string;
  changes : string
}.

End Models.

Module Flask.

(** What a view function returns. *)
Inductive view : Type :=
| Redirect (endpoint : string)            (* redirect(url_for(endpoint)) *)
| Render (template : string) (context : list (string * json))
                                          (* render_template(template, **context) *)
| Jsonify (value : json) (status : nat).  (* jsonify(value), status *)

(** The messages flashed during the request, in order, each with its
    category, and the view returned. *)
Record response : Type := {
  flashed : list (string * string);
  returned : view
}.

End Flask.

(** The state the routes work on: the files of the document store and the
    rows of the change log.  [db.session.commit()] is taken to succeed. *)
Record site : Type := {
  files : JSONHandler.store;
  change_log : list Models.ChangeLog
}.

(** ** The [duplicate] route (cms/routes/item_routes.py)

    [a.copy()] is a shallow copy: the new dict holds the very objects the
    fields of [a] hold.  Each value held by a field of an item therefore gets
    an identity, the pair of the item's index and the field's position, and
    the route runs over a memory from identities to values.  [json.load]
    builds one fresh object per value, so the memory it leaves is read off
    the parsed tree; [json.dump] reads the values back through the memory. *)

Module ItemRoutes.

Definition loc : Type := nat * nat.
Definition memory : Type := loc → json.

Definition mem_set (l : loc) (v : json) (m : memory) : memory :=
  λ l', if bool_decide (l' = l) then v else m l'.

(** An element of [data['items']]: a dict whose fields refer to values in
    memory, or a value of another type. *)
Inductive pyobj : Type :=
| PyDict (fields : list (string * loc))
| PyValue (v : json).

(** The fields of item [i]: field number [j] refers to cell [(i, j)]. *)
Definition load_fields (i : nat) (d : dict) : list (string * loc) :=
  imap (λ j kv, (kv.1, (i, j))) d.

Definition load_item (i : nat) (v : json) : pyobj :=
  match v with
  | JDict d => PyDict (load_fields i d)
  | _ => PyValue v
  end.

Definition load_items (raw : list json) : list pyobj := imap load_item raw.

Definition load_memory (raw : list json) : memory :=
  λ l, match raw !! l.1 with
       | Some (JDict d) =>
           match d !! l.2 with
           | Some kv => kv.2
           | None => JNull
           end
       | _ => JNull
       end.

(** What [json.dump] writes for an element. *)
Definition dump_item (m : memory) (o : pyobj) : json :=
  match o with
  | PyDict fields => JDict ((λ kl, (kl.1, m kl.2)) <$> fields)
  | PyValue v => v
  end.

(** The [TypeError] of [v[k]] for a string key on a value that is no dict. *)
Definition subscript_error (v : json) : exn :=
  match v with
  | JStr _ => TypeError "string indices must be integers, not 'str'"
  | JList _ => TypeError "list indices must be integers or slices, not str"
  | _ => TypeError ("'" +:+ type_name v +:+ "' object is not subscriptable")
  end.

(** The [TypeError] of [v[k] = x] for a string key on a value that is no dict. *)
Definition assignment_error (v : json) : exn :=
  match v with
  | JList _ => TypeError "list indices must be integers or slices, not str"
  | _ => TypeError ("'" +:+ type_name v +:+ "' object does not support item assignment")
  end.

(** [a[k]] *)
Definition subscript (m : memory) (a : pyobj) (k : string) : result json :=
  match a with
  | PyDict fields =>
      match dict_get k fields with
      | Some l => Ok (m l)
      | None => Raise (KeyError ("'" +:+ k +:+ "'"))
      end
  | PyValue v => Raise (subscript_error v)
  end.

(** [v == s] for a [str] [s] *)
Definition eq_str (v : json) (s : string) : bool :=
  match v with
  | JStr t => String.eqb t s
  | _ => false
  end.

(** [for a in data['items']: if a['id'] == item_id: item = a.copy(); break]
    returns the fields of the copy, which are those of [a]. *)
Fixpoint find_item (m : memory) (item_id : string) (items : list pyobj)
    : result (option (list (string * loc))) :=
  match items with
  | [] => Ok None
  | PyValue v :: _ => Raise (subscript_error v)
  | PyDict fields :: rest =>
      match subscript m (PyDict fields) "id" with
      | Raise e => Raise e
      | Ok v =>
          if eq_str v item_id then Ok (Some fields)
          else find_item m item_id rest
      end
  end.

(** [any(a['id'] == new_id for a in data['items'])] *)
Fixpoint any_has_id (m : memory) (new_id : string) (items : list pyobj) : result bool :=
  match items with
  | [] => Ok false
  | a :: rest =>
      match subscript m a "id" with
      | Raise e => Raise e
      | Ok v => if eq_str v new_id then Ok true else any_has_id m new_id rest
      end
  end.

Definition copy_id (base_id : string) (counter : nat) : string :=
  base_id +:+ "-copy-" +:+ pretty counter.

(** The [while] loop, run for at most [fuel] rounds; [None] when the fuel
    is used up. *)
Fixpoint next_free_id (fuel : nat) (m : memory) (items : list pyobj)
    (base_id : string) (counter : nat) : option (result (nat * string)) :=
  match fuel with
  | O => None
  | S fuel' =>
      let new_id := copy_id base_id counter in
      match any_has_id m new_id items with
      | Raise e => Some (Raise e)
      | Ok true => next_free_id fuel' m items base_id (S counter)
      | Ok false => Some (Ok (counter, new_id))
      end
  end.

(** *** Reading the document in the other routes

    The routes below change the document by replacing or removing one
    element of a collection; no object is reached through two names, so
    they are written on the parsed tree itself. *)

(** [v[k]] for a string [k] *)
Definition getitem (v : json) (k : string) : result json :=
  match v with
  | JDict d =>
      match dict_get k d with
      | Some x => Ok x
      | None => Raise (KeyError ("'" +:+ k +:+ "'"))
      end
  | _ => Raise (subscript_error v)
  end.

(** What a [for] loop over [v] gets: the elements of a list, the characters
    of a string (each of them a string), the keys of a dict. *)
Definition iterate (v : json) : result (list json) :=
  match v with
  | JList l => Ok l
  | JStr s => Ok ((λ c, JStr (String c EmptyString)) <$> String.list_ascii_of_string s)
  | JDict d => Ok (JStr <$> d.*1)
  | _ => Raise (TypeError ("'" +:+ type_name v +:+ "' object is not iterable"))
  end.

(** [for i, a in enumerate(...): if a['id'] == wanted: ...; break]: the
    index and the element at which the loop stops, [None] when it runs to
    the end.  [same v] is [v == wanted]. *)
Fixpoint find_index (same : json → bool) (i : nat) (elements : list json)
    : result (option (nat * json)) :=
  match elements with
  | [] => Ok None
  | a :: rest =>
      match getitem a "id" with
      | Raise e => Raise e
      | Ok v => if same v then Ok (Some (i, a)) else find_index same (S i) rest
      end
  end.

(** [coll.pop(i)] and [coll[i] = x]'s effect on the collection.  They are
    reached once an element with an [id] has been found in [coll], which is
    then a list. *)
Definition pop (i : nat) (coll : json) : json :=
  match coll with
  | JList l => JList (delete i l)
  | _ => coll
  end.

Definition put (i : nat) (x : json) (coll : json) : json :=
  match coll with
  | JList l => JList (<[i := x]> l)
  | _ => coll
  end.

(** The document once the collection under [key] has changed to [coll]. *)
Definition with_collection (key : string) (coll : json) (data : json) : json :=
  match data with
  | JDict top => JDict (dict_set key coll top)
  | _ => data
  end.

(** The search loop of [delete] and [delete_game]:
    [for i, a in enumerate(data[key]): if a['id'] == wanted: item = a;
    data[key].pop(i); break].  Returns the element found and the document
    without it. *)
Definition pop_by_id (key wanted : string) (data : json) : result (option (json * json)) :=
  match getitem data key with
  | Raise e => Raise e
  | Ok coll =>
      match iterate coll with
      | Raise e => Raise e
      | Ok elements =>
          match find_index (λ v, eq_str v wanted) 0 elements with
          | Raise e => Raise e
          | Ok None => Ok None
          | Ok (Some (i, item)) => Ok (Some (item, with_collection key (pop i coll) data))
          end
      end
  end.

(** The search loop of the routes that change one element in place:
    [for a in data[key]: if a['id'] == wanted: <change a>; break].
    [change] is the change made to the dict found; the document is
    returned as it is when no element has the id. *)
Definition change_by_id (key : string) (same : json → bool)
    (change : dict → result dict) (data : json) : result (option (dict * json)) :=
  match getitem data key with
  | Raise e => Raise e
  | Ok coll =>
      match iterate coll with
      | Raise e => Raise e
      | Ok elements =>
          match find_index same 0 elements with
          | Raise e => Raise e
          | Ok None => Ok None
          | Ok (Some (i, JDict a)) =>
              match change a with
              | Raise e => Raise e
              | Ok a' => Ok (Some (a', with_collection key (put i (JDict a') coll) data))
              end
          | Ok (Some (_, v)) => Raise (assignment_error v)
          end
      end
  end.

Section Routes.

Context `{Runtime}.

(** From the object found to the document handed to [handler.write]:
    the statements between the search loop and [# Save]. *)
Definition copy_and_append (top : dict) (m : memory) (items : list pyobj)
    (a : list (string * loc)) : option (result json) :=
  let n := length items in
  let item := a in
  match subscript m (PyDict item) "id" with
  | Raise e => Some (Raise e)
  | Ok base_id =>
      match next_free_id (S n) m items (py_str base_id) 1 with
      | None => None
      | Some (Raise e) => Some (Raise e)
      | Some (Ok (_, new_id)) =>
          let m := mem_set (n, 0%nat) (JStr new_id) m in
          let item := dict_set "id" (n, 0%nat) item in
          match subscript m (PyDict item) "name" with
          | Raise e => Some (Raise e)
          | Ok name =>
              let m := mem_set (n, 1%nat) (JStr (py_str name +:+ " (Copy)")) m in
              let item := dict_set "name" (n, 1%nat) item in
              let after_badge : result memory :=
                match dict_get "badge" item with
                | Some lb =>
                    if truthy (m lb) then
                      match m lb with
                      | JDict b =>
                          let b := dict_set "id" (JStr new_id) b in
                          let old := default (JStr "") (dict_get "name" b) in
                          let b := dict_set "name" (JStr (py_str old +:+ " (Copy)")) b in
                          Ok (mem_set lb (JDict b) m)
                      | v => Raise (assignment_error v)
                      end
                    else Ok m
                | None => Ok m
                end in
              match after_badge with
              | Raise e => Some (Raise e)
              | Ok m =>
                  let items := items ++ [PyDict item] in
                  Some (Ok (JDict (dict_set "items" (JList (dump_item m <$> items)) top)))
              end
          end
      end
  end.

(** The in-memory part of the route; [Ok None] is "Item not found". *)
Definition duplicate_data (item_id : string) (data : json) : option (result (option json)) :=
  match data with
  | JDict top =>
      match dict_get "items" top with
      | None => Some (Raise (KeyError "'items'"))
      | Some (JList raw) =>
          let m := load_memory raw in
          let items := load_items raw in
          match find_item m item_id items with
          | Raise e => Some (Raise e)
          | Ok None => Some (Ok None)
          | Ok (Some a) =>
              match copy_and_append top m items a with
              | None => None
              | Some (Raise e) => Some (Raise e)
              | Some (Ok data') => Some (Ok (Some data'))
              end
          end
      | Some (JStr s) =>
          if String.eqb s "" then Some (Ok None)
          else Some (Raise (subscript_error (JStr s)))
      | Some (JDict d) =>
          if bool_decide (length d = 0%nat) then Some (Ok None)
          else Some (Raise (subscript_error (JStr "")))
      | Some v => Some (Raise (TypeError ("'" +:+ type_name v +:+ "' object is not iterable")))
      end
  | v => Some (Raise (subscript_error v))
  end.

Variable BASE_DIR : list string.
Variable E : JSONHandler.env.

(** [flash(message, category)] followed by [redirect(url_for('item.list'))] *)
Inductive response : Type :=
| Flash (message category : string).

Definition duplicate (item_id : string) (s : JSONHandler.store)
    : option (JSONHandler.store * result response) :=
  match JSONHandler.read BASE_DIR s with
  | Raise e => Some (s, Raise e)
  | Ok data =>
      match duplicate_data item_id data with
      | None => None
      | Some (Raise e) => Some (s, Raise e)
      | Some (Ok None) => Some (s, Ok (Flash "Item not found" "error"))
      | Some (Ok (Some data')) =>
          match JSONHandler.write E data' true s with
          | (s', Ok _) => Some (s', Ok (Flash "Item duplicated successfully" "success"))
          | (s', Raise e) =>
              Some (s', Ok (Flash ("Error duplicating item: " +:+ exn_str e) "error"))
          end
      end
  end.

(** [flash(message, category)] followed by [redirect(url_for('item.list'))] *)
Definition to_list (message category : string) : Flask.response :=
  {| Flask.flashed := [(message, category)];
     Flask.returned := Flask.Redirect "item.list" |}.

(** [user] is [current_user.id]. *)
Definition delete (user : Z) (item_id : string) (st : site) : site * result Flask.response :=
  match JSONHandler.read BASE_DIR (files st) with
  | Raise e => (st, Raise e)
  | Ok data =>
      match pop_by_id "items" item_id data with
      | Raise e => (st, Raise e)
      | Ok None => (st, Ok (to_list "Item not found" "error"))
      | Ok (Some (item, data)) =>
          match JSONHandler.write E data true (files st) with
          | (fs, Raise e) =>
              ({| files := fs; change_log := change_log st |},
               Ok (to_list ("Error deleting item: " +:+ exn_str e) "error"))
          | (fs, Ok _) =>
              match getitem item "name" with
              | Raise e =>
                  ({| files := fs; change_log := change_log st |},
                   Ok (to_list ("Error deleting item: " +:+ exn_str e) "error"))
              | Ok name =>
                  let change :=
                    {| Models.user_id := user;
                       Models.action := "delete";
                       Models.entity_type := "item";
                       Models.entity_id := item_id;
                       Models.changes := "Deleted item: " +:+ py_str name |} in
                  ({| files := fs; change_log := change_log st ++ [change] |},
                   Ok (to_list "Item deleted successfully" "success"))
              end
          end
      end
  end.

End Routes.
End ItemRoutes.

(** ** The game badge routes (cms/routes/badge_routes.py) *)

Module BadgeRoutes.
Section Routes.

Context `{Runtime}.

(** The file system the validator looks at. *)
Variable root : FS.node.
Variable BASE_DIR : list string.
Variable E : JSONHandler.env.

(** [flash(message, category)] followed by [redirect(url_for('badge.list'))] *)
Definition to_list (message category : string) : Flask.response :=
  {| Flask.flashed := [(message, category)];
     Flask.returned := Flask.Redirect "badge.list" |}.

(** [render_template('badges/edit.html', badge=badge, badge_type='game')] *)
Definition edit_page (badge : json) : Flask.view :=
  Flask.Render "badges/edit.html" [("badge", badge); ("badge_type", JStr "game")].

(** [request.form.get(key, '')] *)
Definition form_get (form : list (string * string)) (key : string) : string :=
  default "" (dict_get key form).

(** The four assignments of [edit_game] to the badge found. *)
Definition fill_in (form : list (string * string)) (badge : dict) : dict :=
  let badge := dict_set "name" (JStr (form_get form "name")) badge in
  let badge := dict_set "description" (JStr (form_get form "description")) badge in
  let badge := dict_set "icon" (JStr (form_get form "icon")) badge in
  let badge := dict_set "gamePath" (JStr (form_get form "gamePath")) badge in
  badge.

(** [method] is [request.method], [form] is [request.form], [user] is
    [current_user.id]. *)
Definition edit_game (user : Z) (method : string) (form : list (string * string))
    (badge_id : string) (st : site) : site * result Flask.response :=
  match JSONHandler.read BASE_DIR (files st) with
  | Raise e => (st, Raise e)
  | Ok data =>
      match ItemRoutes.getitem data "gameBadges" with
      | Raise e => (st, Raise e)
      | Ok coll =>
          match ItemRoutes.iterate coll with
          | Raise e => (st, Raise e)
          | Ok elements =>
              match ItemRoutes.find_index (λ v, ItemRoutes.eq_str v badge_id) 0 elements with
              | Raise e => (st, Raise e)
              | Ok None => (st, Ok (to_list "Badge not found" "error"))
              | Ok (Some (badge_index, JDict badge)) =>
                  if negb (String.eqb method "POST") then
                    (st, Ok {| Flask.flashed := [];
                               Flask.returned := edit_page (JDict badge) |})
                  else
                    let badge := fill_in form badge in
                    let data :=
                      ItemRoutes.with_collection "gameBadges"
                        (ItemRoutes.put badge_index (JDict badge) coll) data in
                    let errors := Validator.validate_badge root BASE_DIR badge in
                    if negb (bool_decide (errors = [])) then
                      (st, Ok {| Flask.flashed :=
                                   [("Validation errors: " +:+ str_join ", " errors, "error")];
                                 Flask.returned := edit_page (JDict badge) |})
                    else
                      match JSONHandler.write E data true (files st) with
                      | (fs, Raise e) =>
                          ({| files := fs; change_log := change_log st |},
                           Ok {| Flask.flashed :=
                                   [("Error saving badge: " +:+ exn_str e, "error")];
                                 Flask.returned := edit_page (JDict badge) |})
                      | (fs, Ok _) =>
                          let change :=
                            {| Models.user_id := user;
                               Models.action := "update";
                               Models.entity_type := "game_badge";
                               Models.entity_id := badge_id;
                               Models.changes :=
                                 "Updated game badge: "
                                 +:+ py_str (dict_item "name" badge) |} in
                          ({| files := fs; change_log := change_log st ++ [change] |},
                           Ok (to_list "Badge updated successfully" "success"))
                      end
              | Ok (Some (_, v)) => (st, Raise (ItemRoutes.assignment_error v))
              end
          end
      end
  end.

Definition delete_game (user : Z) (badge_id : string) (st : site)
    : site * result Flask.response :=
  match JSONHandler.read BASE_DIR (files st) with
  | Raise e => (st, Raise e)
  | Ok data =>
      match ItemRoutes.pop_by_id "gameBadges" badge_id data with
      | Raise e => (st, Raise e)
      | Ok None => (st, Ok (to_list "Badge not found" "error"))
      | Ok (Some (badge, data)) =>
          match JSONHandler.write E data true (files st) with
          | (fs, Raise e) =>
              ({| files := fs; change_log := change_log st |},
               Ok (to_list ("Error deleting badge: " +:+ exn_str e) "error"))
          | (fs, Ok _) =>
              match ItemRoutes.getitem badge "name" with
              | Raise e =>
                  ({| files := fs; change_log := change_log st |},
                   Ok (to_list ("Error deleting badge: " +:+ exn_str e) "error"))
              | Ok name =>
                  let change :=
                    {| Models.user_id := user;
                       Models.action := "delete";
                       Models.entity_type := "game_badge";
                       Models.entity_id := badge_id;
                       Models.changes := "Deleted game badge: " +:+ py_str name |} in
                  ({| files := fs; change_log := change_log st ++ [change] |},
                   Ok (to_list "Badge deleted successfully" "success"))
              end
          end
      end
  end.

End Routes.
End BadgeRoutes.

(** ** The map routes (cms/routes/map_routes.py) *)

Module MapRoutes.

(** [jsonify({'error': message}), status] *)
Definition error (message : string) (status : nat) : Flask.response :=
  {| Flask.flashed := [];
     Flask.returned := Flask.Jsonify (JDict [("error", JStr message)]) status |}.

(** The [AttributeError] of [request.json.get] when the body is no object. *)
Definition no_get (body : json) : exn :=
  AttributeError ("'" +:+ type_name body +:+ "' object has no attribute 'get'").

Section Routes.

Context `{Runtime}.
Variable BASE_DIR : list string.
Variable E : JSONHandler.env.

(** [i['location'] = {'lat': lat, 'lng': lng}; i['radiusMeters'] = radius] *)
Definition relocate (lat lng radius : json) (i : dict) : dict :=
  let i := dict_set "location" (JDict [("lat", lat); ("lng", lng)]) i in
  let i := dict_set "radiusMeters" radius i in
  i.

(** [body] is [request.json]. *)
Definition update_location (body : json) (s : JSONHandler.store)
    : JSONHandler.store * result Flask.response :=
  match JSONHandler.read BASE_DIR s with
  | Raise e => (s, Raise e)
  | Ok data =>
      match body with
      | JDict request =>
          let item_id := default JNull (dict_get "item_id" request) in
          let lat := default JNull (dict_get "lat" request) in
          let lng := default JNull (dict_get "lng" request) in
          let radius := default (JInt 10) (dict_get "radius" request) in
          if negb (truthy item_id) || is_none lat || is_none lng then
            (s, Ok (error "Missing required fields" 400))
          else
            match Validator.validate_coordinates lat lng with
            | Raise e => (s, Raise e)
            | Ok false => (s, Ok (error "Invalid coordinates" 400))
            | Ok true =>
                match ItemRoutes.change_by_id "items" (λ v, py_eq v item_id)
                        (λ i, Ok (relocate lat lng radius i)) data with
                | Raise e => (s, Raise e)
                | Ok None => (s, Ok (error "Item not found" 404))
                | Ok (Some (item, data)) =>
                    match JSONHandler.write E data true s with
                    | (s, Ok _) =>
                        (s, Ok {| Flask.flashed := [];
                                  Flask.returned :=
                                    Flask.Jsonify
                                      (JDict [("success", JBool true); ("item", JDict item)])
                                      200 |})
                    | (s, Raise e) => (s, Ok (error (exn_str e) 500))
                    end
                end
            end
      | _ => (s, Raise (no_get body))
      end
  end.

End Routes.
End MapRoutes.

(** ** The content routes (cms/routes/content_routes.py) *)

Module ContentRoutes.

(** [field in d] for a dict with string keys: a list or a dict has no
    hash, and no other value equals a string. *)
Definition contains (field : json) (d : dict) : result bool :=
  match field with
  | JStr k => Ok (dict_mem k d)
  | JList _ | JDict _ => Raise (TypeError ("unhashable type: '" +:+ type_name field +:+ "'"))
  | _ => Ok false
  end.

(** [d[field] = value], reached when [field in d] holds: [field] is then a
    string. *)
Definition assign (field value : json) (d : dict) : dict :=
  match field with
  | JStr k => dict_set k value d
  | _ => d
  end.

(** [item['badge'][key] = value], reached when [item.get('badge')] is true *)
Definition assign_in_badge (key : string) (value : json) (item : dict) : result dict :=
  match dict_item "badge" item with
  | JDict badge => Ok (dict_set "badge" (JDict (dict_set key value badge)) item)
  | v => Raise (ItemRoutes.assignment_error v)
  end.

(** The body of the loop over the items, for the item found. *)
Definition change_item (field value : json) (item : dict) : result dict :=
  match contains field item with
  | Raise e => Raise e
  | Ok true => Ok (assign field value item)
  | Ok false =>
      if ItemRoutes.eq_str field "badge_description"
         && truthy (default JNull (dict_get "badge" item))
      then assign_in_badge "description" value item
      else if ItemRoutes.eq_str field "badge_name"
              && truthy (default JNull (dict_get "badge" item))
      then assign_in_badge "name" value item
      else Ok item
  end.

(** The body of the loop over the game badges, for the badge found. *)
Definition change_badge (field value : json) (badge : dict) : result dict :=
  match contains field badge with
  | Raise e => Raise e
  | Ok true => Ok (assign field value badge)
  | Ok false => Ok badge
  end.

Section Routes.

Context `{Runtime}.
Variable BASE_DIR : list string.
Variable E : JSONHandler.env.

(** The document after the [# Find and update] part of [update]. *)
Definition find_and_update (entity_type entity_id field value : json) (data : json)
    : result json :=
  if ItemRoutes.eq_str entity_type "item" then
    match ItemRoutes.change_by_id "items" (λ v, py_eq v entity_id)
            (change_item field value) data with
    | Raise e => Raise e
    | Ok None => Ok data
    | Ok (Some (_, data)) => Ok data
    end
  else if ItemRoutes.eq_str entity_type "game_badge" then
    match ItemRoutes.change_by_id "gameBadges" (λ v, py_eq v entity_id)
            (change_badge field value) data with
    | Raise e => Raise e
    | Ok None => Ok data
    | Ok (Some (_, data)) => Ok data
    end
  else Ok data.

(** [body] is [request.json]. *)
Definition update (body : json) (s : JSONHandler.store)
    : JSONHandler.store * result Flask.response :=
  match JSONHandler.read BASE_DIR s with
  | Raise e => (s, Raise e)
  | Ok data =>
      match body with
      | JDict request =>
          let entity_type := default JNull (dict_get "type" request) in
          let entity_id := default JNull (dict_get "id" request) in
          let field := default JNull (dict_get "field" request) in
          let value := default JNull (dict_get "value" request) in
          if negb (truthy entity_type && truthy entity_id && truthy field
                   && negb (is_none value)) then
            (s, Ok (MapRoutes.error "Missing required fields" 400))
          else
            match find_and_update entity_type entity_id field value data with
            | Raise e => (s, Raise e)
            | Ok data =>
                match JSONHandler.write E data true s with
                | (s, Ok _) =>
                    (s, Ok {| Flask.flashed := [];
                              Flask.returned :=
                                Flask.Jsonify (JDict [("success", JBool true)]) 200 |})
                | (s, Raise e) => (s, Ok (MapRoutes.error (exn_str e) 500))
                end
            end
      | _ => (s, Raise (MapRoutes.no_get body))
      end
  end.

End Routes.
End ContentRoutes.

(** ** The backup pages (cms/routes/admin_routes.py) *)

Module AdminRoutes.
Section Routes.

Variable BASE_DIR : list string.
Variable E : JSONHandler.env.
Variable timestamp : Type.
Variable created : string → timestamp.

(** The list handed to [admin/backups.html]. *)
Definition backups (s : JSONHandler.store) : list (JSONHandler.backup_entry timestamp) :=
  BackupService.list_backups BASE_DIR timestamp created 50 s.

(** [flash(message, category)] followed by
    [redirect(url_for('admin.backups'))] *)
Definition to_backups (message category : string) : Flask.response :=
  {| Flask.flashed := [(message, category)];
     Flask.returned := Flask.Redirect "admin.backups" |}.

(** [backup_name] is [request.form.get('backup_name')]. *)
Definition restore_backup (backup_name : option string) (s : JSONHandler.store)
    : JSONHandler.store * Flask.response :=
  match backup_name with
  | None => (s, to_backups "Backup name required" "error")
  | Some backup_name =>
      if String.eqb backup_name "" then (s, to_backups "Backup name required" "error")
      else
        match BackupService.restore_backup BASE_DIR E backup_name s with
        | (s, Ok _) => (s, to_backups "Backup restored successfully" "success")
        | (s, Raise e) => (s, to_backups ("Error restoring backup: " +:+ exn_str e) "error")
        end
  end.

End Routes.
End AdminRoutes.

(** ** The record-level rules of the specification (section 4.2)

    Each rule looks at one field of the record and yields the violations of
    that field alone; [item_violations] applies every rule.  These follow
    the specification's list of rules and are compared with
    [Validator.validate_item] and [Validator.validate_badge] below. *)

Module Rules.
Section Rules.

Variable root : FS.node.
Variable BASE_DIR : list string.

Definition missing_message (field : string) : string :=
  "Missing required field: " +:+ field.

Definition missing_fields (required : list string) (record : dict) : list string :=
  filter (λ field, dict_mem field record = false) required.

Definition rule_id (record : dict) : list string :=
  if Validator.nonempty_str (dict_item "id" record) then []
  else ["'id' must be a non-empty string"].

Definition rule_name (record : dict) : list string :=
  if Validator.nonempty_str (dict_item "name" record) then []
  else ["'name' must be a non-empty string"].

Definition rule_lat (location : dict) : list string :=
  if Validator.number_between (-90) (dict_item "lat" location) 90 then []
  else ["'location.lat' must be between -90 and 90"].

Definition rule_lng (location : dict) : list string :=
  if Validator.number_between (-180) (dict_item "lng" location) 180 then []
  else ["'location.lng' must be between -180 and 180"].

Definition rule_location (record : dict) : list string :=
  match dict_item "location" record with
  | JDict location =>
      if dict_mem "lat" location && dict_mem "lng" location
      then rule_lat location ++ rule_lng location
      else ["'location' must have 'lat' and 'lng'"]
  | _ => ["'location' must be an object"]
  end.

Definition rule_radius (record : dict) : list string :=
  if Validator.not_positive_number (dict_item "radiusMeters" record)
  then ["'radiusMeters' must be a positive number"] else [].

Definition rule_asset (holder : dict) (key field_name : string) : list string :=
  Validator._validate_asset_path root BASE_DIR (dict_item key holder) field_name.

Definition rule_icon (record : dict) : list string :=
  match dict_item "icon" record with
  | JDict icon =>
      if dict_mem "shadow" icon && dict_mem "found" icon
      then rule_asset icon "shadow" "icon.shadow" ++ rule_asset icon "found" "icon.found"
      else ["'icon' must have 'shadow' and 'found'"]
  | _ => ["'icon' must be an object"]
  end.

Definition rule_model (record : dict) : list string :=
  match dict_item "model" record with
  | JDict model =>
      (if dict_mem "url" model then rule_asset model "url" "model.url"
       else ["'model' must have 'url'"])
      ++ (if dict_mem "usdz" model then rule_asset model "usdz" "model.usdz" else [])
  | _ => ["'model' must be an object"]
  end.

Definition rule_badge (record : dict) : list string :=
  match dict_item "badge" record with
  | JDict badge =>
      (if dict_mem "id" badge then [] else ["'badge' must have 'id'"])
      ++ (if dict_mem "name" badge then [] else ["'badge' must have 'name'"])
      ++ (if dict_mem "icon" badge then rule_asset badge "icon" "badge.icon" else [])
  | _ => ["'badge' must be an object"]
  end.

Definition item_violations (item : dict) : list string :=
  rule_id item ++ rule_name item ++ rule_location item ++ rule_radius item
  ++ rule_icon item ++ rule_model item ++ rule_badge item.

Definition badge_required : list string := ["id"; "name"; "description"].

Definition badge_violations (badge : dict) : list string :=
  rule_id badge
  ++ (if dict_mem "icon" badge then rule_asset badge "icon" "icon" else []).

End Rules.
End Rules.

(** ** The structural invariant of a document (specification, section 3) *)

Module Structure.

(** The [id] of an element that is an object carrying one. *)
Definition entry_id (v : json) : option json :=
  match v with
  | JDict d => dict_get "id" d
  | _ => None
  end.

(** Every element is an object with an [id]. *)
Definition all_have_id (l : list json) : Prop :=
  Forall (λ v, is_Some (entry_id v)) l.

(** Two ids are the same id: equal as keys, or the very same value. *)
Definition same_id (a b : json) : Prop := key_eq a b = true ∨ a = b.

(** No two elements share an [id]. *)
Definition no_duplicate_id (l : list json) : Prop :=
  ∀ i j va vb a b,
    (i < j)%nat → l !! i = Some va → l !! j = Some vb →
    entry_id va = Some a → entry_id vb = Some b → ¬ same_id a b.

Definition valid_collection (l : list json) : Prop :=
  all_have_id l ∧ no_duplicate_id l.

Definition valid_document (data : json) : Prop :=
  ∃ top items game_badges,
    data = JDict top
    ∧ dict_get "items" top = Some (JList items)
    ∧ dict_get "gameBadges" top = Some (JList game_badges)
    ∧ valid_collection items
    ∧ valid_collection game_badges.

(** Every [id] of the collection can be put in a [set]. *)
Definition ids_hashable (l : list json) : Prop :=
  Forall (λ v, ∀ a, entry_id v = Some a → hashable a = true) l.

Definition doc_ids_hashable (data : json) : Prop :=
  ∀ top key l,
    data = JDict top → key = "items" ∨ key = "gameBadges" →
    dict_get key top = Some (JList l) → ids_hashable l.

(** [SchemaError]: a [ValueError] raised by [_validate_structure]. *)
Definition is_schema_error (e : exn) : Prop := ∃ msg, e = ValueError msg.

End Structure.

(** ** Sequences of writes, for the retention property (specification,
    section 8) *)

Module Scenario.

Import JSONHandler.

(** A call during which nothing fails in the environment. *)
Definition quiet (t : datetime) : env := {| now := t; failing := NoFault |}.

Definition name_at (t : datetime) : string := backup_file_name (quiet t).

(** Successive validated writes of [data], one for each time given. *)
Fixpoint writes `{Runtime} (times : list datetime) (data : json) (s : store) : store :=
  match times with
  | [] => s
  | t :: rest => writes rest data (write (quiet t) data true s).1
  end.

(** Strictly earlier in file-name order. *)
Definition name_lt (a b : string) : Prop := String.le a b ∧ a ≠ b.

End Scenario.

(** ** Duplicating an item (specification, section 3) *)

Module Copying.

(** [a['id'] == s] holds for the object [a]. *)
Definition has_id (m : ItemRoutes.memory) (s : string) (o : ItemRoutes.pyobj) : bool :=
  match ItemRoutes.subscript m o "id" with
  | Ok a => ItemRoutes.eq_str a s
  | Raise _ => false
  end.

Section Copying.

Context `{Runtime}.

(** An existing item carries this id. *)
Definition id_taken (items : list json) (id : string) : Prop :=
  ∃ v, v ∈ items ∧ Structure.entry_id v = Some (JStr id).

(** The first item whose id is [item_id] is item number [i] and is [d]. *)
Definition first_with_id (items : list json) (item_id : string) (i : nat) (d : dict) : Prop :=
  items !! i = Some (JDict d)
  ∧ dict_get "id" d = Some (JStr item_id)
  ∧ ∀ j v, (j < i)%nat → items !! j = Some v → Structure.entry_id v ≠ Some (JStr item_id).

(** The embedded badge can be renamed: it is an object, or it is absent
    or empty ([None], [""], [{}], ...) and is then left alone. *)
Definition badge_is_object_or_unset (d : dict) : Prop :=
  ∀ v, dict_get "badge" d = Some v → truthy v = true → ∃ b, v = JDict b.

(** The badge with the id of the copy and the copy marker. *)
Definition renamed_badge (new_id : string) (b : dict) : dict :=
  dict_set "name"
    (JStr (py_str (default (JStr "") (dict_get "name" b)) +:+ " (Copy)"))
    (dict_set "id" (JStr new_id) b).

Definition badge_after (new_id : string) (v : json) : json :=
  match v with
  | JDict b => if truthy v then JDict (renamed_badge new_id b) else v
  | _ => v
  end.

(** The item that was copied, as the document holds it afterwards. *)
Definition original_after (new_id : string) (d : dict) : dict :=
  match dict_get "badge" d with
  | Some v => dict_set "badge" (badge_after new_id v) d
  | None => d
  end.

(** The appended record. *)
Definition the_copy (new_id : string) (name : json) (d : dict) : dict :=
  dict_set "name" (JStr (py_str name +:+ " (Copy)"))
    (dict_set "id" (JStr new_id) (original_after new_id d)).

End Copying.
End Copying.

(** ** A runtime for the worked examples

    A printer in the layout of [json.dumps(indent=2, ensure_ascii=False)]
    and a reader for JSON text without fractions, exponents and [\u]
    escapes, which gives up with [RecursionError] on a nesting deeper than
    [recursion_limit].  It only serves to run the examples on file contents that can
    be read; the theorems hold for every [Runtime]. *)

Module ExampleRuntime.

Fixpoint spaces (n : nat) : string :=
  match n with
  | O => ""
  | S n' => String " " (spaces n')
  end.

Fixpoint zeros (n : nat) : string :=
  match n with
  | O => ""
  | S n' => String "0" (zeros n')
  end.

Fixpoint strip_zeros (s : string) : string :=
  match s with
  | String "0" s' => strip_zeros s'
  | _ => s
  end.

(** The exact decimal expansion of [m * 2^e]. *)
Definition float_text (f : pyfloat) : string :=
  match f with
  | FNan => "NaN"
  | FInf neg => if neg then "-Infinity" else "Infinity"
  | FFinite m e =>
      if (0 <=? e)%Z then pretty (m * 2 ^ e)%Z +:+ ".0"
      else
        let k := Z.to_nat (- e) in
        let digits := pretty (Z.abs m * 5 ^ (- e))%Z in
        let digits := zeros (S k - String.length digits) +:+ digits in
        let whole := str_take (String.length digits - k) digits in
        let frac := String.rev (strip_zeros (String.rev (str_drop (String.length digits - k) digits))) in
        (if (m <? 0)%Z then "-" else "") +:+ whole +:+ "."
        +:+ (if String.eqb frac "" then "0" else frac)
  end.

Definition hex_digit (n : nat) : ascii :=
  if (n <? 10)%nat then ascii_of_nat (48 + n) else ascii_of_nat (87 + n).

Fixpoint escape (s : string) : string :=
  match s with
  | EmptyString => ""
  | String c s' =>
      let n := nat_of_ascii c in
      (if Ascii.eqb c "034" then String "\" (String "034" "")
       else if Ascii.eqb c "\" then "\\"
       else if (n =? 10)%nat then "\n"
       else if (n =? 13)%nat then "\r"
       else if (n =? 9)%nat then "\t"
       else if (n =? 8)%nat then "\b"
       else if (n =? 12)%nat then "\f"
       else if (n <? 32)%nat
       then "\u00" +:+ String (hex_digit (n / 16)) (String (hex_digit (n mod 16)) "")
       else String c "")
      +:+ escape s'
  end.

Definition quote (s : string) : string :=
  String "034" (escape s +:+ String "034" "").

Fixpoint join (sep : string) (parts : list string) : string :=
  match parts with
  | [] => ""
  | [p] => p
  | p :: ps => p +:+ sep +:+ join sep ps
  end.

Definition newline : string := String (ascii_of_nat 10) "".

Fixpoint dumps_at (indent : nat) (v : json) : string :=
  match v with
  | JNull => "null"
  | JBool b => if b then "true" else "false"
  | JInt z => pretty z
  | JFloat f => float_text f
  | JStr s => quote s
  | JList [] => "[]"
  | JList l =>
      "[" +:+ newline
      +:+ join ("," +:+ newline)
            (map (λ x, spaces (indent + 2) +:+ dumps_at (indent + 2) x) l)
      +:+ newline +:+ spaces indent +:+ "]"
  | JDict [] => "{}"
  | JDict d =>
      "{" +:+ newline
      +:+ join ("," +:+ newline)
            (map (λ kv, let '(k, x) := kv in
                        spaces (indent + 2) +:+ quote k +:+ ": "
                        +:+ dumps_at (indent + 2) x) d)
      +:+ newline +:+ spaces indent +:+ "}"
  end.

Fixpoint repr (v : json) : string :=
  match v with
  | JNull => "None"
  | JBool b => if b then "True" else "False"
  | JInt z => pretty z
  | JFloat FNan => "nan"
  | JFloat (FInf neg) => if neg then "-inf" else "inf"
  | JFloat f => float_text f
  | JStr s => "'" +:+ s +:+ "'"
  | JList l => "[" +:+ join ", " (map repr l) +:+ "]"
  | JDict d =>
      "{" +:+ join ", " (map (λ kv, let '(k, x) := kv in
                                    "'" +:+ k +:+ "': " +:+ repr x) d) +:+ "}"
  end.

(** *** The reader *)

Definition is_ws (c : ascii) : bool :=
  let n := nat_of_ascii c in
  (n =? 32)%nat || (n =? 10)%nat || (n =? 13)%nat || (n =? 9)%nat.

Fixpoint skip_ws (s : string) : string :=
  match s with
  | String c s' => if is_ws c then skip_ws s' else s
  | EmptyString => s
  end.

Definition digit_value (c : ascii) : option Z :=
  let n := nat_of_ascii c in
  if (48 <=? n)%nat && (n <=? 57)%nat then Some (Z.of_nat (n - 48)) else None.

Fixpoint read_digits (acc : Z) (s : string) : Z * string :=
  match s with
  | String c s' =>
      match digit_value c with
      | Some d => read_digits (10 * acc + d) s'
      | None => (acc, s)
      end
  | EmptyString => (acc, s)
  end.

(** After the opening quote: the characters up to the closing quote. *)
Fixpoint read_string (acc : string) (s : string) : option (string * string) :=
  match s with
  | EmptyString => None
  | String c s' =>
      if Ascii.eqb c "034" then Some (String.rev acc, s')
      else if Ascii.eqb c "\" then
        match s' with
        | String e s'' =>
            let put (n : nat) := read_string (String (ascii_of_nat n) acc) s'' in
            if Ascii.eqb e "034" then put 34%nat
            else if Ascii.eqb e "\" then put 92%nat
            else if Ascii.eqb e "/" then put 47%nat
            else if Ascii.eqb e "n" then put 10%nat
            else if Ascii.eqb e "r" then put 13%nat
            else if Ascii.eqb e "t" then put 9%nat
            else if Ascii.eqb e "b" then put 8%nat
            else if Ascii.eqb e "f" then put 12%nat
            else None
        | EmptyString => None
        end
      else if (nat_of_ascii c <? 32)%nat then None
      else read_string (String c acc) s'
  end.

Definition read_number (s : string) : option (json * string) :=
  let '(neg, s) :=
    match s with
    | String "-" s' => (true, s')
    | _ => (false, s)
    end in
  match s with
  | String c s' =>
      match digit_value c with
      | None => None
      | Some d =>
          let '(n, rest) :=
            if (d =? 0)%Z then (0%Z, s') else read_digits d s' in
          match rest with
          | String "." _ | String "e" _ | String "E" _ => None
          | _ => Some (JInt (if neg then - n else n), rest)
          end
      end
  | EmptyString => None
  end.

(** What the scanner makes of a text: a value and the rest of the text, a
    syntax error, or a nesting deeper than the interpreter allows ([what]
    is the container the scanner was about to enter). *)
Inductive scanned (A : Type) : Type :=
| Scanned (a : A) (rest : string)
| Syntax
| TooDeep (what : string).
Arguments Scanned {A} a rest.
Arguments Syntax {A}.
Arguments TooDeep {A} what.

Definition of_option {A} (o : option (A * string)) : scanned A :=
  match o with
  | Some (a, rest) => Scanned a rest
  | None => Syntax
  end.

Section Containers.

Variable read_value : string → scanned json.

(** After a first element: [, value]* followed by the closing bracket. *)
Fixpoint read_elements (fuel : nat) (acc : list json) (s : string)
    : scanned json :=
  match fuel with
  | O => Syntax
  | S fuel' =>
      match skip_ws s with
      | String "]" rest => Scanned (JList (reverse acc)) rest
      | String "," rest =>
          match read_value rest with
          | Scanned v rest' => read_elements fuel' (v :: acc) rest'
          | Syntax => Syntax
          | TooDeep what => TooDeep what
          end
      | _ => Syntax
      end
  end.

Definition read_member (s : string) : scanned (string * json) :=
  match skip_ws s with
  | String "034" rest =>
      match read_string "" rest with
      | Some (k, rest1) =>
          match skip_ws rest1 with
          | String ":" rest2 =>
              match read_value rest2 with
              | Scanned v rest3 => Scanned (k, v) rest3
              | Syntax => Syntax
              | TooDeep what => TooDeep what
              end
          | _ => Syntax
          end
      | None => Syntax
      end
  | _ => Syntax
  end.

Fixpoint read_members (fuel : nat) (acc : dict) (s : string)
    : scanned json :=
  match fuel with
  | O => Syntax
  | S fuel' =>
      match skip_ws s with
      | String "}" rest => Scanned (JDict acc) rest
      | String "," rest =>
          match read_member rest with
          | Scanned (k, v) rest' => read_members fuel' (dict_set k v acc) rest'
          | Syntax => Syntax
          | TooDeep what => TooDeep what
          end
      | _ => Syntax
      end
  end.

End Containers.

(** [depth] is the number of containers the scanner may still enter: it
    enters one at each opening bracket or brace, an empty container
    included. *)
Fixpoint read_value (fuel depth : nat) (s : string) {struct fuel} : scanned json :=
  match fuel with
  | O => Syntax
  | S fuel' =>
      match skip_ws s with
      | String "n" (String "u" (String "l" (String "l" rest))) => Scanned JNull rest
      | String "t" (String "r" (String "u" (String "e" rest))) => Scanned (JBool true) rest
      | String "f" (String "a" (String "l" (String "s" (String "e" rest)))) =>
          Scanned (JBool false) rest
      | String "034" rest =>
          match read_string "" rest with
          | Some (t, rest') => Scanned (JStr t) rest'
          | None => Syntax
          end
      | String "[" rest =>
          match depth with
          | O => TooDeep "array"
          | S depth' =>
              match skip_ws rest with
              | String "]" rest' => Scanned (JList []) rest'
              | _ =>
                  match read_value fuel' depth' rest with
                  | Scanned v rest' =>
                      read_elements (read_value fuel' depth') fuel' [v] rest'
                  | Syntax => Syntax
                  | TooDeep what => TooDeep what
                  end
              end
          end
      | String "{" rest =>
          match depth with
          | O => TooDeep "object"
          | S depth' =>
              match skip_ws rest with
              | String "}" rest' => Scanned (JDict []) rest'
              | _ =>
                  match read_member (read_value fuel' depth') rest with
                  | Scanned (k, v) rest' =>
                      read_members (read_value fuel' depth') fuel' [(k, v)] rest'
                  | Syntax => Syntax
                  | TooDeep what => TooDeep what
                  end
              end
          end
      | s' => of_option (read_number s')
      end
  end.

(** The nesting the scanner can follow: [sys.getrecursionlimit()] is 1000
    unless it is changed, and the frames of the caller count against it. *)
Definition recursion_limit : nat := 1000.

Definition loads (text : string) : parsed :=
  match read_value (S (String.length text)) recursion_limit text with
  | Scanned v rest =>
      if String.eqb (skip_ws rest) "" then Parsed v
      else Malformed "Extra data"
  | Syntax => Malformed "Expecting value"
  | TooDeep what =>
      Failed (RecursionError ("maximum recursion depth exceeded while decoding a JSON "
                              +:+ what +:+ " from a unicode string"))
  end.

#[export] Instance runtime : Runtime :=
  {| py_repr := repr; json_dumps := dumps_at 0; json_loads := loads |}.

End ExampleRuntime.

(** ** A small installation used in the worked examples *)

Module Demo.

Definition BASE_DIR : list string := ["srv"; "hrp"].

Definition root : FS.node :=
  FS.Dir
    [("srv", FS.Dir
       [("hrp", FS.Dir
          [("assets", FS.Dir
             [("icons", FS.Dir
                [("shadows", FS.Dir [("fox.svg", FS.File "<svg/>")]);
                 ("found", FS.Dir [("fox.svg", FS.File "<svg/>")])]);
              ("wayfinding", FS.Dir
                [("model", FS.Dir [("fox.glb", FS.File "glTF")])])]);
           ("data", FS.Dir [("assets.json", FS.File "{}")])]);
        ("secret.txt", FS.File "token")]);
     ("etc", FS.Dir [("passwd", FS.File "root:x:0:0")])].

(** An item with every required field and four violations. *)
Definition bad_item : dict :=
  [("id", JStr "");
   ("name", JStr "Fox");
   ("scientificName", JStr "Vulpes vulpes");
   ("description", JStr "");
   ("badgeDescription", JStr "");
   ("location", JDict [("lat", JInt 91); ("lng", JFloat (FFinite (-1) (-4)))]);
   ("radiusMeters", JInt 0);
   ("icon", JDict [("shadow", JStr "../../assets/icons/shadows/missing.svg");
                   ("found", JStr "../../assets/icons/found/fox.svg")]);
   ("model", JDict [("url", JStr "../../assets/wayfinding/model/fox.glb")]);
   ("ping", JDict [("cooldownMinutes", JInt 3)]);
   ("badge", JDict [("id", JStr "fox"); ("name", JStr "Fox")])].

(** A record without [name] and [badge]. *)
Definition partial_item : dict :=
  [("id", JStr "fox");
   ("scientificName", JStr "Vulpes vulpes");
   ("description", JStr "");
   ("badgeDescription", JStr "");
   ("location", JStr "nowhere");
   ("radiusMeters", JInt 0);
   ("icon", JNull);
   ("model", JNull);
   ("ping", JNull)].

Definition bad_badge : dict :=
  [("id", JStr ""); ("name", JStr "Fox"); ("description", JStr "");
   ("icon", JStr "badges/fox.svg")].

Definition partial_badge : dict := [("id", JStr "fox")].

(** A name of 256 bytes, one more than a directory entry may have. *)
Fixpoint copies (n : nat) (c : ascii) : string :=
  match n with
  | O => ""
  | S n' => String c (copies n' c)
  end.

Definition long_name : string := copies 256 "a".

End Demo.

(** ** Stores and calls used in the worked examples of the handler *)

Module DemoStore.

Import JSONHandler ExampleRuntime Scenario.

Definition at_second (n : nat) : datetime :=
  {| year := 2024; month := 1; day := 1;
     hour := 0; minute := n / 60; second := n mod 60 |}.

Definition stamp (n : nat) : string := backup_file_name (quiet (at_second n)).

Definition document_text : string :=
  json_dumps (JDict [("items", JList [JDict [("id", JStr "fox")]]);
                     ("gameBadges", JList [])]).

(** The document file and no backup yet. *)
Definition fresh : store :=
  {| live := Some document_text; temp := None; backups := ∅ |}.

(** No document file yet: the state before the first write. *)
Definition first_run : store :=
  {| live := None; temp := None; backups := ∅ |}.

(** The steady state of the backup directory: fifty backups, taken at
    seconds 1 to 50. *)
Definition full : store :=
  {| live := Some document_text;
     temp := None;
     backups := list_to_map ((λ n, (stamp n, "backup " +:+ pretty n)) <$> seq 1 50) |}.

(** [n] opening brackets and as many closing ones before [rest]: the empty
    array nested [n] deep, a JSON text. *)
Fixpoint nested (n : nat) (rest : string) : string :=
  match n with
  | O => rest
  | S n' => String "[" (nested n' (String "]" rest))
  end.

(** A document file whose nesting is deeper than the interpreter follows. *)
Definition deep : store :=
  {| live := Some (nested (N.to_nat 100000) ""); temp := None; backups := ∅ |}.

End DemoStore.

(** ** A document with an item and an earlier copy of it *)

Module DemoDocument.

Definition fox_badge : dict :=
  [("id", JStr "fox"); ("name", JStr "Fox badge"); ("gamePath", JStr "games/fox")].

Definition fox : dict :=
  [("id", JStr "fox"); ("name", JStr "Fox"); ("radiusMeters", JInt 10);
   ("badge", JDict fox_badge)].

Definition earlier_copy : dict :=
  [("id", JStr "fox-copy-1"); ("name", JStr "Fox (Copy)"); ("badge", JNull)].

Definition items : list json := [JDict fox; JDict earlier_copy].

Definition top : dict := [("items", JList items); ("gameBadges", JList [])].

Definition data : json := JDict top.

(** The document after "fox" has been duplicated. *)
Definition after_duplicate : json :=
  JDict
    [("items", JList
       [JDict [("id", JStr "fox"); ("name", JStr "Fox"); ("radiusMeters", JInt 10);
               ("badge", JDict [("id", JStr "fox-copy-2");
                                ("name", JStr "Fox badge (Copy)");
                                ("gamePath", JStr "games/fox")])];
        JDict earlier_copy;
        JDict [("id", JStr "fox-copy-2"); ("name", JStr "Fox (Copy)");
               ("radiusMeters", JInt 10);
               ("badge", JDict [("id", JStr "fox-copy-2");
                                ("name", JStr "Fox badge (Copy)");
                                ("gamePath", JStr "games/fox")])]]);
     ("gameBadges", JList [])].

(** The store that holds this document. *)
Definition store : JSONHandler.store :=
  {| JSONHandler.live := Some (ExampleRuntime.dumps_at 0 data);
     JSONHandler.temp := None;
     JSONHandler.backups := ∅ |}.

End DemoDocument.

(** ** A site with a game badge, and the requests made of it in the worked
    examples *)

Module DemoSite.

(** The working directory of the running application. *)
Definition cwd : list string := ["srv"; "hrp"; "cms"].

Definition owl_badge : dict :=
  [("id", JStr "owl"); ("name", JStr "Owl"); ("description", JStr "Night bird");
   ("icon", JStr "../../assets/icons/found/fox.svg"); ("gamePath", JStr "games/owl")].

Definition top : dict :=
  [("items", JList DemoDocument.items); ("gameBadges", JList [JDict owl_badge])].

Definition store : JSONHandler.store :=
  {| JSONHandler.live := Some (ExampleRuntime.dumps_at 0 (JDict top));
     JSONHandler.temp := None;
     JSONHandler.backups := ∅ |}.

Definition site : site := {| files := store; change_log := [] |}.

(** The same elements under other names: what [_validate_structure] cannot
    tell from [top]. *)
Definition renamed_top : dict :=
  [("gameBadges", JList [JDict [("id", JStr "owl")]]);
   ("items", JList [JDict [("id", JStr "fox"); ("name", JInt 7)];
                    JDict [("name", JNull); ("id", JStr "fox-copy-1")]])].

(** A second item with the id [fox], and a game badge without an id. *)
Definition out_of_order : dict :=
  [("items", JList [JDict DemoDocument.fox; JDict DemoDocument.earlier_copy;
                    JDict [("id", JStr "fox")]]);
   ("gameBadges", JList [JDict owl_badge; JDict [("name", JStr "Bat")]])].

(** The form of the badge editor, with an icon that is there and with one
    that is not. *)
Definition owl_form : list (string * string) :=
  [("name", "Barn owl"); ("description", "Hunts at dusk");
   ("icon", "../../assets/icons/found/fox.svg"); ("gamePath", "games/barn-owl")].

Definition owl_form_without_icon : list (string * string) :=
  [("name", "Barn owl"); ("description", "Hunts at dusk");
   ("icon", "../../assets/icons/found/owl.svg"); ("gamePath", "games/barn-owl")].

(** Requests of the map and of the content editor. *)
Definition move_fox : dict :=
  [("item_id", JStr "fox"); ("lat", JInt 51); ("lng", JInt 0); ("radius", JInt 25)].

Definition rename_fox : dict :=
  [("type", JStr "item"); ("id", JStr "fox"); ("field", JStr "name");
   ("value", JStr "Red fox")].

Definition rename_wolf : dict :=
  [("type", JStr "item"); ("id", JStr "wolf"); ("field", JStr "name");
   ("value", JStr "Grey wolf")].

(** A record with every required field and coordinates in range. *)
Definition heron : dict :=
  [("id", JStr "heron");
   ("name", JStr "Heron");
   ("scientificName", JStr "Ardea cinerea");
   ("description", JStr "Stands in the shallows");
   ("badgeDescription", JStr "");
   ("location", JDict [("lat", JInt 51); ("lng", JInt 0)]);
   ("radiusMeters", JInt 10);
   ("icon", JDict [("shadow", JStr "../../assets/icons/shadows/fox.svg");
                   ("found", JStr "../../assets/icons/found/fox.svg")]);
   ("model", JDict [("url", JStr "../../assets/wayfinding/model/fox.glb")]);
   ("ping", JDict [("cooldownMinutes", JInt 3)]);
   ("badge", JDict [("id", JStr "heron"); ("name", JStr "Heron")])].

End DemoSite.

(** ** What structural validation can see of an element

    Two elements look alike to [_validate_structure] when both are objects
    with the same [id] (or both without one), or neither is an object. *)

Module Shape.

Definition same_id_shape (a b : json) : Prop :=
  match a, b with
  | JDict da, JDict db => dict_get "id" da = dict_get "id" db
  | JDict _, _ | _, JDict _ => False
  | _, _ => True
  end.

(** The ids of the elements, in order; [None] for an element that is no
    object with an id. *)
Definition ids (l : list json) : list json :=
  omap Structure.entry_id l.

End Shape.

(** What [_validate_structure] reports for the element [v] at index [k]
    of a collection whose elements [before] it are in order: [r] is the
    outcome of the validation. *)

Module Report.
Section Report.

Context `{Runtime}.

Definition reported (Label label : string) (before : list json) (k : nat) (v : json)
    (r : result unit) : Prop :=
  ((∀ d, v ≠ JDict d) →
     r = Raise (ValueError (Label +:+ " at index " +:+ pretty k +:+ " must be an object")))
  ∧ (∀ d, v = JDict d → dict_get "id" d = None →
       r = Raise (ValueError (Label +:+ " at index " +:+ pretty k +:+ " missing 'id'")))
  ∧ (∀ d a b, v = JDict d → dict_get "id" d = Some a → hashable a = true →
       b ∈ Shape.ids before → key_eq a b = true →
       r = Raise (ValueError ("Duplicate " +:+ label +:+ " ID: " +:+ py_str a))).

(** The collection is in order: objects with ids that are hashable and
    pairwise different. *)
Definition in_order (l : list json) : Prop :=
  Structure.valid_collection l ∧ Structure.ids_hashable l.

End Report.
End Report.

(** The fields whose values [validate_item] reads, and those
    [validate_badge] reads. *)

Module Reach.

Definition item_fields_read : list string :=
  ["id"; "name"; "location"; "radiusMeters"; "icon"; "model"; "badge"].

Definition badge_fields_read : list string := ["id"; "icon"].

End Reach.

(** ** Names of directory entries

    What the file system allows as the name of an entry: not empty, not
    [.] or [..], without a slash, at most [NAME_MAX] bytes. *)

Module Names.

Definition file_name (n : string) : Prop :=
  n ≠ "" ∧ n ≠ "." ∧ n ≠ ".." ∧ FileHandler.has_char "/"%char n = false
  ∧ (String.length n ≤ FS.NAME_MAX)%nat.

(** A directory as the file system holds it: each name once, each a file
    name. *)
Definition directory (entries : list (string * FS.node)) : Prop :=
  NoDup (entries.*1) ∧ Forall file_name (entries.*1).

End Names.

(** What [list_assets] makes of the entry called [n] of a directory
    [BASE_DIR/rel] with the entries [entries]: a regular file is listed,
    anything else is passed over. *)

Module Listing.

Definition listed (rel : list string) (entries : list (string * FS.node)) (n : string)
    : option FileHandler.asset :=
  match FS.entry n entries with
  | Some (FS.File content) =>
      Some {| FileHandler.asset_name := n;
              FileHandler.asset_path := "../../" +:+ join_slash (rel ++ [n]);
              FileHandler.asset_size := String.length content |}
  | _ => None
  end.

End Listing.

(** ** The tree before and after a file is removed

    Used to follow a walk through the tree in which the file at the
    canonical path [canon] has been removed, beside the same walk through
    the tree as it was. *)

Module Tree.

(** The node at a path without [..] parts. *)
Fixpoint descend (n : FS.node) (c : list string) : option FS.node :=
  match c with
  | [] => Some n
  | x :: r =>
      match n with
      | FS.Dir es =>
          match FS.entry x es with
          | Some child => descend child r
          | None => None
          end
      | FS.File _ => None
      end
  end.

(** The directories of a trail are those of the tree. *)
Fixpoint trail_in (root : FS.node) (t : list (string * FS.node)) : Prop :=
  match t with
  | [] => True
  | (_, p) :: t1 => descend root (reverse (t1.*1)) = Some p ∧ trail_in root t1
  end.

(** The node [cur] at the path [c] and the node [cur'] that has its place
    once the file at [canon] is removed: [c] is above the file, and [cur']
    is [cur] without it, or [c] leads elsewhere and the two are the same. *)
Definition here (canon c : list string) (cur cur' : FS.node) : Prop :=
  (∃ r content, r ≠ [] ∧ canon = c ++ r
                ∧ descend cur r = Some (FS.File content) ∧ cur' = FS.remove r cur)
  ∨ (¬ c `prefix_of` canon ∧ cur' = cur).

Fixpoint linked (canon : list string) (t t' : list (string * FS.node)) : Prop :=
  match t, t' with
  | [], [] => True
  | (x, p) :: t1, (x', p') :: t1' =>
      x = x' ∧ here canon (reverse (t1.*1)) p p' ∧ linked canon t1 t1'
  | _, _ => False
  end.

End Tree.

(** ** The element a route finds by its id *)

Module Finding.

(** The first element whose id [same] accepts is element [i], the object
    [d]; the elements before it are objects with other ids. *)
Definition first_match (same : json → bool) (l : list json) (i : nat) (d : dict) : Prop :=
  l !! i = Some (JDict d)
  ∧ (∃ a, dict_get "id" d = Some a ∧ same a = true)
  ∧ ∀ j v, (j < i)%nat → l !! j = Some v →
      ∃ b, Structure.entry_id v = Some b ∧ same b = false.

(** Every element is an object with an id, and [same] accepts none of the
    ids. *)
Definition no_match (same : json → bool) (l : list json) : Prop :=
  Forall (λ v, ∃ b, Structure.entry_id v = Some b ∧ same b = false) l.

End Finding.

(** * Theorems *)

(** ** Asset paths *)

Section ValidatorFacts.

Variable root : FS.node.
Variable BASE_DIR : list string.

(** C7, amended: for an asset path that is a string, validation returns no
    error for the empty string and exactly the one "must be a relative
    path" error for a non-empty string without the prefix.  For a prefixed
    string it goes by what [exists] answers on the resolved path: no error
    exactly when it answers [True], that is when something is at that path;
    the "path does not exist" error naming the field exactly when it
    answers [False]; and when [exists] itself raises, as it does on a
    component longer than NAME_MAX, the one error "invalid path" with the
    text of the exception.  A prefixed path at which nothing is found is
    thus reported by one of the two errors, never accepted. *)
Theorem validate_asset_path_outcomes (path field_name : string) :
  let errors := Validator._validate_asset_path root BASE_DIR (JStr path) field_name in
  let full_path := FS.joinpath BASE_DIR (str_drop 6 path) in
  let missing := "'" +:+ field_name +:+ "' path does not exist: " +:+ path in
  let invalid (e : exn) := "'" +:+ field_name +:+ "' invalid path: " +:+ exn_str e in
  (path = "" → errors = [])
  ∧ (path ≠ "" → startswith "../../" path = false →
     errors = ["'" +:+ field_name +:+ "' must be a relative path starting with '../../'"])
  ∧ (path ≠ "" → startswith "../../" path = true →
     (errors = [] ↔ FS.exists_ root full_path = Ok true)
     ∧ (errors = [] ↔ ∃ canon n, FS.stat root full_path = FS.Found canon n)
     ∧ (errors = [missing] ↔ FS.exists_ root full_path = Ok false)
     ∧ (errors = [missing] ↔ FS.stat root full_path = FS.NoEnt)
     ∧ (∀ e, FS.exists_ root full_path = Raise e → errors = [invalid e])
     ∧ (FS.stat root full_path = FS.NameTooLong
        ↔ errors = [invalid (OSError ("[Errno 36] File name too long: '"
                                      +:+ FS.path_str full_path +:+ "'"))])).
Proof.
  cbn zeta. unfold Validator._validate_asset_path.
  split; [|split].
  - intros ->. reflexivity.
  - intros Hne Hpre. apply String.eqb_neq in Hne. rewrite Hne, Hpre. reflexivity.
  - intros Hne Hpre. apply String.eqb_neq in Hne. rewrite Hne, Hpre. cbn [negb].
    assert (Hdiff : ∀ a b, ["'" +:+ field_name +:+ "' invalid path: " +:+ a]
                           ≠ ["'" +:+ field_name +:+ "' path does not exist: " +:+ b]).
    { intros a b Heq. injection Heq as Heq.
      change ("" +:+ ?x) with x in Heq.
      apply (inj (String.app field_name)) in Heq. discriminate Heq. }
    unfold FS.exists_. destruct (FS.stat root _) as [canon n| |]; cbn [app exn_str].
    + repeat split; try (intros; congruence); try (intros; discriminate).
      * intros _. by exists canon, n.
    + repeat split; try (intros; congruence); try (intros; discriminate).
      * intros (? & ? & ?). discriminate.
      * intros Heq. symmetry in Heq. by apply Hdiff in Heq.
    + repeat split; try (intros; congruence); try (intros; discriminate).
      * intros (? & ? & ?). discriminate.
      * intros Heq. by apply Hdiff in Heq.
      * intros Heq. by apply Hdiff in Heq.
      * by intros e [= <-].
Qed.

(** The two remaining outcomes of [_validate_asset_path]: a value that is
    no string, and a path on which [exists] raises. *)
Lemma validate_asset_path_other_cases (path : json) (field_name : string) :
  ((∀ s, path ≠ JStr s) →
     Validator._validate_asset_path root BASE_DIR path field_name
     = ["'" +:+ field_name +:+ "' must be a string"])
  ∧ (∀ s e, path = JStr s → s ≠ "" → startswith "../../" s = true →
       FS.exists_ root (FS.joinpath BASE_DIR (str_drop 6 s)) = Raise e →
       Validator._validate_asset_path root BASE_DIR path field_name
       = ["'" +:+ field_name +:+ "' invalid path: " +:+ exn_str e]).
Proof.
  split.
  - intros Hns. destruct path; try done. by destruct (Hns s).
  - intros s e -> Hne%String.eqb_neq Hpre Hex. unfold Validator._validate_asset_path.
    by rewrite Hne, Hpre, Hex.
Qed.

End ValidatorFacts.

(** ** Record-level validation *)

Section RecordFacts.

Variable root : FS.node.
Variable BASE_DIR : list string.

Lemma missing_loop (record : dict) (required : list string) (errors : list string) :
  foldl (λ errors field,
           if dict_mem field record then errors
           else errors ++ ["Missing required field: " +:+ field])
        errors required
  = errors ++ (Rules.missing_message <$> Rules.missing_fields required record).
Proof.
  revert errors. induction required as [|f required IH]; intros errors; cbn [foldl].
  - cbn. by rewrite app_nil_r.
  - rewrite IH. unfold Rules.missing_fields. rewrite filter_cons.
    destruct (dict_mem f record) eqn:Hf.
    + rewrite decide_False by congruence. reflexivity.
    + rewrite decide_True by reflexivity. rewrite fmap_cons, <- app_assoc. reflexivity.
Qed.

Lemma if_append {A} (b : bool) (errors : list A) (x : list A) :
  (if b then errors ++ x else errors) = errors ++ (if b then x else []).
Proof. destruct b; [reflexivity | by rewrite app_nil_r]. Qed.

Lemma if_append_neg {A} (b : bool) (errors : list A) (x : list A) :
  (if negb b then errors ++ x else errors) = errors ++ (if b then [] else x).
Proof. destruct b; [by rewrite app_nil_r | reflexivity]. Qed.

(** Names the value bound by the outermost [let] on the left of the goal,
    so that the checks can be treated one after the other. *)
Ltac name_let x :=
  lazymatch goal with
  | |- (let e := ?v in @?f e) = ?r => pose (x := v); change (f x = r); cbv beta
  end.

Lemma validate_item_missing (item : dict) :
  Rules.missing_fields Validator.required_fields item ≠ [] →
  Validator.validate_item root BASE_DIR item
  = Rules.missing_message <$> Rules.missing_fields Validator.required_fields item.
Proof.
  intros Hm. cbv delta [Validator.validate_item]. cbv beta.
  name_let e0. name_let e1.
  assert (He1 : e1 = Rules.missing_message
                       <$> Rules.missing_fields Validator.required_fields item).
  { subst e1 e0. by rewrite missing_loop. }
  clearbody e1. subst e1.
  rewrite bool_decide_eq_false_2; [reflexivity|].
  intros Hnil. apply fmap_nil_inv in Hnil. done.
Qed.

Lemma validate_item_complete (item : dict) :
  Rules.missing_fields Validator.required_fields item = [] →
  Validator.validate_item root BASE_DIR item = Rules.item_violations root BASE_DIR item.
Proof.
  intros Hm. cbv delta [Validator.validate_item]. cbv beta.
  name_let e0. name_let e1.
  assert (He1 : e1 = []).
  { subst e1 e0. by rewrite missing_loop, Hm. }
  clearbody e1. subst e1. clear e0.
  rewrite bool_decide_eq_true_2 by reflexivity. cbv beta iota delta [negb].
  name_let e_id.
  assert (H1 : e_id = Rules.rule_id item).
  { subst e_id. unfold Rules.rule_id. by destruct (Validator.nonempty_str _). }
  clearbody e_id.
  name_let e_name.
  assert (H2 : e_name = e_id ++ Rules.rule_name item).
  { subst e_name. unfold Rules.rule_name.
    destruct (Validator.nonempty_str _); cbn [negb]; by rewrite ?app_nil_r. }
  clearbody e_name.
  name_let e_loc.
  assert (H3 : e_loc = e_name ++ Rules.rule_location item).
  { subst e_loc. unfold Rules.rule_location, Rules.rule_lat, Rules.rule_lng.
    destruct (dict_item "location" item); try reflexivity.
    destruct (dict_mem "lat" kvs), (dict_mem "lng" kvs); cbn [negb orb andb];
      try reflexivity.
    destruct (Validator.number_between _ _ 90), (Validator.number_between _ _ 180);
      cbn [negb app]; by rewrite <- ?app_assoc, ?app_nil_r. }
  clearbody e_loc.
  name_let e_rad.
  assert (H4 : e_rad = e_loc ++ Rules.rule_radius item).
  { subst e_rad. unfold Rules.rule_radius.
    destruct (Validator.not_positive_number _); by rewrite ?app_nil_r. }
  clearbody e_rad.
  name_let e_icon.
  assert (H5 : e_icon = e_rad ++ Rules.rule_icon root BASE_DIR item).
  { subst e_icon. unfold Rules.rule_icon, Rules.rule_asset.
    destruct (dict_item "icon" item); try reflexivity.
    destruct (dict_mem "shadow" kvs), (dict_mem "found" kvs); cbn [negb orb andb];
      try reflexivity.
    by rewrite <- app_assoc. }
  clearbody e_icon.
  name_let e_model.
  assert (H6 : e_model = e_icon ++ Rules.rule_model root BASE_DIR item).
  { subst e_model. unfold Rules.rule_model, Rules.rule_asset.
    destruct (dict_item "model" item); try reflexivity.
    destruct (dict_mem "url" kvs), (dict_mem "usdz" kvs); cbn [negb];
      by rewrite <- ?app_assoc, ?app_nil_r. }
  clearbody e_model.
  name_let e_badge.
  assert (H7 : e_badge = e_model ++ Rules.rule_badge root BASE_DIR item).
  { subst e_badge. unfold Rules.rule_badge, Rules.rule_asset.
    destruct (dict_item "badge" item); try reflexivity.
    destruct (dict_mem "id" kvs), (dict_mem "name" kvs), (dict_mem "icon" kvs);
      cbn [negb app]; by rewrite <- ?app_assoc, ?app_nil_r. }
  clearbody e_badge.
  subst. unfold Rules.item_violations. by rewrite <- !app_assoc.
Qed.

Lemma validate_badge_missing (badge : dict) :
  Rules.missing_fields Rules.badge_required badge ≠ [] →
  Validator.validate_badge root BASE_DIR badge
  = Rules.missing_message <$> Rules.missing_fields Rules.badge_required badge.
Proof.
  unfold Validator.validate_badge, Rules.missing_fields, Rules.badge_required.
  rewrite !filter_cons, filter_nil.
  destruct (dict_mem "id" badge), (dict_mem "name" badge),
    (dict_mem "description" badge); cbn; intros Hm; done.
Qed.

Lemma validate_badge_complete (badge : dict) :
  Rules.missing_fields Rules.badge_required badge = [] →
  Validator.validate_badge root BASE_DIR badge = Rules.badge_violations root BASE_DIR badge.
Proof.
  unfold Validator.validate_badge, Rules.missing_fields, Rules.badge_required.
  rewrite !filter_cons, filter_nil.
  destruct (dict_mem "id" badge), (dict_mem "name" badge),
    (dict_mem "description" badge); cbn; intros Hm; try done.
  unfold Rules.badge_violations, Rules.rule_id, Rules.rule_asset.
  destruct (Validator.nonempty_str _), (dict_mem "icon" badge); cbn; done.
Qed.

(** C8: when a required top-level field is absent, [validate_item] and
    [validate_badge] return exactly the "missing field" messages, one per
    absent field, and run no other check; when every required field is
    present they return the violations of every rule, none dropped and
    none cut short by an earlier violation. *)
Theorem record_validation_accumulates (item badge : dict) :
  (Rules.missing_fields Validator.required_fields item ≠ [] →
     Validator.validate_item root BASE_DIR item
     = Rules.missing_message <$> Rules.missing_fields Validator.required_fields item)
  ∧ (Rules.missing_fields Validator.required_fields item = [] →
     Validator.validate_item root BASE_DIR item = Rules.item_violations root BASE_DIR item)
  ∧ (Rules.missing_fields Rules.badge_required badge ≠ [] →
     Validator.validate_badge root BASE_DIR badge
     = Rules.missing_message <$> Rules.missing_fields Rules.badge_required badge)
  ∧ (Rules.missing_fields Rules.badge_required badge = [] →
     Validator.validate_badge root BASE_DIR badge
     = Rules.badge_violations root BASE_DIR badge).
Proof.
  split; [apply validate_item_missing|].
  split; [apply validate_item_complete|].
  split; [apply validate_badge_missing | apply validate_badge_complete].
Qed.

End RecordFacts.

(** C7, as stated, fails: a prefixed path with a component of 256 bytes
    does not exist, nothing is found at it, and yet the validator does not
    answer "path does not exist": [exists] raises on the name, and the error
    is "invalid path". *)
Lemma long_name_is_invalid_path :
  let path := "../../" +:+ Demo.long_name in
  let full_path := FS.joinpath Demo.BASE_DIR (str_drop 6 path) in
  let errors :=
    Validator._validate_asset_path Demo.root Demo.BASE_DIR (JStr path) "icon.shadow" in
  FS.stat Demo.root full_path = FS.NameTooLong
  ∧ (∀ canon n, FS.stat Demo.root full_path ≠ FS.Found canon n)
  ∧ errors = ["'icon.shadow' invalid path: [Errno 36] File name too long: '/srv/hrp/"
              +:+ Demo.long_name +:+ "'"]
  ∧ errors ≠ ["'icon.shadow' path does not exist: " +:+ path].
Proof.
  cbv zeta.
  assert (Hstat : FS.stat Demo.root
                    (FS.joinpath Demo.BASE_DIR (str_drop 6 ("../../" +:+ Demo.long_name)))
                  = FS.NameTooLong) by (vm_compute; reflexivity).
  split; [exact Hstat|]. split; [intros canon n; rewrite Hstat; discriminate|].
  split; [vm_compute; reflexivity|].
  intros Heq. vm_compute in Heq. discriminate Heq.
Qed.

(** Witness of C7 (amended) on the demo installation: the empty path, a
    path without the prefix, a file that is missing, a file that is there
    and a name that is too long. *)
Lemma validate_asset_path_outcomes_witness :
  Validator._validate_asset_path Demo.root Demo.BASE_DIR (JStr "") "icon.shadow" = []
  ∧ Validator._validate_asset_path Demo.root Demo.BASE_DIR
      (JStr "assets/icons/shadows/fox.svg") "icon.shadow"
    = ["'icon.shadow' must be a relative path starting with '../../'"]
  ∧ Validator._validate_asset_path Demo.root Demo.BASE_DIR
      (JStr "../../assets/icons/shadows/missing.svg") "icon.shadow"
    = ["'icon.shadow' path does not exist: ../../assets/icons/shadows/missing.svg"]
  ∧ Validator._validate_asset_path Demo.root Demo.BASE_DIR
      (JStr "../../assets/icons/shadows/fox.svg") "icon.shadow" = []
  ∧ Validator._validate_asset_path Demo.root Demo.BASE_DIR
      (JStr ("../../" +:+ Demo.long_name)) "icon.shadow"
    = ["'icon.shadow' invalid path: "
       +:+ exn_str (OSError ("[Errno 36] File name too long: '"
                             +:+ FS.path_str (FS.joinpath Demo.BASE_DIR Demo.long_name)
                             +:+ "'"))].
Proof.
  split; [|split; [|split; [|split]]].
  - exact (proj1 (validate_asset_path_outcomes Demo.root Demo.BASE_DIR "" "icon.shadow")
             eq_refl).
  - apply (proj1 (proj2 (validate_asset_path_outcomes Demo.root Demo.BASE_DIR
             "assets/icons/shadows/fox.svg" "icon.shadow"))); [discriminate | reflexivity].
  - unshelve epose proof (proj2 (proj2 (validate_asset_path_outcomes Demo.root
             Demo.BASE_DIR "../../assets/icons/shadows/missing.svg" "icon.shadow")) _ _)
      as (_ & _ & Hmissing & _); [discriminate | reflexivity |].
    apply Hmissing. reflexivity.
  - unshelve epose proof (proj2 (proj2 (validate_asset_path_outcomes Demo.root
             Demo.BASE_DIR "../../assets/icons/shadows/fox.svg" "icon.shadow")) _ _)
      as (Hthere & _); [discriminate | reflexivity |].
    apply Hthere. reflexivity.
  - unshelve epose proof (proj2 (proj2 (validate_asset_path_outcomes Demo.root
             Demo.BASE_DIR ("../../" +:+ Demo.long_name) "icon.shadow")) _ _)
      as (_ & _ & _ & _ & _ & Hlong); [discriminate | reflexivity |].
    apply Hlong. vm_compute. reflexivity.
Defined.

(** Witness of C8 on the demo records. *)
Lemma record_validation_accumulates_witness :
  Validator.validate_item Demo.root Demo.BASE_DIR Demo.partial_item
  = ["Missing required field: name"; "Missing required field: badge"]
  ∧ Validator.validate_item Demo.root Demo.BASE_DIR Demo.bad_item
    = ["'id' must be a non-empty string";
       "'location.lat' must be between -90 and 90";
       "'radiusMeters' must be a positive number";
       "'icon.shadow' path does not exist: ../../assets/icons/shadows/missing.svg"]
  ∧ Validator.validate_badge Demo.root Demo.BASE_DIR Demo.partial_badge
    = ["Missing required field: name"; "Missing required field: description"]
  ∧ Validator.validate_badge Demo.root Demo.BASE_DIR Demo.bad_badge
    = ["'id' must be a non-empty string";
       "'icon' must be a relative path starting with '../../'"].
Proof.
  split; [|split; [|split]].
  - rewrite (proj1 (record_validation_accumulates Demo.root Demo.BASE_DIR
                      Demo.partial_item Demo.partial_badge)); [reflexivity|].
    vm_compute. discriminate.
  - rewrite (proj1 (proj2 (record_validation_accumulates Demo.root Demo.BASE_DIR
                             Demo.bad_item Demo.bad_badge))); reflexivity.
  - rewrite (proj1 (proj2 (proj2 (record_validation_accumulates Demo.root Demo.BASE_DIR
                             Demo.partial_item Demo.partial_badge)))); [reflexivity|].
    vm_compute. discriminate.
  - rewrite (proj2 (proj2 (proj2 (record_validation_accumulates Demo.root Demo.BASE_DIR
                             Demo.bad_item Demo.bad_badge)))); reflexivity.
Defined.

(** ** Path resolution and the project root *)

(** C3, as stated, fails: a prefixed path that leaves the project root
    through a [..] part is accepted when the file it reaches exists. *)
Lemma traversal_is_accepted :
  let path := "../../../secret.txt" in
  let full_path := FS.joinpath Demo.BASE_DIR (str_drop 6 path) in
  path ≠ ""
  ∧ startswith "../../" path = true
  ∧ ¬ FS.within Demo.BASE_DIR full_path
  ∧ Validator._validate_asset_path Demo.root Demo.BASE_DIR (JStr path) "icon.shadow" = []
  ∧ FileHandler.file_exists Demo.BASE_DIR Demo.BASE_DIR Demo.root path = true.
Proof.
  cbv zeta. split; [discriminate|]. split; [reflexivity|].
  split; [|split; reflexivity].
  intros [k Hk]. vm_compute in Hk. discriminate Hk.
Qed.

(** The file handler deletes through the same resolution: the file outside
    the project root is removed. *)
Lemma delete_file_leaves_root :
  let r := FileHandler.delete_file Demo.BASE_DIR Demo.BASE_DIR Demo.root
             "../../../secret.txt" in
  FS.stat Demo.root ["srv"; "secret.txt"] = FS.Found ["srv"; "secret.txt"] (FS.File "token")
  ∧ r.2 = Ok true
  ∧ FS.stat r.1 ["srv"; "secret.txt"] = FS.NoEnt
  ∧ FS.stat r.1 ["srv"; "hrp"; "data"; "assets.json"]
    = FS.Found ["srv"; "hrp"; "data"; "assets.json"] (FS.File "{}").
Proof. vm_compute. repeat split. Qed.

Section ResolutionFacts.

Variable root : FS.node.
Variable BASE_DIR cwd : list string.

(** C3, amended: a non-empty prefixed path is resolved by dropping the
    prefix and joining the rest to the project root, in the validator and
    in the file handler alike; nothing compares the result with the
    project root, so validation accepts the path exactly when the joined
    path exists. *)
Theorem prefixed_path_accepted_iff_exists (path field_name : string) :
  path ≠ "" →
  startswith "../../" path = true →
  let full_path := FS.joinpath BASE_DIR (str_drop 6 path) in
  FileHandler.full_path BASE_DIR cwd path = full_path
  ∧ (Validator._validate_asset_path root BASE_DIR (JStr path) field_name = []
     ↔ FS.exists_ root full_path = Ok true)
  ∧ (FileHandler.file_exists BASE_DIR cwd root path = true
     ↔ FS.exists_ root full_path = Ok true ∧ FS.is_file root full_path = Ok true).
Proof.
  intros Hne Hpre. cbv zeta.
  split; [|split].
  - unfold FileHandler.full_path. by rewrite Hpre.
  - unfold Validator._validate_asset_path.
    apply String.eqb_neq in Hne. rewrite Hne, Hpre. cbn [negb].
    destruct (FS.exists_ root _) as [[|]|e]; cbn [app]; split; intros; congruence.
  - unfold FileHandler.file_exists, FileHandler.exists_and_is_file, FileHandler.full_path.
    rewrite Hpre.
    destruct (FS.exists_ root _) as [[|]|e].
    + destruct (FS.is_file root _) as [[|]|e']; split;
        first [intros [_ ?] | intros ?]; try split; congruence.
    + split; [|intros [? _]]; congruence.
    + split; [|intros [? _]]; congruence.
Qed.

End ResolutionFacts.

(** Witness of the amended C3: the escaping path of the counterexample. *)
Lemma prefixed_path_accepted_iff_exists_witness :
  Validator._validate_asset_path Demo.root Demo.BASE_DIR (JStr "../../../secret.txt") "icon.found"
    = []
  ↔ FS.exists_ Demo.root (FS.joinpath Demo.BASE_DIR (str_drop 6 "../../../secret.txt"))
    = Ok true.
Proof.
  apply (prefixed_path_accepted_iff_exists Demo.root Demo.BASE_DIR Demo.BASE_DIR
           "../../../secret.txt" "icon.found"); [discriminate | reflexivity].
Defined.

(** ** The document store *)

Section HandlerFacts.

Context `{Runtime}.
Variable BASE_DIR : list string.

Import JSONHandler.

(** C4, amended: [read] has four outcomes and no other: the canonical
    empty document when the file is absent; a [ValueError] carrying the
    parser's message when [json.load] rejects the content with
    [JSONDecodeError]; the exception itself, unwrapped, when [json.load]
    raises anything else on the content; the parsed value otherwise.  So
    [read] never raises on an absent file, what it raises is the wrapped
    parse error or an exception of [json.load], and nothing but the
    document file decides the outcome. *)
Theorem read_outcomes (s : store) :
  ((live s = None
    ∧ read BASE_DIR s = Ok (JDict [("items", JList []); ("gameBadges", JList [])]))
   ∨ (∃ text detail,
        live s = Some text ∧ json_loads text = Malformed detail
        ∧ read BASE_DIR s
          = Raise (ValueError ("Invalid JSON in " +:+ json_path BASE_DIR +:+ ": "
                               +:+ detail)))
   ∨ (∃ text e,
        live s = Some text ∧ json_loads text = Failed e ∧ read BASE_DIR s = Raise e)
   ∨ (∃ text v,
        live s = Some text ∧ json_loads text = Parsed v ∧ read BASE_DIR s = Ok v))
  ∧ (∀ e, read BASE_DIR s = Raise e →
       ∃ text, live s = Some text
         ∧ (json_loads text = Failed e
            ∨ ∃ detail, json_loads text = Malformed detail
                 ∧ e = ValueError ("Invalid JSON in " +:+ json_path BASE_DIR +:+ ": "
                                   +:+ detail)))
  ∧ (∀ s', live s' = live s → read BASE_DIR s' = read BASE_DIR s).
Proof.
  split; [|split].
  - unfold read. destruct (live s) as [text|]; [|by left].
    right. destruct (json_loads text) as [v|detail|e] eqn:Hl.
    + right. right. by exists text, v.
    + left. by exists text, detail.
    + right. left. by exists text, e.
  - intros e. unfold read. destruct (live s) as [text|]; [|done].
    destruct (json_loads text) as [v|detail|e'] eqn:Hl; [done| |].
    + intros [= <-]. exists text. split; [done|]. right. by exists detail.
    + intros [= <-]. exists text. split; [done|]. by left.
  - intros s' Hs'. unfold read. by rewrite Hs'.
Qed.

(** *** Structural validation *)

Lemma dict_mem_get {A} (k : string) (d : list (string * A)) :
  dict_mem k d = true ↔ is_Some (dict_get k d).
Proof.
  induction d as [|[k' v] d IH]; cbn.
  - split; [discriminate | intros [? ?]; discriminate].
  - destruct (String.eqb k k'); [|exact IH]. split; eauto.
Qed.

Lemma dict_item_get (k : string) (d : dict) (v : json) :
  dict_get k d = Some v → dict_item k d = v.
Proof. unfold dict_item. by intros ->. Qed.

Lemma key_eq_refl (a : json) : hashable a = true → key_eq a a = true.
Proof.
  destruct a as [| b | z | f | s | l | d]; cbn; try done.
  - intros _. apply bool_decide_eq_true. unfold of_int. cbn. by rewrite Z.compare_refl.
  - intros _. apply bool_decide_eq_true. by rewrite Z.compare_refl.
  - intros _. destruct f as [|[]|m e]; cbn; try done.
    apply bool_decide_eq_true. by rewrite Z.compare_refl.
  - intros _. apply String.eqb_refl.
Qed.

Lemma num_cmp_eq_sym (x y : pyfloat) : num_cmp x y = Some Eq → num_cmp y x = Some Eq.
Proof.
  destruct x as [|[]|m1 e1], y as [|[]|m2 e2]; cbn; try done.
  intros [= Hc]. apply Z.compare_eq_iff in Hc.
  rewrite (Z.min_comm e2 e1), Hc. by rewrite Z.compare_refl.
Qed.

Lemma key_eq_sym (a b : json) : key_eq a b = true → key_eq b a = true.
Proof.
  destruct a as [| b1 | z1 | f1 | s1 | l1 | d1], b as [| b2 | z2 | f2 | s2 | l2 | d2];
    cbn -[num_cmp]; try done.
  all: try (rewrite String.eqb_sym; done).
  all: repeat match goal with f : pyfloat |- _ => destruct f as [|[]|] end;
    cbn -[num_cmp]; try done.
  all: intros Hc%bool_decide_eq_true; apply bool_decide_eq_true;
    by apply num_cmp_eq_sym.
Qed.

Lemma check_entries_ok (Label label : string) (entries : list json) :
  ∀ (i : nat) (seen : list json),
  check_entries Label label i seen entries = Ok () →
  Structure.all_have_id entries
  ∧ Structure.ids_hashable entries
  ∧ (∀ k v a b, entries !! k = Some v → Structure.entry_id v = Some a →
       b ∈ seen → key_eq a b = false)
  ∧ (∀ j k va vb a b, (j < k)%nat → entries !! j = Some va → entries !! k = Some vb →
       Structure.entry_id va = Some a → Structure.entry_id vb = Some b →
       key_eq b a = false).
Proof.
  induction entries as [|v rest IH]; intros i seen Hok.
  - repeat split; try constructor; intros *; rewrite ?lookup_nil; done.
  - cbn in Hok. destruct v as [| | | | | |item]; try done.
    destruct (dict_mem "id" item) eqn:Hmem; cbn in Hok; [|done].
    apply dict_mem_get in Hmem as [a Ha].
    rewrite (dict_item_get _ _ _ Ha) in Hok.
    destruct (hashable a) eqn:Hhash; cbn in Hok; [|done].
    destruct (existsb (key_eq a) seen) eqn:Hseen; [done|].
    apply IH in Hok as (Hall & Hhs & Hseen' & Hpairs).
    assert (Hnot : ∀ b, b ∈ seen → key_eq a b = false).
    { intros b Hb. destruct (key_eq a b) eqn:Hab; [|done].
      assert (existsb (key_eq a) seen = true); [|congruence].
      apply existsb_exists. exists b. split; [by apply list_elem_of_In | done]. }
    split; [|split; [|split]].
    + constructor; [by exists a | done].
    + constructor; [|done]. intros a' Ha'. cbn in Ha'. congruence.
    + intros [|k] v a' b; cbn.
      * intros [= <-] Hid. cbn in Hid. assert (a' = a) as -> by congruence. apply Hnot.
      * intros Hv Hid Hb. apply (Hseen' k v a' b Hv Hid). apply elem_of_cons. by right.
    + intros [|j] [|k] va vb a' b Hlt; try lia; cbn.
      * intros [= <-] Hvb Hid Hidb. cbn in Hid. assert (a' = a) as -> by congruence.
        apply (Hseen' k vb b a Hvb Hidb). apply elem_of_cons. by left.
      * intros Hva Hvb Hida Hidb.
        apply (Hpairs j k va vb a' b); [lia | done..].
Qed.

Lemma check_entries_valid (Label label : string) (entries : list json) (i : nat) :
  check_entries Label label i [] entries = Ok () →
  Structure.valid_collection entries ∧ Structure.ids_hashable entries.
Proof.
  intros (Hall & Hhs & _ & Hpairs)%check_entries_ok.
  split; [split|]; try done.
  intros j k va vb a b Hlt Hva Hvb Ha Hb [Heq | ->].
  - apply key_eq_sym in Heq. by rewrite (Hpairs j k va vb a b) in Heq.
  - assert (Hh : hashable b = true).
    { eapply (Forall_lookup_1 _ _ _ _ Hhs Hvb). done. }
    pose proof (Hpairs j k va vb b b Hlt Hva Hvb Ha Hb) as Hf.
    by rewrite key_eq_refl in Hf.
Qed.

Lemma check_entries_error (Label label : string) (entries : list json) :
  ∀ (i : nat) (seen : list json) (e : exn),
  check_entries Label label i seen entries = Raise e →
  Structure.is_schema_error e
  ∨ ((∃ msg, e = TypeError msg) ∧ ¬ Structure.ids_hashable entries).
Proof.
  induction entries as [|v rest IH]; intros i seen e Herr; [done|].
  cbn in Herr.
  destruct v as [| | | | | |item];
    try (injection Herr as <-; left; eexists; reflexivity).
  destruct (dict_mem "id" item) eqn:Hmem; cbn in Herr;
    [|injection Herr as <-; left; eexists; reflexivity].
  apply dict_mem_get in Hmem as [a Ha].
  rewrite (dict_item_get _ _ _ Ha) in Herr.
  destruct (hashable a) eqn:Hhash; cbn in Herr.
  - destruct (existsb (key_eq a) seen);
      [injection Herr as <-; left; eexists; reflexivity|].
    apply IH in Herr as [?|[? Hnh]]; [by left|right].
    split; [done|]. intros Hhs. apply Hnh. by inversion Hhs.
  - injection Herr as <-. right. split; [eexists; reflexivity|].
    intros Hhs. inversion Hhs as [|?? Hv _]; subst.
    specialize (Hv a Ha). congruence.
Qed.

Lemma validate_structure_ok (data : json) :
  _validate_structure data = Ok () → Structure.valid_document data.
Proof.
  unfold _validate_structure. destruct data as [| | | | | |top]; try done.
  destruct (dict_mem "items" top) eqn:Hi; cbn; [|done].
  destruct (dict_mem "gameBadges" top) eqn:Hb; cbn; [|done].
  apply dict_mem_get in Hi as [vi Hi]. apply dict_mem_get in Hb as [vb Hb].
  rewrite (dict_item_get _ _ _ Hi), (dict_item_get _ _ _ Hb).
  destruct vi as [| | | | |items|]; try done.
  destruct vb as [| | | | |game_badges|]; try done.
  destruct (check_entries "Item" "item" 0 [] items) as [[]|e] eqn:Hitems; [|done].
  intros Hbadges.
  apply check_entries_valid in Hitems as [? _].
  apply check_entries_valid in Hbadges as [? _].
  by exists top, items, game_badges.
Qed.

Lemma validate_structure_error (data : json) (e : exn) :
  _validate_structure data = Raise e →
  Structure.is_schema_error e
  ∨ ((∃ msg, e = TypeError msg) ∧ ¬ Structure.doc_ids_hashable data).
Proof.
  unfold _validate_structure.
  destruct data as [| | | | | |top];
    try (intros [= <-]; left; eexists; reflexivity).
  destruct (dict_mem "items" top) eqn:Hi; cbn;
    [|intros [= <-]; left; eexists; reflexivity].
  destruct (dict_mem "gameBadges" top) eqn:Hb; cbn;
    [|intros [= <-]; left; eexists; reflexivity].
  apply dict_mem_get in Hi as [vi Hi]. apply dict_mem_get in Hb as [vb Hb].
  rewrite (dict_item_get _ _ _ Hi), (dict_item_get _ _ _ Hb).
  destruct vi as [| | | | |items|];
    try (intros [= <-]; left; eexists; reflexivity).
  destruct vb as [| | | | |game_badges|];
    try (intros [= <-]; left; eexists; reflexivity).
  destruct (check_entries "Item" "item" 0 [] items) as [[]|e'] eqn:Hitems.
  - intros [?|[? Hnh]]%check_entries_error; [by left|right].
    split; [done|]. intros Hd. apply Hnh. eapply (Hd top "gameBadges"); eauto.
  - intros [= <-].
    apply check_entries_error in Hitems as [?|[? Hnh]]; [by left|right].
    split; [done|]. intros Hd. apply Hnh. eapply (Hd top "items"); eauto.
Qed.

Variable E : env.

(** The guard of [write]: with [validate] set, a write that succeeds was
    given a structurally valid document, and a document that is not valid
    makes [write] raise and return the store untouched (no backup, no
    temporary file); the exception is the validator's [ValueError], or the
    [TypeError] of the id set when an id is a list or an object. *)
Lemma validated_write_guard (data : json) (s : store) :
  (∀ s' r, write E data true s = (s', Ok r) → Structure.valid_document data)
  ∧ (¬ Structure.valid_document data →
     ∃ e, write E data true s = (s, Raise e)
          ∧ (Structure.is_schema_error e
             ∨ ((∃ msg, e = TypeError msg) ∧ ¬ Structure.doc_ids_hashable data))).
Proof.
  unfold write.
  destruct (_validate_structure data) as [[]|e] eqn:Hv.
  - split; [intros; by apply validate_structure_ok|].
    intros Hn. exfalso. by apply Hn, validate_structure_ok.
  - split; [done|]. intros _. exists e. split; [done|].
    by apply validate_structure_error.
Qed.

(** *** Writing *)

Lemma unlink_all_lookup (names : list string) (b : gmap string string) (k c : string) :
  unlink_all names b !! k = Some c → b !! k = Some c.
Proof.
  unfold unlink_all. revert b. induction names as [|n names IH]; intros b; cbn; [done|].
  intros Hl%IH. destruct (decide (n = k)) as [->|Hne].
  - by rewrite lookup_delete_eq in Hl.
  - by rewrite lookup_delete_ne in Hl.
Qed.

Lemma create_backup_frame (s s1 : store) (r : result (option string)) :
  _create_backup E s = (s1, r) → live s1 = live s ∧ temp s1 = temp s.
Proof.
  unfold _create_backup. destruct (live s) as [content|] eqn:Hlive.
  - destruct (failing E) as [| e | k e | e | e | w e | e | e]; cbn;
      try (intros [= <- <-]; done).
    case_bool_decide; intros [= <- <-]; done.
  - intros [= <- <-]. done.
Qed.

Lemma create_backup_content (s s1 : store) (backup_path : string) :
  _create_backup E s = (s1, Ok (Some backup_path)) →
  ∀ c, backups s1 !! backup_path = Some c → live s = Some c.
Proof.
  unfold _create_backup. destruct (live s) as [content|] eqn:Hlive; [|done].
  assert (Hins : ∀ names c,
    unlink_all names (<[backup_file_name E := content]> (backups s)) !! backup_file_name E
      = Some c → Some content = Some c).
  { intros names c Hl%unlink_all_lookup. by rewrite lookup_insert_eq in Hl. }
  destruct (failing E) as [| e | k e | e | e | w e | e | e]; cbn;
    try (intros [= <- <-] c; cbn; apply Hins); try done.
  case_bool_decide; [done|]. intros [= <- <-] c; cbn; apply Hins.
Qed.

Lemma write_locked_failure (data : json) (s s2 : store) (e : exn) :
  write_locked E data s = (s2, Raise e) →
  live s2 = live s ∧ backups s2 = backups s.
Proof.
  unfold write_locked.
  destruct (failing E) as [| e' | k e' | e' | e' | w e' | e' | e']; cbn;
    try (intros [= <- <-]; done);
    destruct (json_loads (json_dumps data)); cbn; try (intros [= <- <-]; done); done.
Qed.

(** C1, amended: a failure while the backup is taken leaves [write] with
    that very exception and the document file untouched; a failure under
    the lock, once a backup has been taken, makes [write] raise
    "Failed to write JSON: <cause>" with the document file as it was before
    the write; and whatever the failure, the document file after a failed
    write has the content it had before. *)
Theorem write_failure_keeps_document (data : json) (validate : bool) (s : store) :
  (if validate then _validate_structure data else Ok ()) = Ok () →
  (∀ s1 e, _create_backup E s = (s1, Raise e) →
     write E data validate s = (s1, Raise e) ∧ live s1 = live s)
  ∧ (∀ s1 backup_path s2 cause,
       _create_backup E s = (s1, Ok (Some backup_path)) →
       write_locked E data s1 = (s2, Raise cause) →
       ∃ s3, write E data validate s
             = (s3, Raise (Exception_ ("Failed to write JSON: " +:+ exn_str cause)))
             ∧ live s3 = live s)
  ∧ (∀ s' e, write E data validate s = (s', Raise e) → live s' = live s).
Proof.
  intros Hvalid. unfold write. rewrite Hvalid.
  split; [|split].
  - intros s1 e Hb. rewrite Hb. split; [done|].
    by apply create_backup_frame in Hb as [? _].
  - intros s1 backup_path s2 cause Hb Hw. rewrite Hb, Hw.
    eexists. split; [reflexivity|].
    pose proof (create_backup_frame _ _ _ Hb) as [Hl1 _].
    pose proof (write_locked_failure _ _ _ _ Hw) as [Hl2 Hb2].
    destruct (backups s2 !! backup_path) as [c|] eqn:Hc; cbn.
    + rewrite Hb2 in Hc. by rewrite (create_backup_content _ _ _ Hb c Hc).
    + congruence.
  - intros s' e.
    destruct (_create_backup E s) as [s1 [backup_path|e1]] eqn:Hb.
    + pose proof (create_backup_frame _ _ _ Hb) as [Hl1 _].
      destruct (write_locked E data s1) as [s2 [r|cause]] eqn:Hw; [done|].
      pose proof (write_locked_failure _ _ _ _ Hw) as [Hl2 Hb2].
      destruct backup_path as [backup_path|].
      * destruct (backups s2 !! backup_path) as [c|] eqn:Hc; intros [= <- <-]; cbn.
        -- rewrite Hb2 in Hc. by rewrite (create_backup_content _ _ _ Hb c Hc).
        -- congruence.
      * intros [= <- <-]. congruence.
    + intros [= <- <-]. by apply create_backup_frame in Hb as [? _].
Qed.

End HandlerFacts.

(** ** Backups: retention and restore *)

Section BackupFacts.

Import JSONHandler Scenario.

#[local] Instance name_ge_trans : Transitive name_ge.
Proof. intros a b c Hab Hbc. unfold name_ge in *. by etrans. Qed.

#[local] Instance name_ge_antisym : AntiSymm (=) name_ge.
Proof. intros a b Hab Hba. unfold name_ge in *. by apply (anti_symm String.le). Qed.

#[local] Instance name_ge_total : Total name_ge.
Proof. intros a b. unfold name_ge. destruct (total String.le a b); auto. Qed.

Lemma sorted_backups_spec (b : gmap string string) :
  Sorted name_ge (sorted_backups b)
  ∧ NoDup (sorted_backups b)
  ∧ (∀ n, n ∈ sorted_backups b ↔ is_backup_name n = true ∧ is_Some (b !! n)).
Proof.
  unfold sorted_backups. split; [|split].
  - apply Sorted_merge_sort. apply _.
  - rewrite merge_sort_Permutation. apply NoDup_filter, NoDup_elements.
  - intros n. rewrite merge_sort_Permutation, list_elem_of_filter, elem_of_elements.
    by rewrite elem_of_dom.
Qed.

Lemma sorted_backups_char (b : gmap string string) (L : list string) :
  Sorted name_ge L → NoDup L →
  (∀ n, n ∈ L ↔ is_backup_name n = true ∧ is_Some (b !! n)) →
  sorted_backups b = L.
Proof.
  intros Hs Hn Hm. destruct (sorted_backups_spec b) as (Hs' & Hn' & Hm').
  apply (Sorted_unique name_ge); [done..|].
  apply NoDup_Permutation; [done..|]. intros n. by rewrite Hm, Hm'.
Qed.

Lemma sorted_backups_insert (b : gmap string string) (n c : string) :
  is_backup_name n = true →
  (∀ m, m ∈ sorted_backups b → name_lt m n) →
  sorted_backups (<[n := c]> b) = n :: sorted_backups b.
Proof.
  intros Hn Hlt. destruct (sorted_backups_spec b) as (Hs & Hnd & Hm).
  apply sorted_backups_char.
  - constructor; [done|]. destruct (sorted_backups b) as [|h t] eqn:HL; constructor.
    apply Hlt. rewrite elem_of_cons. by left.
  - constructor; [|done]. intros Hin. by destruct (Hlt n Hin) as [_ ?].
  - intros x. rewrite elem_of_cons, Hm. destruct (decide (x = n)) as [->|Hne].
    + rewrite lookup_insert_eq. split; [by eauto|by left].
    + rewrite lookup_insert_ne by done. split; [by intros [?|?]|by right].
Qed.

Lemma unlink_all_lookup_cases (names : list string) (b : gmap string string) (x : string) :
  unlink_all names b !! x = if decide (x ∈ names) then None else b !! x.
Proof.
  unfold unlink_all. revert b. induction names as [|n names IH]; intros b; cbn.
  - by rewrite decide_False by apply not_elem_of_nil.
  - rewrite IH. destruct (decide (x ∈ names)) as [Hin|Hnin].
    + rewrite decide_True; [done|]. rewrite elem_of_cons. by right.
    + destruct (decide (x = n)) as [->|Hne].
      * rewrite lookup_delete_eq, decide_True; [done|]. rewrite elem_of_cons. by left.
      * rewrite lookup_delete_ne by done. rewrite decide_False; [done|].
        rewrite elem_of_cons. by intros [?|?].
Qed.

Lemma sorted_backups_unlink (b : gmap string string) (k : nat) :
  sorted_backups (unlink_all (drop k (sorted_backups b)) b) = take k (sorted_backups b).
Proof.
  destruct (sorted_backups_spec b) as (Hs & Hnd & Hm).
  set (L := sorted_backups b) in *.
  assert (Hsplit : L = take k L ++ drop k L) by by rewrite take_drop.
  assert (Hnd' : NoDup (take k L ++ drop k L)) by by rewrite <- Hsplit.
  apply NoDup_app in Hnd' as (Hndt & Hdisj & _).
  apply sorted_backups_char.
  - apply Sorted_StronglySorted in Hs; [|apply _].
    rewrite Hsplit in Hs. apply StronglySorted_app_1_l in Hs.
    by apply StronglySorted_Sorted.
  - done.
  - intros x. rewrite unlink_all_lookup_cases. split.
    + intros Hin. assert (x ∈ L) as HxL.
      { rewrite Hsplit, elem_of_app. by left. }
      apply Hm in HxL as [? ?]. split; [done|].
      rewrite decide_False; [done|]. by apply Hdisj.
    + intros [Hp Hsome]. destruct (decide (x ∈ drop k L)) as [|Hnin].
      { by destruct Hsome. }
      assert (x ∈ L) as HxL by by apply Hm.
      rewrite Hsplit, elem_of_app in HxL. by destruct HxL.
Qed.

Lemma strftime_length (t : datetime) : String.length (strftime t) = 15%nat.
Proof. reflexivity. Qed.

Lemma backup_file_name_is_backup_name (E : env) :
  is_backup_name (backup_file_name E) = true.
Proof.
  unfold backup_file_name, strftime, pad4, pad2.
  generalize (digit (year (now E) / 1000)), (digit (year (now E) / 100)),
    (digit (year (now E) / 10)), (digit (year (now E))),
    (digit (month (now E) / 10)), (digit (month (now E))),
    (digit (day (now E) / 10)), (digit (day (now E))),
    (digit (hour (now E) / 10)), (digit (hour (now E))),
    (digit (minute (now E) / 10)), (digit (minute (now E))),
    (digit (second (now E) / 10)), (digit (second (now E))).
  intros. reflexivity.
Qed.

Lemma create_backup_quiet (E : env) (s : store) (content : string) :
  failing E = NoFault →
  live s = Some content →
  let inserted := <[backup_file_name E := content]> (backups s) in
  _create_backup E s
  = (set_backups (unlink_all (drop 50 (sorted_backups inserted)) inserted) s,
     Ok (Some (backup_file_name E))).
Proof. intros Hq Hl. unfold _create_backup. by rewrite Hl, Hq. Qed.

Context `{Runtime}.

Lemma write_quiet_backups (E : env) (data : json) (validate : bool) (s : store)
    (content : string) :
  failing E = NoFault →
  live s = Some content →
  (if validate then _validate_structure data else Ok ()) = Ok () →
  let inserted := <[backup_file_name E := content]> (backups s) in
  backups (write E data validate s).1
  = unlink_all (drop 50 (sorted_backups inserted)) inserted
  ∧ is_Some (live (write E data validate s).1).
Proof.
  intros Hq Hl Hv. cbv zeta. unfold write. rewrite Hv.
  rewrite (create_backup_quiet E s content Hq Hl). cbv zeta.
  unfold write_locked. rewrite Hq.
  destruct (json_loads (json_dumps data)) as [v|detail|e]; cbn.
  - split; [done|by eexists].
  - destruct (_ !! backup_file_name E); cbn; (split; [done|]);
      [by eexists | rewrite Hl; by eexists].
  - destruct (_ !! backup_file_name E); cbn; (split; [done|]);
      [by eexists | rewrite Hl; by eexists].
Qed.

Lemma take_app_take {A} (k : nat) (X Y : list A) :
  take k (X ++ take k Y) = take k (X ++ Y).
Proof.
  rewrite !take_app, take_take. f_equal. f_equal. lia.
Qed.

Lemma name_lt_trans : Transitive name_lt.
Proof.
  intros a b c [Hab Hne] [Hbc Hne']. split; [by etrans|].
  intros ->. apply Hne. by apply (anti_symm String.le).
Qed.

Lemma write_quiet_sorted (t : datetime) (data : json) (s : store) (content : string) :
  _validate_structure data = Ok () →
  live s = Some content →
  (∀ m, m ∈ sorted_backups (backups s) → name_lt m (name_at t)) →
  sorted_backups (backups (write (quiet t) data true s).1)
  = take 50 (name_at t :: sorted_backups (backups s))
  ∧ is_Some (live (write (quiet t) data true s).1).
Proof.
  intros Hv Hl Hold.
  destruct (write_quiet_backups (quiet t) data true s content eq_refl Hl Hv) as [Hb Hlive].
  split; [|done]. rewrite Hb.
  change (backup_file_name (quiet t)) with (name_at t).
  rewrite sorted_backups_unlink.
  by rewrite (sorted_backups_insert _ _ _ (backup_file_name_is_backup_name _) Hold).
Qed.

Lemma writes_backups (rest : list datetime) (data : json) :
  _validate_structure data = Ok () →
  ∀ (t : datetime) (s : store) (content : string),
  live s = Some content →
  StronglySorted name_lt (name_at <$> t :: rest) →
  (∀ m n, m ∈ sorted_backups (backups s) → n ∈ name_at <$> t :: rest → name_lt m n) →
  sorted_backups (backups (writes (t :: rest) data s))
  = take 50 (reverse (name_at <$> t :: rest) ++ sorted_backups (backups s)).
Proof.
  intros Hv. induction rest as [|t' rest IH]; intros t s content Hl Hs Hold.
  - cbn [writes fmap list_fmap]. rewrite reverse_singleton. cbn [app].
    eapply write_quiet_sorted; [done..|].
    intros m Hm. apply Hold; [done|]. apply elem_of_cons. by left.
  - cbn [writes].
    assert (Hfirst : ∀ m, m ∈ sorted_backups (backups s) → name_lt m (name_at t)).
    { intros m Hm. apply Hold; [done|]. apply elem_of_cons. by left. }
    destruct (write_quiet_sorted t data s content Hv Hl Hfirst) as [Hb [content' Hl']].
    set (s1 := (write (quiet t) data true s).1) in *.
    rewrite fmap_cons in Hs. apply StronglySorted_inv in Hs as [Hs Ht].
    change (writes rest data (write (quiet t') data true s1).1)
      with (writes (t' :: rest) data s1).
    rewrite (IH t' s1 content' Hl' Hs).
    + rewrite Hb, take_app_take. rewrite (fmap_cons _ t), reverse_cons.
      by rewrite <- app_assoc.
    + intros m n Hm Hn. rewrite Hb in Hm. apply elem_of_take in Hm as (i & Hi & _).
      apply list_elem_of_lookup_2, elem_of_cons in Hi as [->|Hm].
      * by apply (proj1 (Forall_forall _ _) Ht).
      * apply Hold; [done|]. rewrite fmap_cons, elem_of_cons. by right.
Qed.

(** C6, amended.  One invocation of [_create_backup] on an existing
    document, nothing failing: the document is copied to
    [assets_<15 characters of timestamp>.json] and the backups beyond the
    first fifty in descending file-name order are deleted, the kept ones
    untouched.  More than fifty validated writes at strictly increasing
    file-name timestamps, all later than the backups already there: exactly
    fifty backups remain, those of the last fifty writes. *)
Theorem backup_retention (E : env) (s : store) (content : string)
    (times : list datetime) (data : json) :
  live s = Some content →
  (failing E = NoFault →
     let inserted := <[backup_file_name E := content]> (backups s) in
     ∃ s1, _create_backup E s = (s1, Ok (Some (backup_file_name E)))
       ∧ backup_file_name E = "assets_" +:+ strftime (now E) +:+ ".json"
       ∧ String.length (strftime (now E)) = 15%nat
       ∧ sorted_backups (backups s1) = take 50 (sorted_backups inserted)
       ∧ (∀ n, n ∈ sorted_backups (backups s1) → backups s1 !! n = inserted !! n))
  ∧ (_validate_structure data = Ok () →
     Sorted name_lt (name_at <$> times) →
     (∀ m n, m ∈ sorted_backups (backups s) → n ∈ name_at <$> times → name_lt m n) →
     (50 < length times)%nat →
     sorted_backups (backups (writes times data s))
     = reverse (drop (length times - 50) (name_at <$> times))
     ∧ length (sorted_backups (backups (writes times data s))) = 50%nat).
Proof.
  intros Hl. split.
  - intros Hq inserted. eexists. split; [by apply create_backup_quiet|].
    split; [done|]. split; [done|]. cbn [backups set_backups].
    split; [apply sorted_backups_unlink|].
    intros n Hn. rewrite sorted_backups_unlink in Hn.
    rewrite unlink_all_lookup_cases, decide_False; [done|].
    destruct (sorted_backups_spec inserted) as (_ & Hnd & _).
    rewrite <- (take_drop 50 (sorted_backups inserted)) in Hnd.
    apply NoDup_app in Hnd as (_ & Hdisj & _). by apply Hdisj.
  - intros Hv Hs Hold Hlen.
    destruct times as [|t rest]; [cbn in Hlen; lia|].
    apply (Sorted_StronglySorted _ (Transitive0 := name_lt_trans)) in Hs.
    rewrite (writes_backups rest data Hv t s content Hl Hs Hold).
    assert (Hn : length (reverse (name_at <$> t :: rest)) = length (t :: rest)).
    { by rewrite length_reverse, length_fmap. }
    rewrite take_app_le by lia.
    rewrite take_reverse, length_fmap. split; [done|].
    rewrite length_reverse, length_drop, length_fmap. lia.
Qed.

(** *** Restore *)

Variable BASE_DIR : list string.

Lemma restore_backup_missing (E : env) (name : string) (s : store) :
  backups s !! name = None →
  restore_backup BASE_DIR E name s
  = (s, Raise (FileNotFoundError ("Backup " +:+ name +:+ " not found"))).
Proof. intros Hn. unfold restore_backup. by rewrite Hn. Qed.

(** When the named backup is still there, with its content, once the
    safety backup has been taken, it becomes the document. *)
Lemma restore_backup_survivor (E : env) (name content : string) (s s1 : store)
    (r : option string) :
  is_Some (backups s !! name) →
  _create_backup E s = (s1, Ok r) →
  backups s1 !! name = Some content →
  restore_backup BASE_DIR E name s = (set_live (Some content) s1, Ok true).
Proof.
  intros [c Hc] Hb Hs. unfold restore_backup. by rewrite Hc, Hb, Hs.
Qed.

End BackupFacts.

(** ** The document store on the demo installation *)

Import ExampleRuntime.

(** C1, as stated, fails: when the copy to the backup directory raises, the
    exception leaves [write] as it is, not wrapped in "Failed to write
    JSON". *)
Lemma backup_failure_is_not_wrapped :
  let E := {| JSONHandler.now := DemoStore.at_second 7;
              JSONHandler.failing :=
                JSONHandler.FailBackupCopy (OSError "[Errno 28] No space left on device") |} in
  JSONHandler.write E JSONHandler.empty_document true DemoStore.fresh
  = (DemoStore.fresh, Raise (OSError "[Errno 28] No space left on device"))
  ∧ ¬ ∃ cause,
        OSError "[Errno 28] No space left on device"
        = Exception_ ("Failed to write JSON: " +:+ cause).
Proof.
  split; [reflexivity|]. intros [cause Hc]. discriminate Hc.
Qed.

(** In the same way the first write of an installation, when it fails under
    the lock, raises neither the cause nor its wrapping: [_create_backup]
    has returned [None] and the handler calls [exists] on it. *)
Lemma first_write_failure_raises_attribute_error :
  let E := {| JSONHandler.now := DemoStore.at_second 7;
              JSONHandler.failing :=
                JSONHandler.FailReplace (OSError "[Errno 13] Permission denied") |} in
  (JSONHandler.write E JSONHandler.empty_document true DemoStore.first_run).2
  = Raise (AttributeError "'NoneType' object has no attribute 'exists'")
  ∧ JSONHandler.live
      (JSONHandler.write E JSONHandler.empty_document true DemoStore.first_run).1 = None.
Proof. split; reflexivity. Qed.

(** Witness of C1 (amended): the disk fills up while the document is being
    serialised. *)
Lemma write_failure_keeps_document_witness :
  let E := {| JSONHandler.now := DemoStore.at_second 7;
              JSONHandler.failing :=
                JSONHandler.FailDump 5 (OSError "[Errno 28] No space left on device") |} in
  ∃ s3,
    JSONHandler.write E JSONHandler.empty_document true DemoStore.fresh
    = (s3, Raise (Exception_ "Failed to write JSON: [Errno 28] No space left on device"))
    ∧ JSONHandler.live s3 = JSONHandler.live DemoStore.fresh.
Proof.
  intros E.
  exact (proj1 (proj2 (write_failure_keeps_document E JSONHandler.empty_document true
                         DemoStore.fresh eq_refl))
           (JSONHandler._create_backup E DemoStore.fresh).1
           (JSONHandler.backup_file_name E)
           (JSONHandler.write_locked E JSONHandler.empty_document
              (JSONHandler._create_backup E DemoStore.fresh).1).1
           (OSError "[Errno 28] No space left on device")
           eq_refl eq_refl).
Defined.

(** C4, as stated, fails: a document file that holds the empty array
    nested 100000 deep is JSON text, and [json.load] gives up on it with
    [RecursionError]; [read] lets the exception through.  It returns neither
    the empty document nor a value, and what it raises is not the
    "Invalid JSON" error. *)
Lemma read_deep_nesting_raises_recursion_error :
  let r := JSONHandler.read Demo.BASE_DIR DemoStore.deep in
  JSONHandler.live DemoStore.deep = Some (DemoStore.nested (N.to_nat 100000) "")
  ∧ r = Raise (RecursionError
                 "maximum recursion depth exceeded while decoding a JSON array from a unicode string")
  ∧ (∀ v, r ≠ Ok v)
  ∧ (∀ detail,
       r ≠ Raise (ValueError ("Invalid JSON in " +:+ JSONHandler.json_path Demo.BASE_DIR
                              +:+ ": " +:+ detail))).
Proof.
  assert (Hr : JSONHandler.read Demo.BASE_DIR DemoStore.deep
               = Raise (RecursionError
                          "maximum recursion depth exceeded while decoding a JSON array from a unicode string"))
    by (vm_compute; reflexivity).
  cbv zeta. rewrite Hr. split; [reflexivity|]. split; [reflexivity|].
  split; intros; discriminate.
Qed.

(** C2: the failing input.  Two items carry the id [[]]; the document breaks
    the invariant, and [write] raises the [TypeError] of the id set instead
    of the validator's [ValueError].  Nothing is written. *)
Theorem write_unhashable_id_raises_type_error :
  let data := JDict [("items", JList [JDict [("id", JList [])]; JDict [("id", JList [])]]);
                     ("gameBadges", JList [])] in
  ¬ Structure.valid_document data
  ∧ JSONHandler.write (Scenario.quiet (DemoStore.at_second 7)) data true DemoStore.fresh
    = (DemoStore.fresh, Raise (TypeError "unhashable type: 'list'")).
Proof.
  split; [|reflexivity].
  intros (top & items & game_badges & [= <-] & [= <-] & _ & [_ Hnd] & _).
  apply (Hnd 0%nat 1%nat (JDict [("id", JList [])]) (JDict [("id", JList [])])
           (JList []) (JList [])); try done; [lia | by right].
Qed.

(** C5: the failing input.  Fifty backups are kept; restoring the oldest of
    them first takes the safety backup, whose pruning deletes the backup to
    restore, and the copy then fails: the document is not restored and the
    named backup is gone. *)
Theorem restore_oldest_backup_fails :
  let name := DemoStore.stamp 1 in
  let E := Scenario.quiet (DemoStore.at_second 100) in
  let r := JSONHandler.restore_backup Demo.BASE_DIR E name DemoStore.full in
  JSONHandler.backups DemoStore.full !! name = Some "backup 1"
  ∧ r.2 = Raise (FileNotFoundError
                   "[Errno 2] No such file or directory: '/srv/hrp/cms/backups/assets_20240101_000001.json'")
  ∧ JSONHandler.live r.1 = JSONHandler.live DemoStore.full
  ∧ JSONHandler.backups r.1 !! name = None
  ∧ JSONHandler.backups r.1 !! DemoStore.stamp 100 = JSONHandler.live DemoStore.full.
Proof. vm_compute. repeat split. Qed.

(** A backup that is not the oldest of fifty is restored as the claim says. *)
Lemma restore_recent_backup_succeeds :
  let name := DemoStore.stamp 2 in
  let E := Scenario.quiet (DemoStore.at_second 100) in
  let r := JSONHandler.restore_backup Demo.BASE_DIR E name DemoStore.full in
  r.2 = Ok true
  ∧ JSONHandler.live r.1 = Some "backup 2"
  ∧ JSONHandler.backups r.1 !! DemoStore.stamp 100 = JSONHandler.live DemoStore.full.
Proof. vm_compute. repeat split. Qed.

(** C6, as stated, fails: of fifty-one writes the first three fall into one
    second and share one backup file, so forty-nine backups remain. *)
Lemma same_second_writes_share_a_backup :
  let times := [DemoStore.at_second 0; DemoStore.at_second 0; DemoStore.at_second 0]
               ++ (DemoStore.at_second <$> seq 1 48) in
  length times = 51%nat
  ∧ length (JSONHandler.sorted_backups
              (JSONHandler.backups
                 (Scenario.writes times JSONHandler.empty_document DemoStore.fresh)))
    = 49%nat.
Proof. vm_compute. split; reflexivity. Qed.

(** Witness of C6 (amended): fifty-one writes, one per second. *)
Lemma backup_retention_witness :
  let times := DemoStore.at_second <$> seq 1 51 in
  JSONHandler.sorted_backups
    (JSONHandler.backups (Scenario.writes times JSONHandler.empty_document DemoStore.fresh))
  = reverse (drop (length times - 50) (Scenario.name_at <$> times))
  ∧ length (JSONHandler.sorted_backups
              (JSONHandler.backups
                 (Scenario.writes times JSONHandler.empty_document DemoStore.fresh)))
    = 50%nat.
Proof.
  intros times.
  apply (proj2 (backup_retention (Scenario.quiet (DemoStore.at_second 0)) DemoStore.fresh
                  DemoStore.document_text times JSONHandler.empty_document eq_refl)).
  - reflexivity.
  - apply (bool_decide_unpack _). vm_compute. reflexivity.
  - intros m n Hm. vm_compute in Hm. by apply elem_of_nil in Hm.
  - vm_compute. lia.
Defined.

(** ** Duplicating an item *)

Section DictFacts.

Context {A B : Type}.

Lemma dict_get_fmap (f : A → B) (k : string) (l : list (string * A)) :
  dict_get k ((λ kl, (kl.1, f kl.2)) <$> l) = f <$> dict_get k l.
Proof.
  induction l as [|[k' v] l IH]; cbn; [done|].
  by destruct (String.eqb k k').
Qed.

Lemma fmap_dict_set (f : A → B) (k : string) (c : A) (l : list (string * A)) :
  (λ kl, (kl.1, f kl.2)) <$> dict_set k c l
  = dict_set k (f c) ((λ kl, (kl.1, f kl.2)) <$> l).
Proof.
  induction l as [|[k' v] l IH]; cbn; [done|].
  destruct (String.eqb k k'); cbn; [done|]. by rewrite IH.
Qed.

Lemma dict_get_set_eq (k : string) (v : A) (d : list (string * A)) :
  dict_get k (dict_set k v d) = Some v.
Proof.
  induction d as [|[k' v'] d IH]; cbn.
  - by rewrite String.eqb_refl.
  - destruct (String.eqb k k') eqn:Hk; cbn; [by rewrite String.eqb_refl|].
    by rewrite Hk.
Qed.

Lemma dict_get_set_ne (k k' : string) (v : A) (d : list (string * A)) :
  k ≠ k' → dict_get k (dict_set k' v d) = dict_get k d.
Proof.
  intros Hne. apply String.eqb_neq in Hne.
  induction d as [|[k'' v''] d IH]; cbn.
  - by rewrite Hne.
  - destruct (String.eqb k' k'') eqn:Hk; cbn.
    + apply String.eqb_eq in Hk as <-. by rewrite Hne.
    + by rewrite IH.
Qed.

Lemma dict_get_elem_of (k : string) (v : A) (d : list (string * A)) :
  dict_get k d = Some v → (k, v) ∈ d.
Proof.
  induction d as [|[k' v'] d IH]; cbn; [done|].
  destruct (String.eqb k k') eqn:Hk.
  - apply String.eqb_eq in Hk as <-. intros [= ->]. apply elem_of_cons. by left.
  - intros Hg. apply elem_of_cons. right. by apply IH.
Qed.

End DictFacts.

Section LoadFacts.

Import ItemRoutes.

(** The cells of item [i]. *)
Lemma load_item_cells (i : nat) (d : dict) (k : string) (l : loc) :
  dict_get k (load_fields i d) = Some l →
  ∃ j kv, l = (i, j) ∧ d !! j = Some kv.
Proof.
  intros Hg%dict_get_elem_of. apply list_elem_of_lookup in Hg as [j Hj].
  unfold load_fields in Hj. rewrite list_lookup_imap in Hj.
  destruct (d !! j) as [kv|] eqn:Hd; [|done]. cbn in Hj.
  injection Hj as _ <-. by exists j, kv.
Qed.

Lemma load_item_cells_NoDup (i : nat) (d : dict) :
  NoDup ((load_fields i d).*2).
Proof.
  assert (Heq : (load_fields i d).*2
                = (λ j, (i, j)) <$> seq 0 (length d)).
  { apply list_eq. intros j. unfold load_fields.
    rewrite !list_lookup_fmap, list_lookup_imap.
    destruct (d !! j) as [kv|] eqn:Hd; cbn.
    - rewrite lookup_seq_lt by by eapply lookup_lt_Some. done.
    - apply lookup_ge_None in Hd.
      destruct (seq 0 (length d) !! j) eqn:Hs; [|done].
      apply lookup_seq in Hs. lia. }
  rewrite Heq. apply NoDup_fmap_2; [|apply NoDup_seq].
  intros a b [= ->]. done.
Qed.

(** [json.dump] after [json.load] gives the element back. *)
Lemma dump_load_item (raw : list json) (i : nat) (v : json) :
  raw !! i = Some v →
  dump_item (load_memory raw) (load_item i v) = v.
Proof.
  intros Hv. destruct v as [| | | | | |d]; try done. cbn. f_equal.
  apply list_eq. intros j. unfold load_fields.
  rewrite list_lookup_fmap, list_lookup_imap.
  destruct (d !! j) as [[k x]|] eqn:Hd; [|done]. cbn.
  unfold load_memory. cbn. by rewrite Hv, Hd.
Qed.

(** [d[k] = v] through an alias: the cells being distinct, writing the
    cell the key refers to changes that entry of the dumped dict and no
    other. *)
Lemma dump_after_cell_write (fields : list (string * loc)) (m : memory)
    (k : string) (lb : loc) (v : json) :
  NoDup (fields.*2) →
  dict_get k fields = Some lb →
  (λ kl, (kl.1, mem_set lb v m kl.2)) <$> fields
  = dict_set k v ((λ kl, (kl.1, m kl.2)) <$> fields).
Proof.
  induction fields as [|[k' l'] fields IH]; cbn; [done|].
  intros [Hnin Hnd]%NoDup_cons Hg.
  destruct (String.eqb k k') eqn:Hk.
  - injection Hg as ->. apply String.eqb_eq in Hk as <-.
    unfold mem_set at 1. rewrite bool_decide_eq_true_2 by done. f_equal.
    apply list_fmap_ext. intros j [k'' l''] Hl. cbn. unfold mem_set.
    rewrite bool_decide_eq_false_2; [done|]. intros ->. apply Hnin.
    apply list_elem_of_fmap. exists (k'', lb). split; [done|].
    by eapply list_elem_of_lookup_2.
  - unfold mem_set at 1. rewrite bool_decide_eq_false_2.
    + f_equal. by apply IH.
    + intros ->. apply Hnin. apply list_elem_of_fmap. exists (k, lb).
      split; [done|]. by apply dict_get_elem_of.
Qed.

End LoadFacts.

Section LoopFacts.

Import ItemRoutes Copying.

Variable m : memory.

Lemma find_item_at (item_id : string) (i : nat) (fields : list (string * loc)) :
  ∀ objs : list pyobj,
  (∀ j o, (j < i)%nat → objs !! j = Some o →
     ∃ a, subscript m o "id" = Ok a ∧ eq_str a item_id = false) →
  objs !! i = Some (PyDict fields) →
  has_id m item_id (PyDict fields) = true →
  find_item m item_id objs = Ok (Some fields).
Proof.
  induction i as [|i IH]; intros [|o objs] Hbefore Hi Hid; try done.
  - injection Hi as ->. cbn [find_item]. unfold has_id in Hid.
    destruct (subscript m (PyDict fields) "id") as [a|]; [|done]. by rewrite Hid.
  - destruct (Hbefore 0%nat o) as (a & Ha & Hne); [lia|done|].
    destruct o as [fields'|v]; [|done].
    cbn [find_item]. rewrite Ha, Hne.
    apply IH; [|done..]. intros j o Hj Ho. apply (Hbefore (S j)); [lia|done].
Qed.

Lemma any_has_id_total (s : string) (objs : list pyobj) :
  (∀ o, o ∈ objs → ∃ a, subscript m o "id" = Ok a) →
  any_has_id m s objs = Ok (existsb (has_id m s) objs).
Proof.
  induction objs as [|o objs IH]; intros Hall; [done|].
  cbn [any_has_id existsb]. unfold has_id at 1.
  destruct (Hall o) as [a Ha]; [apply elem_of_cons; by left|].
  rewrite Ha. destruct (eq_str a s); [done|].
  apply IH. intros o' Ho'. apply Hall. apply elem_of_cons. by right.
Qed.

(** With fuel for one free candidate the loop stops at the first of them. *)
Lemma next_free_id_first (objs : list pyobj) (base_id : string) :
  (∀ o, o ∈ objs → ∃ a, subscript m o "id" = Ok a) →
  ∀ (fuel counter : nat),
  (∃ k, (counter ≤ k < counter + fuel)%nat
        ∧ existsb (has_id m (copy_id base_id k)) objs = false) →
  ∃ n, next_free_id fuel m objs base_id counter = Some (Ok (n, copy_id base_id n))
       ∧ (counter ≤ n)%nat
       ∧ existsb (has_id m (copy_id base_id n)) objs = false
       ∧ ∀ k, (counter ≤ k < n)%nat → existsb (has_id m (copy_id base_id k)) objs = true.
Proof.
  intros Hall. induction fuel as [|fuel IH]; intros counter (k & Hk & Hfree); [lia|].
  cbn [next_free_id]. rewrite (any_has_id_total _ _ Hall).
  destruct (existsb (has_id m (copy_id base_id counter)) objs) eqn:Hc.
  - destruct (IH (S counter)) as (n & Hn & Hle & Hf & Hmin).
    { exists k. split; [|done]. destruct (decide (k = counter)) as [->|]; [congruence|lia]. }
    exists n. split; [done|]. split; [lia|]. split; [done|].
    intros k' Hk'. destruct (decide (k' = counter)) as [->|]; [done|].
    apply Hmin. lia.
  - exists counter. repeat split; [lia|done|]. intros k' Hk'. lia.
Qed.

Lemma any_has_id_true (s : string) (objs : list pyobj) :
  any_has_id m s objs = Ok true → existsb (has_id m s) objs = true.
Proof.
  induction objs as [|o objs IH]; [done|].
  cbn [any_has_id existsb]. unfold has_id at 1.
  destruct (subscript m o "id") as [a|e]; [|done].
  destruct (eq_str a s); [done|]. exact IH.
Qed.

(** The loop never uses up fuel that covers a free candidate, whatever the
    items are. *)
Lemma next_free_id_some (objs : list pyobj) (base_id : string) :
  ∀ (fuel counter : nat),
  (∃ k, (counter ≤ k < counter + fuel)%nat
        ∧ existsb (has_id m (copy_id base_id k)) objs = false) →
  is_Some (next_free_id fuel m objs base_id counter).
Proof.
  induction fuel as [|fuel IH]; intros counter (k & Hk & Hfree); [lia|].
  cbn [next_free_id].
  destruct (any_has_id m (copy_id base_id counter) objs) as [[|]|e] eqn:Hany;
    [|by eexists..].
  apply any_has_id_true in Hany. apply IH. exists k. split; [|done].
  destruct (decide (k = counter)) as [->|]; [congruence|lia].
Qed.

End LoopFacts.

Section DuplicateFacts.

Import ItemRoutes Copying.
Context `{Runtime}.

Variable raw : list json.

Lemma subscript_load (i : nat) (d : dict) (k : string) :
  raw !! i = Some (JDict d) →
  subscript (load_memory raw) (load_item i (JDict d)) k
  = match dict_get k d with
    | Some x => Ok x
    | None => Raise (KeyError ("'" +:+ k +:+ "'"))
    end.
Proof.
  intros Hi. pose proof (dump_load_item raw i _ Hi) as Hd.
  cbn in Hd. injection Hd as Hd. cbn [load_item subscript].
  rewrite <- Hd at 2. rewrite dict_get_fmap.
  by destruct (dict_get k (load_fields i d)).
Qed.

Lemma eq_str_iff (a : json) (s : string) : eq_str a s = true ↔ a = JStr s.
Proof.
  destruct a; cbn; try (split; [done|discriminate]).
  rewrite String.eqb_eq. split; [by intros ->|by intros [= ->]].
Qed.

Lemma has_id_load (i : nat) (v : json) (s : string) :
  raw !! i = Some v →
  has_id (load_memory raw) s (load_item i v) = true
  ↔ Structure.entry_id v = Some (JStr s).
Proof.
  intros Hi. unfold has_id. destruct v as [| | | | | |d]; try (cbn; split; done).
  rewrite (subscript_load i d "id" Hi). cbn [Structure.entry_id].
  destruct (dict_get "id" d) as [a|]; [|split; done].
  rewrite eq_str_iff. split; [by intros ->|by intros [= ->]].
Qed.

Lemma taken_load (s : string) :
  existsb (has_id (load_memory raw) s) (load_items raw) = true ↔ id_taken raw s.
Proof.
  rewrite existsb_exists. unfold id_taken, load_items. split.
  - intros (o & Ho%list_elem_of_In & Hid).
    apply list_elem_of_lookup in Ho as [i Hi]. rewrite list_lookup_imap in Hi.
    destruct (raw !! i) as [v|] eqn:Hv; [|done]. injection Hi as <-.
    exists v. split; [by eapply list_elem_of_lookup_2|]. by apply (has_id_load i).
  - intros (v & Hv & Hid). apply list_elem_of_lookup in Hv as [i Hi].
    exists (load_item i v). split; [|by apply has_id_load].
    apply list_elem_of_In, list_elem_of_lookup. exists i.
    by rewrite list_lookup_imap, Hi.
Qed.

Lemma subscript_id_total :
  Structure.all_have_id raw →
  ∀ o, o ∈ load_items raw → ∃ a, subscript (load_memory raw) o "id" = Ok a.
Proof.
  intros Hall o Ho. apply list_elem_of_lookup in Ho as [i Hi].
  unfold load_items in Hi. rewrite list_lookup_imap in Hi.
  destruct (raw !! i) as [v|] eqn:Hv; [|done]. injection Hi as <-.
  pose proof (Forall_lookup_1 _ _ _ _ Hall Hv) as [a Ha].
  destruct v as [| | | | | |d]; try done.
  rewrite (subscript_load i d "id" Hv). cbn in Ha. rewrite Ha. by exists a.
Qed.

Lemma copy_id_inj (base_id : string) : Inj (=) (=) (copy_id base_id).
Proof.
  intros a b Heq. unfold copy_id in Heq.
  apply (inj (String.app base_id)), (inj (String.app "-copy-")) in Heq.
  by apply (inj pretty) in Heq.
Qed.

(** Among [length raw + 1] candidates one is free. *)
Lemma free_candidate (base_id : string) :
  ∃ k, (1 ≤ k < 1 + S (length raw))%nat
       ∧ existsb (has_id (load_memory raw) (copy_id base_id k)) (load_items raw) = false.
Proof.
  set (taken k := existsb (has_id (load_memory raw) (copy_id base_id k)) (load_items raw)).
  destruct (Forall_Exists_dec (λ k, taken k = true) (λ k, taken k = false)
              (λ k, match taken k as b return {b = true} + {b = false} with
                    | true => left eq_refl
                    | false => right eq_refl
                    end)
              (seq 1 (S (length raw)))) as [Hall|Hex].
  - exfalso.
    set (ids := omap (λ v, match Structure.entry_id v with
                           | Some (JStr s) => Some s
                           | _ => None
                           end) raw).
    assert (Hlen : (length ids ≤ length raw)%nat).
    { subst ids. clear. induction raw as [|v l IH]; cbn; [lia|].
      destruct (match Structure.entry_id v with Some (JStr s) => Some s | _ => None end);
        cbn; lia. }
    assert (Hsub : copy_id base_id <$> seq 1 (S (length raw)) ⊆+ ids).
    { apply NoDup_submseteq.
      - apply NoDup_fmap_2; [apply copy_id_inj | apply NoDup_seq].
      - intros s (k & -> & Hk)%list_elem_of_fmap.
        pose proof (proj1 (Forall_forall _ _) Hall k Hk) as Ht.
        apply taken_load in Ht as (v & Hv & Hid).
        apply list_elem_of_omap. exists v. split; [done|]. by rewrite Hid. }
    apply submseteq_length in Hsub. rewrite length_fmap, length_seq in Hsub. lia.
  - apply Exists_exists in Hex as (k & Hk & Hfree).
    apply elem_of_seq in Hk. exists k. split; [lia|done].
Qed.

Lemma dump_item_mem_set_other (j : nat) (v : json) (c : loc) (x : json) (m : memory) :
  c.1 ≠ j →
  dump_item (mem_set c x m) (load_item j v) = dump_item m (load_item j v).
Proof.
  intros Hc. destruct v as [| | | | | |dj]; try done. cbn. f_equal.
  apply list_fmap_ext. intros p [k l] Hl. cbn.
  unfold load_fields in Hl.
  rewrite list_lookup_imap in Hl. destruct (dj !! p) as [kv|]; [|done].
  injection Hl as _ <-. unfold mem_set.
  rewrite bool_decide_eq_false_2; [done|]. intros <-. by apply Hc.
Qed.

Lemma dict_set_same {A} (k : string) (v : A) (d : list (string * A)) :
  dict_get k d = Some v → dict_set k v d = d.
Proof.
  induction d as [|[k' v'] d IH]; cbn; [done|].
  destruct (String.eqb k k') eqn:Hk.
  - intros [= ->]. apply String.eqb_eq in Hk as ->. done.
  - intros Hg. by rewrite IH.
Qed.

(** The field [k] of item [i] and the cell that holds its value. *)
Lemma field_cell (i : nat) (d : dict) (k : string) (x : json) :
  raw !! i = Some (JDict d) →
  dict_get k d = Some x →
  ∃ p, dict_get k (load_fields i d) = Some (i, p)
       ∧ load_memory raw (i, p) = x.
Proof.
  intros Hi Hx. pose proof (subscript_load i d k Hi) as Hs.
  rewrite Hx in Hs. cbn [load_item subscript] in Hs.
  destruct (dict_get k (load_fields i d)) as [l|] eqn:Hl; [|done].
  destruct (load_item_cells i d k l Hl) as (p & kv & -> & _).
  exists p. split; [done|]. by injection Hs.
Qed.

Lemma field_no_cell (i : nat) (d : dict) (k : string) :
  raw !! i = Some (JDict d) →
  dict_get k d = None →
  dict_get k (load_fields i d) = None.
Proof.
  intros Hi Hx. pose proof (subscript_load i d k Hi) as Hs.
  rewrite Hx in Hs. cbn [load_item subscript] in Hs.
  by destruct (dict_get k (load_fields i d)).
Qed.

(** What the statements between the search loop and [# Save] leave in
    the fields of the item that was found, seen through the memory [m3]
    they end with. *)
Lemma fields_after (i : nat) (d : dict) (new_id : string) (N : json) :
  raw !! i = Some (JDict d) →
  badge_is_object_or_unset d →
  let n := length (load_items raw) in
  let fields := load_fields i d in
  let m2 := mem_set (n, 1%nat) N (mem_set (n, 0%nat) (JStr new_id) (load_memory raw)) in
  let item2 := dict_set "name" (n, 1%nat) (dict_set "id" (n, 0%nat) fields) in
  ∃ m3,
    match dict_get "badge" item2 with
    | Some lb =>
        if truthy (m2 lb) then
          match m2 lb with
          | JDict b =>
              let b := dict_set "id" (JStr new_id) b in
              let old := default (JStr "") (dict_get "name" b) in
              let b := dict_set "name" (JStr (py_str old +:+ " (Copy)")) b in
              Ok (mem_set lb (JDict b) m2)
          | v => Raise (assignment_error v)
          end
        else Ok m2
    | None => Ok m2
    end = Ok m3
    ∧ m3 (n, 0%nat) = JStr new_id
    ∧ m3 (n, 1%nat) = N
    ∧ (λ kl, (kl.1, m3 kl.2)) <$> fields = original_after new_id d
    ∧ ∀ j v, raw !! j = Some v → j ≠ i → dump_item m3 (load_item j v) = v.
Proof.
  intros Hi Hbadge n fields m2 item2.
  assert (Hn : n = length raw) by (subst n; unfold load_items; by rewrite length_imap).
  assert (Hlt : (i < n)%nat) by (rewrite Hn; by eapply lookup_lt_Some).
  assert (Hm2 : ∀ p, m2 (i, p) = load_memory raw (i, p)).
  { intros p. subst m2. unfold mem_set.
    rewrite !bool_decide_eq_false_2; [done|intros [= ?]; lia..]. }
  assert (Hfields2 : (λ kl, (kl.1, m2 kl.2)) <$> fields = d).
  { pose proof (dump_load_item raw i _ Hi) as Hd. cbn in Hd. injection Hd as Hd.
    etrans; [|exact Hd]. apply list_fmap_ext. intros p [k l] Hl. cbn.
    subst fields. unfold load_fields in Hl. rewrite list_lookup_imap in Hl.
    destruct (d !! p); [|done]. injection Hl as _ <-. by rewrite Hm2. }
  assert (Hothers2 : ∀ j v, raw !! j = Some v → dump_item m2 (load_item j v) = v).
  { intros j v Hj. subst m2.
    assert ((j < n)%nat) by (rewrite Hn; by eapply lookup_lt_Some).
    rewrite !dump_item_mem_set_other by (cbn; lia). by apply dump_load_item. }
  assert (Hget : dict_get "badge" item2 = dict_get "badge" fields).
  { subst item2. by rewrite !dict_get_set_ne. }
  rewrite Hget. unfold original_after.
  destruct (dict_get "badge" d) as [v|] eqn:Hv.
  - destruct (field_cell i d "badge" v Hi Hv) as (p & Hp & Hmem).
    fold fields in Hp. rewrite Hp, Hm2, Hmem.
    destruct (truthy v) eqn:Htruthy.
    + destruct (Hbadge v Hv Htruthy) as [b ->].
      eexists. split; [reflexivity|].
      split; [unfold mem_set; rewrite bool_decide_eq_false_2; [|intros [= ?]; lia];
              subst m2; unfold mem_set;
              rewrite bool_decide_eq_false_2 by (intros [= ?]; lia);
              by rewrite bool_decide_eq_true_2|].
      split; [unfold mem_set; rewrite bool_decide_eq_false_2; [|intros [= ?]; lia];
              subst m2; unfold mem_set; by rewrite bool_decide_eq_true_2|].
      split.
      * rewrite (dump_after_cell_write fields m2 "badge" (i, p));
          [|apply load_item_cells_NoDup|done].
        rewrite Hfields2. unfold badge_after. rewrite Htruthy.
        unfold renamed_badge. by rewrite dict_get_set_ne.
      * intros j v Hj Hne. rewrite dump_item_mem_set_other by (cbn; lia).
        by apply Hothers2.
    + exists m2. split; [done|].
      split; [subst m2; unfold mem_set;
              rewrite bool_decide_eq_false_2 by (intros [= ?]; lia);
              by rewrite bool_decide_eq_true_2|].
      split; [subst m2; unfold mem_set; by rewrite bool_decide_eq_true_2|].
      split; [|intros j v' Hj _; by apply Hothers2].
      rewrite Hfields2. symmetry.
      assert (Hsame : badge_after new_id v = v).
      { unfold badge_after. destruct v; try done. by rewrite Htruthy. }
      rewrite Hsame. by apply dict_set_same.
  - pose proof (field_no_cell i d "badge" Hi Hv) as Hnone.
    fold fields in Hnone. rewrite Hnone.
    exists m2. split; [done|].
    split; [subst m2; unfold mem_set;
            rewrite bool_decide_eq_false_2 by (intros [= ?]; lia);
            by rewrite bool_decide_eq_true_2|].
    split; [subst m2; unfold mem_set; by rewrite bool_decide_eq_true_2|].
    split; [done|intros j v' Hj _; by apply Hothers2].
Qed.

(** The document handed to [handler.write]. *)
Lemma duplicate_data_result (top : dict) (item_id : string) (i : nat) (d : dict)
    (name : json) :
  dict_get "items" top = Some (JList raw) →
  Structure.all_have_id raw →
  first_with_id raw item_id i d →
  dict_get "name" d = Some name →
  badge_is_object_or_unset d →
  ∃ n,
    (1 ≤ n)%nat
    ∧ ¬ id_taken raw (copy_id item_id n)
    ∧ (∀ k, (1 ≤ k < n)%nat → id_taken raw (copy_id item_id k))
    ∧ duplicate_data item_id (JDict top)
      = Some (Ok (Some (JDict (dict_set "items"
           (JList (<[i := JDict (original_after (copy_id item_id n) d)]> raw
                   ++ [JDict (the_copy (copy_id item_id n) name d)]))
           top)))).
Proof.
  intros Htop Hall (Hi & Hid & Hbefore) Hname Hbadge.
  set (m0 := load_memory raw). set (objs := load_items raw).
  set (fields := load_fields i d).
  assert (Hobj : objs !! i = Some (PyDict fields)).
  { subst objs. unfold load_items. by rewrite list_lookup_imap, Hi. }
  assert (Hfind : find_item m0 item_id objs = Ok (Some fields)).
  { apply (find_item_at m0 item_id i); [|done|].
    - intros j o Hj Ho. subst objs. unfold load_items in Ho.
      rewrite list_lookup_imap in Ho.
      destruct (raw !! j) as [v|] eqn:Hv; [|done]. injection Ho as <-.
      pose proof (Forall_lookup_1 _ _ _ _ Hall Hv) as [a Ha].
      destruct v as [| | | | | |dj]; try done.
      exists a. subst m0. rewrite (subscript_load j dj "id" Hv).
      cbn in Ha. rewrite Ha. split; [done|].
      destruct (eq_str a item_id) eqn:Heq; [|done].
      apply eq_str_iff in Heq as ->. by destruct (Hbefore j _ Hj Hv).
    - apply (has_id_load i (JDict d) item_id Hi). done. }
  destruct (free_candidate item_id) as (k0 & Hk0 & Hfree0).
  destruct (next_free_id_first m0 objs item_id (subscript_id_total Hall)
              (S (length objs)) 1) as (n & Hnext & Hn1 & Hnfree & Hmin).
  { exists k0. split; [|done]. subst objs. unfold load_items.
    rewrite length_imap. lia. }
  exists n. split; [done|].
  split; [intros Ht%taken_load; subst m0 objs; congruence|].
  split; [intros k Hk; apply taken_load; by apply Hmin|].
  unfold duplicate_data. rewrite Htop. fold m0 objs. rewrite Hfind.
  unfold copy_and_append.
  assert (Hsid : subscript m0 (PyDict fields) "id" = Ok (JStr item_id)).
  { pose proof (subscript_load i d "id" Hi) as Hs. by rewrite Hid in Hs. }
  rewrite Hsid. cbn [py_str]. rewrite Hnext.
  set (new_id := copy_id item_id n).
  destruct (field_cell i d "name" name Hi Hname) as (p & Hp & Hmem).
  fold fields in Hp.
  assert (Hilt : (i < length objs)%nat).
  { subst objs. unfold load_items. rewrite length_imap. by eapply lookup_lt_Some. }
  assert (Hsname : subscript (mem_set (length objs, 0%nat) (JStr new_id) m0)
                     (PyDict (dict_set "id" (length objs, 0%nat) fields)) "name"
                   = Ok name).
  { cbn [subscript]. rewrite dict_get_set_ne by done. rewrite Hp.
    unfold mem_set. rewrite bool_decide_eq_false_2 by (intros [= ?]; lia).
    by rewrite <- Hmem. }
  rewrite Hsname.
  destruct (fields_after i d new_id (JStr (py_str name +:+ " (Copy)")) Hi Hbadge)
    as (m3 & Hm3 & Hcell0 & Hcell1 & Hfields & Hothers).
  fold objs m0 fields in Hm3. cbv zeta in Hm3 |- *. rewrite Hm3.
  do 4 f_equal. rewrite fmap_app.
  apply (f_equal (λ l, dict_set "items" (JList l) top)). apply (f_equal2 app).
  - apply list_eq. intros j. rewrite list_lookup_fmap.
    subst objs. unfold load_items. rewrite list_lookup_imap.
    destruct (decide (j = i)) as [->|Hne].
    + rewrite list_lookup_insert_eq by by eapply lookup_lt_Some.
      rewrite Hi. cbn. by rewrite Hfields.
    + rewrite list_lookup_insert_ne by done.
      destruct (raw !! j) as [v|] eqn:Hv; [|done]. cbn. by rewrite Hothers.
  - cbn [fmap list_fmap dump_item]. unfold the_copy. f_equal. f_equal.
    rewrite !fmap_dict_set. subst fields. rewrite Hfields.
    fold objs in Hcell0, Hcell1. cbn [snd]. by rewrite Hcell0, Hcell1.
Qed.

(** C9: when the items are objects with ids, the item found has a name
    and its badge is an object (or unset), duplicating appends one record
    to the items; its id is [<id>-copy-<n>] for the smallest [n >= 1]
    that no existing item id equals, its name and the name of its badge
    carry the copy marker, its badge carries the new id, and its other
    fields are those of the item copied. *)
Theorem duplicate_appends_copy (top : dict) (item_id : string) (i : nat) (d : dict)
    (name : json) :
  dict_get "items" top = Some (JList raw) →
  Structure.all_have_id raw →
  first_with_id raw item_id i d →
  dict_get "name" d = Some name →
  badge_is_object_or_unset d →
  ∃ (n : nat) (others : list json) (copy : dict),
    duplicate_data item_id (JDict top)
    = Some (Ok (Some (JDict (dict_set "items" (JList (others ++ [JDict copy])) top))))
    ∧ length others = length raw
    ∧ (1 ≤ n)%nat
    ∧ ¬ id_taken raw (item_id +:+ "-copy-" +:+ pretty n)
    ∧ (∀ k, (1 ≤ k < n)%nat → id_taken raw (item_id +:+ "-copy-" +:+ pretty k))
    ∧ dict_get "id" copy = Some (JStr (item_id +:+ "-copy-" +:+ pretty n))
    ∧ dict_get "name" copy = Some (JStr (py_str name +:+ " (Copy)"))
    ∧ (∀ b, dict_get "badge" d = Some (JDict b) → b ≠ [] →
         ∃ b', dict_get "badge" copy = Some (JDict b')
               ∧ dict_get "id" b' = Some (JStr (item_id +:+ "-copy-" +:+ pretty n))
               ∧ dict_get "name" b'
                 = Some (JStr (py_str (default (JStr "") (dict_get "name" b))
                               +:+ " (Copy)")))
    ∧ (∀ k, k ≠ "id" → k ≠ "name" → k ≠ "badge" → dict_get k copy = dict_get k d).
Proof.
  intros Htop Hall Hfirst Hname Hbadge.
  destruct (duplicate_data_result top item_id i d name Htop Hall Hfirst Hname Hbadge)
    as (n & Hn1 & Hfree & Hmin & Hdup).
  exists n, (<[i := JDict (original_after (copy_id item_id n) d)]> raw),
    (the_copy (copy_id item_id n) name d).
  split; [done|]. split; [apply length_insert|]. split; [done|].
  split; [done|]. split; [done|].
  unfold the_copy.
  split; [by rewrite dict_get_set_ne, dict_get_set_eq|].
  split; [by rewrite dict_get_set_eq|].
  split.
  - intros b Hb Hne. rewrite !dict_get_set_ne by done.
    unfold original_after. rewrite Hb, dict_get_set_eq.
    assert (Ht : truthy (JDict b) = true).
    { cbn. destruct b; [done|]. by rewrite bool_decide_eq_false_2. }
    unfold badge_after. rewrite Ht. eexists. split; [done|].
    unfold renamed_badge.
    split; [by rewrite dict_get_set_ne, dict_get_set_eq|by rewrite dict_get_set_eq].
  - intros k Hk1 Hk2 Hk3. rewrite !dict_get_set_ne by done.
    unfold original_after. destruct (dict_get "badge" d); [|done].
    by rewrite dict_get_set_ne.
Qed.

(** C10: duplicating is not without effect on the item copied.  When its
    badge is a non-empty object, the document handed to [handler.write]
    holds, at the place of the original item, that item with the badge of
    the copy: the badge id is the generated [<id>-copy-<n>] and the badge
    name has the copy marker.  The copy holds the same badge; the other
    fields of the original and all other items are as they were. *)
Theorem duplicate_renames_original_badge (top : dict) (item_id : string) (i : nat)
    (d b : dict) (name : json) :
  dict_get "items" top = Some (JList raw) →
  Structure.all_have_id raw →
  first_with_id raw item_id i d →
  dict_get "name" d = Some name →
  dict_get "badge" d = Some (JDict b) →
  b ≠ [] →
  ∃ (n : nat) (others : list json) (copy original b' : dict),
    duplicate_data item_id (JDict top)
    = Some (Ok (Some (JDict (dict_set "items" (JList (others ++ [JDict copy])) top))))
    ∧ others !! i = Some (JDict original)
    ∧ dict_get "badge" original = Some (JDict b')
    ∧ dict_get "badge" copy = Some (JDict b')
    ∧ dict_get "id" b' = Some (JStr (item_id +:+ "-copy-" +:+ pretty n))
    ∧ dict_get "name" b'
      = Some (JStr (py_str (default (JStr "") (dict_get "name" b)) +:+ " (Copy)"))
    ∧ dict_get "id" original = Some (JStr item_id)
    ∧ (∀ k, k ≠ "badge" → dict_get k original = dict_get k d)
    ∧ (∀ j, j ≠ i → others !! j = raw !! j).
Proof.
  intros Htop Hall Hfirst Hname Hb Hne.
  assert (Hbadge : badge_is_object_or_unset d).
  { intros v Hv _. rewrite Hb in Hv. injection Hv as <-. by exists b. }
  destruct (duplicate_data_result top item_id i d name Htop Hall Hfirst Hname Hbadge)
    as (n & Hn1 & Hfree & Hmin & Hdup).
  destruct Hfirst as (Hi & Hid & _).
  assert (Ht : truthy (JDict b) = true).
  { cbn. destruct b; [done|]. by rewrite bool_decide_eq_false_2. }
  exists n, (<[i := JDict (original_after (copy_id item_id n) d)]> raw),
    (the_copy (copy_id item_id n) name d), (original_after (copy_id item_id n) d),
    (renamed_badge (copy_id item_id n) b).
  split; [done|].
  split; [apply list_lookup_insert_eq; by eapply lookup_lt_Some|].
  assert (Horig : dict_get "badge" (original_after (copy_id item_id n) d)
                  = Some (JDict (renamed_badge (copy_id item_id n) b))).
  { unfold original_after. rewrite Hb, dict_get_set_eq. unfold badge_after.
    by rewrite Ht. }
  split; [done|].
  split; [unfold the_copy; by rewrite !dict_get_set_ne|].
  unfold renamed_badge.
  split; [by rewrite dict_get_set_ne, dict_get_set_eq|].
  split; [by rewrite dict_get_set_eq|].
  split; [unfold original_after; rewrite Hb; by rewrite dict_get_set_ne|].
  split; [intros k Hk; unfold original_after; rewrite Hb; by rewrite dict_get_set_ne|].
  intros j Hj. by apply list_lookup_insert_ne.
Qed.

End DuplicateFacts.

Section TotalFacts.

Import ItemRoutes Copying.
Context `{Runtime}.

(** The fuel given to the loop always suffices: the in-memory part of the
    route ends for every document, with a document, "not found" or an
    exception. *)
Lemma duplicate_data_total (item_id : string) (data : json) :
  is_Some (duplicate_data item_id data).
Proof.
  unfold duplicate_data.
  destruct data as [| | | | | |top]; try by eexists.
  destruct (dict_get "items" top) as [[| | | | |raw|]|]; try by eexists.
  - destruct (String.eqb _ _); by eexists.
  - destruct (find_item _ _ _) as [[a|]|e]; try by eexists.
    unfold copy_and_append.
    destruct (subscript _ (PyDict a) "id") as [base_id|e]; [|by eexists].
    assert (Hfuel : is_Some (next_free_id (S (length (load_items raw))) (load_memory raw)
                               (load_items raw) (py_str base_id) 1)).
    { apply next_free_id_some.
      destruct (free_candidate raw (py_str base_id)) as (k & Hk & Hfree).
      exists k. split; [|done]. unfold load_items. rewrite length_imap. lia. }
    destruct Hfuel as [[[n new_id]|e] ->]; [|by eexists].
    repeat case_match; first [done | by eexists].
  - case_bool_decide; by eexists.
Qed.

End TotalFacts.

(** ** Duplicating on the demo document *)

(** The document handed to [handler.write] when "fox" is duplicated: the
    copy is "fox-copy-2", and the badge of the original "fox" has become the
    badge of the copy. *)
Lemma duplicate_fox :
  ItemRoutes.duplicate_data "fox" DemoDocument.data
  = Some (Ok (Some DemoDocument.after_duplicate)).
Proof. vm_compute. reflexivity. Qed.

Lemma demo_items_have_ids : Structure.all_have_id DemoDocument.items.
Proof. repeat constructor; by eexists. Defined.

Lemma demo_fox_is_first :
  Copying.first_with_id DemoDocument.items "fox" 0 DemoDocument.fox.
Proof. split; [reflexivity|]. split; [reflexivity|]. intros j v Hj. lia. Defined.

(** Witness of C9. *)
Lemma duplicate_appends_copy_witness :
  ∃ (n : nat) (others : list json) (copy : dict),
    ItemRoutes.duplicate_data "fox" DemoDocument.data
    = Some (Ok (Some (JDict (dict_set "items" (JList (others ++ [JDict copy]))
                               DemoDocument.top))))
    ∧ length others = 2%nat
    ∧ dict_get "id" copy = Some (JStr ("fox" +:+ "-copy-" +:+ pretty n))
    ∧ dict_get "name" copy = Some (JStr "Fox (Copy)").
Proof.
  destruct (duplicate_appends_copy DemoDocument.items DemoDocument.top "fox" 0
              DemoDocument.fox (JStr "Fox") eq_refl demo_items_have_ids
              demo_fox_is_first eq_refl)
    as (n & others & copy & Hdup & Hlen & _ & _ & _ & Hid & Hname & _).
  - intros v [= <-] _. by eexists.
  - exists n, others, copy. done.
Defined.

(** Witness of C10. *)
Lemma duplicate_renames_original_badge_witness :
  ∃ (n : nat) (others : list json) (copy original b' : dict),
    ItemRoutes.duplicate_data "fox" DemoDocument.data
    = Some (Ok (Some (JDict (dict_set "items" (JList (others ++ [JDict copy]))
                               DemoDocument.top))))
    ∧ others !! 0%nat = Some (JDict original)
    ∧ dict_get "id" original = Some (JStr "fox")
    ∧ dict_get "badge" original = Some (JDict b')
    ∧ dict_get "id" b' = Some (JStr ("fox" +:+ "-copy-" +:+ pretty n))
    ∧ dict_get "name" b' = Some (JStr "Fox badge (Copy)").
Proof.
  destruct (duplicate_renames_original_badge DemoDocument.items DemoDocument.top "fox" 0
              DemoDocument.fox DemoDocument.fox_badge (JStr "Fox") eq_refl
              demo_items_have_ids demo_fox_is_first eq_refl eq_refl)
    as (n & others & copy & original & b' & Hdup & Ho & Hb & _ & Hid & Hname & Hoid & _).
  - discriminate.
  - exists n, others, copy, original, b'. done.
Defined.

(** ** The route as a whole: what is written to the document file *)

Section RouteFacts.

Import JSONHandler ItemRoutes Copying.
Context `{Runtime}.

Lemma check_entries_complete (Label label : string) (entries : list json) :
  ∀ (i : nat) (seen : list json),
  Structure.all_have_id entries →
  Structure.ids_hashable entries →
  (∀ k v a b, entries !! k = Some v → Structure.entry_id v = Some a →
     b ∈ seen → key_eq a b = false) →
  (∀ j k va vb a b, (j < k)%nat → entries !! j = Some va → entries !! k = Some vb →
     Structure.entry_id va = Some a → Structure.entry_id vb = Some b →
     key_eq b a = false) →
  check_entries Label label i seen entries = Ok ().
Proof.
  induction entries as [|v rest IH]; intros i seen Hall Hhash Hseen Hpairs; [done|].
  apply Forall_cons in Hall as [[a Ha] Hall].
  apply Forall_cons in Hhash as [Hh Hhash].
  destruct v as [| | | | | |item]; try done. cbn in Ha.
  cbn [check_entries].
  rewrite (proj2 (dict_mem_get "id" item)) by by eexists.
  rewrite (dict_item_get _ _ _ Ha). rewrite (Hh a Ha). cbn [negb].
  assert (Hnot : existsb (key_eq a) seen = false).
  { destruct (existsb (key_eq a) seen) eqn:Hex; [|done].
    apply existsb_exists in Hex as (b & Hb%list_elem_of_In & Hab).
    by rewrite (Hseen 0%nat (JDict item) a b eq_refl Ha Hb) in Hab. }
  rewrite Hnot. apply IH; [done..| |].
  - intros k v a' b Hv Hid [->|Hb]%elem_of_cons.
    + apply (Hpairs 0%nat (S k) (JDict item) v a a'); [lia|done..].
    + by apply (Hseen (S k) v a' b).
  - intros j k va vb a' b Hjk Hva Hvb. apply (Hpairs (S j) (S k)); [lia|done..].
Qed.

(** The validator accepts the document with the copy appended when it
    accepted the document read. *)
Lemma duplicate_keeps_validity (top : dict) (raw : list json) (i : nat) (d : dict)
    (new_id : string) (name : json) :
  _validate_structure (JDict top) = Ok () →
  dict_get "items" top = Some (JList raw) →
  raw !! i = Some (JDict d) →
  ¬ id_taken raw new_id →
  _validate_structure
    (JDict (dict_set "items"
              (JList (<[i := JDict (original_after new_id d)]> raw
                      ++ [JDict (the_copy new_id name d)]))
              top))
  = Ok ().
Proof.
  intros Hvalid Htop Hi Hfree. unfold _validate_structure in *.
  destruct (dict_mem "items" top) eqn:Hmi; cbn [negb] in Hvalid; [|done].
  destruct (dict_mem "gameBadges" top) eqn:Hmb; cbn [negb] in Hvalid; [|done].
  rewrite (dict_item_get _ _ _ Htop) in Hvalid.
  apply dict_mem_get in Hmb as [vb Hvb]. rewrite (dict_item_get _ _ _ Hvb) in Hvalid.
  destruct vb as [| | | | |game_badges|]; try done.
  destruct (check_entries "Item" "item" 0 [] raw) as [[]|e] eqn:Hitems; [|done].
  rewrite (proj2 (dict_mem_get "items" (dict_set "items" _ top)))
    by (rewrite dict_get_set_eq; by eexists).
  rewrite (proj2 (dict_mem_get "gameBadges" (dict_set "items" _ top)))
    by (rewrite dict_get_set_ne by done; by eexists).
  cbn [negb]. unfold dict_item.
  rewrite dict_get_set_eq, dict_get_set_ne, Hvb by done. cbn [default from_option id].
  apply check_entries_ok in Hitems as (Hall & Hhash & _ & Hpairs).
  assert (Hsame : Structure.entry_id (JDict (original_after new_id d))
                  = Structure.entry_id (JDict d)).
  { cbn. unfold original_after. destruct (dict_get "badge" d); [|done].
    by rewrite dict_get_set_ne. }
  assert (Hids : ∀ k v, <[i := JDict (original_after new_id d)]> raw !! k = Some v →
                 ∃ v', raw !! k = Some v' ∧ Structure.entry_id v = Structure.entry_id v').
  { intros k v Hk. destruct (decide (i = k)) as [->|Hne].
    - rewrite list_lookup_insert_eq in Hk by by eapply lookup_lt_Some.
      injection Hk as <-. by exists (JDict d).
    - rewrite list_lookup_insert_ne in Hk by done. by exists v. }
  assert (Hcopy : Structure.entry_id (JDict (the_copy new_id name d)) = Some (JStr new_id)).
  { cbn. unfold the_copy. by rewrite dict_get_set_ne, dict_get_set_eq. }
  assert (Hlen : length (<[i := JDict (original_after new_id d)]> raw) = length raw)
    by apply length_insert.
  rewrite check_entries_complete; [done| | | |].
  - apply Forall_app. split.
    + apply Forall_lookup. intros k v Hk. destruct (Hids k v Hk) as (v' & Hv' & ->).
      by apply (Forall_lookup_1 _ _ _ _ Hall Hv').
    + constructor; [|done]. rewrite Hcopy. by eexists.
  - apply Forall_app. split.
    + apply Forall_lookup. intros k v Hk a. destruct (Hids k v Hk) as (v' & Hv' & ->).
      by apply (Forall_lookup_1 _ _ _ _ Hhash Hv').
    + constructor; [|done]. intros a. rewrite Hcopy. by intros [= <-].
  - intros k v a b _ _ Hb. by apply elem_of_nil in Hb.
  - intros j k va wb a b Hjk Hva Hwb Ha Hb.
    destruct (decide (k < length raw)%nat) as [Hk|Hk].
    + rewrite lookup_app_l in Hva, Hwb by lia.
      destruct (Hids j va Hva) as (va' & Hva' & Heqa).
      destruct (Hids k wb Hwb) as (wb' & Hwb' & Heqb).
      rewrite Heqa in Ha. rewrite Heqb in Hb.
      by apply (Hpairs j k va' wb' a b).
    + assert (k = length raw) as ->.
      { apply lookup_lt_Some in Hwb. rewrite length_app, Hlen in Hwb. cbn in Hwb. lia. }
      rewrite lookup_app_r, Hlen, Nat.sub_diag in Hwb by lia.
      injection Hwb as <-. rewrite Hcopy in Hb. injection Hb as <-.
      rewrite lookup_app_l in Hva by lia.
      destruct (Hids j va Hva) as (va' & Hva' & Heqa). rewrite Heqa in Ha.
      destruct (key_eq (JStr new_id) a) eqn:Hkey; [|done].
      exfalso. apply Hfree. exists va'. split; [by eapply list_elem_of_lookup_2|].
      rewrite Ha. f_equal. destruct a; try done. cbn in Hkey.
      by apply String.eqb_eq in Hkey as ->.
Qed.

(** A write during which nothing fails and whose text reads back succeeds
    and leaves that text in the document file. *)
Lemma write_quiet_success (E : env) (data v : json) (s : store) :
  failing E = NoFault →
  _validate_structure data = Ok () →
  json_loads (json_dumps data) = Parsed v →
  (write E data true s).2 = Ok true
  ∧ live (write E data true s).1 = Some (json_dumps data)
  ∧ temp (write E data true s).1 = None.
Proof.
  intros Hq Hv Hl. unfold write. rewrite Hv.
  assert (Hb : ∃ s1 r, _create_backup E s = (s1, Ok r)).
  { unfold _create_backup. rewrite Hq. destruct (live s); by eexists _, _. }
  destruct Hb as (s1 & r & ->). unfold write_locked. by rewrite Hq, Hl.
Qed.

Variable BASE_DIR : list string.

(** The route on a stored document that is valid: the document with the copy
    appended passes the validator and is what [handler.write] receives; when
    nothing fails and the text reads back, it is the new content of the
    document file and the user sees the success message. *)
Lemma duplicate_stores_copy (E : env) (s : store) (top : dict) (raw : list json)
    (item_id : string) (i : nat) (d : dict) (name : json) :
  read BASE_DIR s = Ok (JDict top) →
  _validate_structure (JDict top) = Ok () →
  dict_get "items" top = Some (JList raw) →
  first_with_id raw item_id i d →
  dict_get "name" d = Some name →
  badge_is_object_or_unset d →
  ∃ n,
    let new_id := copy_id item_id n in
    let data' :=
      JDict (dict_set "items"
               (JList (<[i := JDict (original_after new_id d)]> raw
                       ++ [JDict (the_copy new_id name d)]))
               top) in
    duplicate_data item_id (JDict top) = Some (Ok (Some data'))
    ∧ _validate_structure data' = Ok ()
    ∧ (failing E = NoFault →
       ∀ v, json_loads (json_dumps data') = Parsed v →
       ∃ s', duplicate BASE_DIR E item_id s
             = Some (s', Ok (Flash "Item duplicated successfully" "success"))
             ∧ live s' = Some (json_dumps data')).
Proof.
  intros Hread Hvalid Htop Hfirst Hname Hbadge.
  pose proof (validate_structure_ok _ Hvalid)
    as (top' & items & badges & [= <-] & Hitems & _ & [Hall _] & _).
  assert (items = raw) as -> by congruence.
  destruct (duplicate_data_result raw top item_id i d name Htop Hall Hfirst Hname Hbadge)
    as (n & _ & Hfree & _ & Hdup).
  exists n. cbv zeta. split; [done|].
  destruct Hfirst as (Hi & _ & _).
  pose proof (duplicate_keeps_validity top raw i d (copy_id item_id n) name
                Hvalid Htop Hi Hfree) as Hvalid'.
  split; [done|].
  intros Hq v Hl. unfold duplicate. rewrite Hread, Hdup.
  destruct (write_quiet_success E _ v s Hq Hvalid' Hl) as (Hok & Hlive & _).
  destruct (write E _ true s) as [s' r]. cbn in Hok, Hlive. subst r.
  by exists s'.
Qed.

End RouteFacts.

(** The route on the demo store: "fox" is duplicated, a backup of the
    document is taken, and the document file then reads as the document of
    [duplicate_fox], in which the original "fox" carries the badge id
    "fox-copy-2". *)
Lemma duplicate_fox_stored :
  match ItemRoutes.duplicate Demo.BASE_DIR (Scenario.quiet (DemoStore.at_second 7)) "fox"
          DemoDocument.store with
  | Some (s', r) =>
      r = Ok (ItemRoutes.Flash "Item duplicated successfully" "success")
      ∧ JSONHandler.read Demo.BASE_DIR s' = Ok DemoDocument.after_duplicate
      ∧ JSONHandler.sorted_backups (JSONHandler.backups s') = ["assets_20240101_000007.json"]
  | None => False
  end.
Proof. vm_compute. repeat split. Qed.

(** * Further properties *)

(** ** Structural validation *)

Section StructureFacts.

Context `{Runtime}.
Import JSONHandler.

Lemma dict_mem_as_get {A} (k : string) (d : list (string * A)) :
  dict_mem k d = bool_decide (is_Some (dict_get k d)).
Proof.
  destruct (dict_mem k d) eqn:Hm.
  - symmetry. apply bool_decide_eq_true. by apply dict_mem_get.
  - symmetry. apply bool_decide_eq_false. intros Hs%dict_mem_get. congruence.
Qed.

Lemma check_entries_hashable (Label label : string) (entries : list json) (i : nat)
    (seen : list json) :
  check_entries Label label i seen entries = Ok () → Structure.ids_hashable entries.
Proof. by intros (_ & ? & _)%check_entries_ok. Qed.

Lemma check_entries_in_order (Label label : string) (l : list json) :
  Report.in_order l → check_entries Label label 0 [] l = Ok ().
Proof.
  intros [[Ha Hn] Hhash]. apply check_entries_complete; [done..| |].
  - intros k v a b _ _ Hb'. by apply elem_of_nil in Hb'.
  - intros j k va vb a b Hjk Hva Hvb Ha' Hb'.
    destruct (key_eq b a) eqn:Hk; [|done]. exfalso.
    apply (Hn j k va vb a b Hjk Hva Hvb Ha' Hb'). left. by apply key_eq_sym.
Qed.

(** X1: Soundness and completeness of [_validate_structure]: it returns
    without raising exactly for the documents that satisfy the structural
    invariant and whose ids can be put in a set. *)
Theorem validate_structure_accepts_exactly_valid (data : json) :
  _validate_structure data = Ok ()
  ↔ Structure.valid_document data ∧ Structure.doc_ids_hashable data.
Proof.
  split.
  - intros Hok. split; [by apply validate_structure_ok|].
    intros top key l -> Hkey Hl. unfold _validate_structure in Hok.
    destruct (dict_mem "items" top) eqn:Hi; cbn in Hok; [|done].
    destruct (dict_mem "gameBadges" top) eqn:Hb; cbn in Hok; [|done].
    apply dict_mem_get in Hi as [vi Hi]. apply dict_mem_get in Hb as [vb Hb].
    rewrite (dict_item_get _ _ _ Hi), (dict_item_get _ _ _ Hb) in Hok.
    destruct vi as [| | | | |items|]; try done.
    destruct vb as [| | | | |game_badges|]; try done.
    destruct (check_entries "Item" "item" 0 [] items) as [[]|e] eqn:Hitems; [|done].
    destruct Hkey as [-> | ->].
    + assert (l = items) as -> by congruence. by eapply check_entries_hashable.
    + assert (l = game_badges) as -> by congruence. by eapply check_entries_hashable.
  - intros [(top & items & game_badges & -> & Hi & Hb & [Hai Hni] & [Hab Hnb]) Hh].
    unfold _validate_structure.
    rewrite (proj2 (dict_mem_get "items" top)) by by eexists.
    rewrite (proj2 (dict_mem_get "gameBadges" top)) by by eexists.
    cbn [negb]. rewrite (dict_item_get _ _ _ Hi), (dict_item_get _ _ _ Hb).
    rewrite check_entries_in_order; [|split; [done|by apply (Hh top "items" items); auto]].
    apply check_entries_in_order. split; [done|].
    by apply (Hh top "gameBadges" game_badges); auto.
Qed.

Lemma check_entries_same_shape (Label label : string) (entries entries' : list json) :
  Forall2 Shape.same_id_shape entries entries' →
  ∀ (i : nat) (seen : list json),
  check_entries Label label i seen entries' = check_entries Label label i seen entries.
Proof.
  induction 1 as [|a b l l' Hab Hl IH]; intros i seen; [done|].
  destruct a as [| | | | | |da], b as [| | | | | |db]; cbn in Hab; try done.
  cbn [check_entries]. rewrite !dict_mem_as_get. unfold dict_item. rewrite Hab.
  destruct (dict_get "id" db) as [a|]; cbn; [|done].
  destruct (hashable a); cbn; [|done].
  destruct (existsb (key_eq a) seen); [done|]. apply IH.
Qed.

(** X2: [_validate_structure] reads nothing of an element but whether it is an
    object and what its [id] is: two documents whose collections agree on
    that, element by element, are both accepted or both refused, with the
    same exception. *)
Theorem validation_reads_ids_only (top top' : dict)
    (items items' game_badges game_badges' : list json) :
  dict_get "items" top = Some (JList items) →
  dict_get "gameBadges" top = Some (JList game_badges) →
  dict_get "items" top' = Some (JList items') →
  dict_get "gameBadges" top' = Some (JList game_badges') →
  Forall2 Shape.same_id_shape items items' →
  Forall2 Shape.same_id_shape game_badges game_badges' →
  _validate_structure (JDict top') = _validate_structure (JDict top).
Proof.
  intros Hi Hb Hi' Hb' Hsi Hsb. unfold _validate_structure.
  rewrite (proj2 (dict_mem_get "items" top)) by by eexists.
  rewrite (proj2 (dict_mem_get "gameBadges" top)) by by eexists.
  rewrite (proj2 (dict_mem_get "items" top')) by by eexists.
  rewrite (proj2 (dict_mem_get "gameBadges" top')) by by eexists.
  cbn [negb].
  rewrite (dict_item_get _ _ _ Hi), (dict_item_get _ _ _ Hb),
    (dict_item_get _ _ _ Hi'), (dict_item_get _ _ _ Hb').
  rewrite (check_entries_same_shape _ _ _ _ Hsi).
  by rewrite (check_entries_same_shape _ _ _ _ Hsb).
Qed.

Lemma check_entries_app (Label label : string) (pre rest : list json) :
  ∀ (i : nat) (seen : list json),
  check_entries Label label i seen pre = Ok () →
  check_entries Label label i seen (pre ++ rest)
  = check_entries Label label (i + length pre) (reverse (Shape.ids pre) ++ seen) rest.
Proof.
  induction pre as [|v pre IH]; intros i seen Hok.
  - cbn. by rewrite Nat.add_0_r.
  - cbn in Hok. destruct v as [| | | | | |item]; try done.
    cbn [app check_entries].
    destruct (dict_mem "id" item) eqn:Hmem; cbn [negb] in Hok |- *; [|done].
    apply dict_mem_get in Hmem as [a Ha].
    rewrite (dict_item_get _ _ _ Ha) in Hok |- *.
    destruct (hashable a); cbn [negb] in Hok |- *; [|done].
    destruct (existsb (key_eq a) seen); [done|].
    rewrite (IH _ _ Hok). unfold Shape.ids. cbn [omap list_omap Structure.entry_id].
    rewrite Ha. rewrite reverse_cons, <- app_assoc. cbn [app length].
    f_equal. lia.
Qed.

Lemma check_entries_offender (Label label : string) (l : list json) (k : nat) (v : json) :
  Report.in_order (take k l) →
  l !! k = Some v →
  Report.reported Label label (take k l) k v (check_entries Label label 0 [] l).
Proof.
  intros Hord Hk.
  assert (Hlen : length (take k l) = k).
  { apply length_take_le. apply lookup_lt_Some in Hk. lia. }
  assert (Hsplit : check_entries Label label 0 [] l
                   = check_entries Label label 0 [] (take k l ++ v :: drop (S k) l)).
  { by rewrite take_drop_middle. }
  rewrite Hsplit.
  rewrite (check_entries_app _ _ _ _ _ _ (check_entries_in_order Label label _ Hord)).
  rewrite Hlen, app_nil_r. cbn [Nat.add].
  split; [|split].
  - intros Hnd. destruct v; try done. by destruct (Hnd kvs).
  - intros d -> Hnone. cbn [check_entries].
    rewrite dict_mem_as_get, Hnone. by rewrite bool_decide_eq_false_2 by by intros [].
  - intros d a b -> Ha Hhash Hb Hab. cbn [check_entries].
    rewrite (proj2 (dict_mem_get "id" d)) by by eexists.
    rewrite (dict_item_get _ _ _ Ha), Hhash. cbn [negb].
    assert (Hex : existsb (key_eq a) (reverse (Shape.ids (take k l))) = true).
    { apply existsb_exists. exists b. split; [|done].
      apply list_elem_of_In. by apply elem_of_reverse. }
    by rewrite Hex.
Qed.

(** X3: The error of [_validate_structure] names the first element that is out
    of order: when the elements before index [k] are in order, the element
    at [k] is reported with that index if it is no object or has no [id],
    and with its id if an earlier element has the same id.  The game badges
    are looked at once every item is in order. *)
Theorem validation_error_names_first_offender (top : dict)
    (items game_badges : list json) (k : nat) (v : json) :
  dict_get "items" top = Some (JList items) →
  dict_get "gameBadges" top = Some (JList game_badges) →
  (Report.in_order (take k items) → items !! k = Some v →
     Report.reported "Item" "item" (take k items) k v (_validate_structure (JDict top)))
  ∧ (Report.in_order items → Report.in_order (take k game_badges) →
     game_badges !! k = Some v →
     Report.reported "Game badge" "game badge" (take k game_badges) k v
       (_validate_structure (JDict top))).
Proof.
  intros Hi Hb.
  assert (Hv : _validate_structure (JDict top)
               = match check_entries "Item" "item" 0 [] items with
                 | Ok _ => check_entries "Game badge" "game badge" 0 [] game_badges
                 | Raise e => Raise e
                 end).
  { unfold _validate_structure.
    rewrite (proj2 (dict_mem_get "items" top)) by by eexists.
    rewrite (proj2 (dict_mem_get "gameBadges" top)) by by eexists.
    cbn [negb]. by rewrite (dict_item_get _ _ _ Hi), (dict_item_get _ _ _ Hb). }
  rewrite Hv. split.
  - intros Hord Hk.
    destruct (check_entries_offender "Item" "item" items k v Hord Hk) as (H1 & H2 & H3).
    split; [|split].
    + intros Hnd. by rewrite (H1 Hnd).
    + intros d Hd Hnone. by rewrite (H2 d Hd Hnone).
    + intros d a b Hd Ha Hh Hb' Hab. by rewrite (H3 d a b Hd Ha Hh Hb' Hab).
  - intros Hitems Hord Hk. rewrite (check_entries_in_order _ _ _ Hitems).
    by apply check_entries_offender.
Qed.

End StructureFacts.

(** ** Writing, reading back and restoring *)

Section StoreFacts.

Context `{Runtime}.
Variable BASE_DIR : list string.

Import JSONHandler.

#[local] Existing Instance name_ge_trans.
#[local] Existing Instance name_ge_antisym.
#[local] Existing Instance name_ge_total.

Lemma sorted_backups_strongly (b : gmap string string) :
  StronglySorted name_ge (sorted_backups b).
Proof.
  destruct (sorted_backups_spec b) as (Hs & _ & _).
  apply Sorted_StronglySorted; [apply _ | done].
Qed.

(** The newest name comes first. *)
Lemma sorted_backups_head (b : gmap string string) (n : string) :
  n ∈ sorted_backups b →
  (∀ m, m ∈ sorted_backups b → String.le m n) →
  ∃ t, sorted_backups b = n :: t.
Proof.
  intros Hin Hmax. pose proof (sorted_backups_strongly b) as Hs.
  destruct (sorted_backups b) as [|h t]; [by apply elem_of_nil in Hin|].
  exists t. f_equal.
  apply elem_of_cons in Hin as [->|Hin]; [done|].
  apply StronglySorted_inv in Hs as [_ Hall].
  pose proof (proj1 (Forall_forall _ _) Hall n Hin) as Hge.
  apply (anti_symm String.le); [|done].
  apply Hmax. apply elem_of_cons. by left.
Qed.

Lemma sorted_backups_insert_elem (b : gmap string string) (n c x : string) :
  x ∈ sorted_backups (<[n := c]> b) → x = n ∨ x ∈ sorted_backups b.
Proof.
  destruct (sorted_backups_spec b) as (_ & _ & Hm).
  destruct (sorted_backups_spec (<[n := c]> b)) as (_ & _ & Hm').
  intros [Hp Hs]%Hm'. destruct (decide (x = n)) as [->|Hne]; [by left|right].
  apply Hm. split; [done|]. by rewrite lookup_insert_ne in Hs.
Qed.

(** The backup just taken is the first of the list, and stays, when no
    older backup has a later name. *)
Lemma create_backup_keeps_new (E : env) (s : store) (c : string) :
  failing E = NoFault →
  live s = Some c →
  (∀ m, m ∈ sorted_backups (backups s) → String.le m (backup_file_name E)) →
  let s1 := (_create_backup E s).1 in
  (∃ t, sorted_backups (backups s1) = backup_file_name E :: t)
  ∧ backups s1 !! backup_file_name E = Some c.
Proof.
  intros Hq Hl Hmax. cbv zeta. rewrite (create_backup_quiet E s c Hq Hl).
  cbn [fst backups set_backups].
  set (n := backup_file_name E). set (ins := <[n := c]> (backups s)).
  destruct (sorted_backups_spec ins) as (_ & Hnd & Hm).
  assert (Hin : n ∈ sorted_backups ins).
  { apply Hm. split; [apply backup_file_name_is_backup_name|].
    unfold ins. rewrite lookup_insert_eq. by eexists. }
  destruct (sorted_backups_head ins n Hin) as [t Ht].
  { intros m [->|Hm']%sorted_backups_insert_elem; [done|by apply Hmax]. }
  rewrite sorted_backups_unlink, Ht. split; [by eexists|].
  rewrite unlink_all_lookup_cases, decide_False.
  - unfold ins. by rewrite lookup_insert_eq.
  - cbn [drop]. rewrite Ht in Hnd. apply NoDup_cons in Hnd as [Hnt _].
    intros Hd. apply Hnt.
    apply list_elem_of_lookup_1 in Hd as [p Hp].
    rewrite lookup_drop in Hp. by eapply list_elem_of_lookup_2.
Qed.

Lemma create_backup_quiet_ok (E : env) (s : store) :
  failing E = NoFault → ∃ r, (_create_backup E s).2 = Ok r.
Proof.
  intros Hq. unfold _create_backup. rewrite Hq. destruct (live s); by eexists.
Qed.

Lemma write_quiet_state (E : env) (data v : json) (s : store) :
  failing E = NoFault →
  _validate_structure data = Ok () →
  json_loads (json_dumps data) = Parsed v →
  write E data true s
  = (set_temp None (set_live (Some (json_dumps data)) (_create_backup E s).1), Ok true).
Proof.
  intros Hq Hv Hl. unfold write. rewrite Hv.
  destruct (create_backup_quiet_ok E s Hq) as [r Hr].
  destruct (_create_backup E s) as [s1 r1]. cbn in Hr. subst r1. cbn [fst].
  unfold write_locked. by rewrite Hq, Hl.
Qed.

(** X4: A write during which nothing fails.  The value read afterwards is what
    the JSON library reads back from the text it wrote; no temporary file is
    left; the first write of an installation takes no backup; and the
    document replaced is kept under the backup name of this write when no
    backup has a later name. *)
Theorem write_then_read (E : env) (data v : json) (s : store) :
  failing E = NoFault →
  _validate_structure data = Ok () →
  json_loads (json_dumps data) = Parsed v →
  let s' := (write E data true s).1 in
  (write E data true s).2 = Ok true
  ∧ read BASE_DIR s' = Ok v
  ∧ temp s' = None
  ∧ (live s = None → backups s' = backups s)
  ∧ (∀ c, live s = Some c →
       (∀ m, m ∈ sorted_backups (backups s) → String.le m (backup_file_name E)) →
       backups s' !! backup_file_name E = Some c).
Proof.
  intros Hq Hv Hl. cbv zeta. rewrite (write_quiet_state E data v s Hq Hv Hl).
  cbn [fst snd]. split; [done|]. split; [|split; [done|split]].
  - unfold read. cbn. by rewrite Hl.
  - intros Hnone. unfold _create_backup. by rewrite Hnone.
  - intros c Hc Hmax. cbn [backups set_temp set_live].
    by destruct (create_backup_keeps_new E s c Hq Hc Hmax) as [_ ?].
Qed.

(** *** Which backups survive the pruning of the safety backup *)

Lemma filter_ne_absent (n : string) (l : list string) :
  n ∉ l → filter (λ x, x ≠ n) l = l.
Proof.
  induction l as [|x l IH]; [done|]. intros Hn.
  apply not_elem_of_cons in Hn as [Hne Hn].
  rewrite filter_cons, decide_True by done. by rewrite IH.
Qed.

Lemma length_filter_ne (n : string) (l : list string) :
  NoDup l → (length l ≤ S (length (filter (λ x, x ≠ n) l)))%nat.
Proof.
  induction 1 as [|x l Hx Hnd IH]; [cbn; lia|].
  rewrite filter_cons. destruct (decide (x ≠ n)) as [Hne|Heq]; cbn; [lia|].
  apply dec_stable in Heq as ->. rewrite filter_ne_absent by done. lia.
Qed.

(** A backup among the forty-nine newest is not among those the next
    backup prunes, whatever the name of that backup. *)
Lemma survives_pruning (b : gmap string string) (n c name : string) (i : nat) :
  sorted_backups b !! i = Some name →
  (i < 49)%nat →
  name ∉ drop 50 (sorted_backups (<[n := c]> b)).
Proof.
  intros Hi Hlt Hdrop.
  set (L := sorted_backups b) in *. set (L' := sorted_backups (<[n := c]> b)) in *.
  destruct (sorted_backups_spec b) as (_ & Hnd & _).
  destruct (sorted_backups_spec (<[n := c]> b)) as (_ & Hnd' & _).
  pose proof (sorted_backups_strongly b) as Hs.
  pose proof (sorted_backups_strongly (<[n := c]> b)) as Hs'.
  fold L in Hnd, Hs. fold L' in Hnd', Hs'.
  assert (Hlen : (50 < length L')%nat).
  { apply list_elem_of_lookup_1 in Hdrop as [p Hp]. rewrite lookup_drop in Hp.
    apply lookup_lt_Some in Hp. lia. }
  rewrite <- (take_drop 50 L') in Hnd', Hs'.
  set (T := take 50 L') in *.
  assert (HlenT : length T = 50%nat) by (unfold T; rewrite length_take; lia).
  apply NoDup_app in Hnd' as (HndT & Hdisj & _).
  set (F := filter (λ x, x ≠ n) T).
  assert (HF : (49 ≤ length F)%nat).
  { pose proof (length_filter_ne n T HndT). unfold F. lia. }
  assert (Hsub : F ⊆ take i L).
  { intros x [Hxn HxT]%list_elem_of_filter.
    assert (Hge : name_ge x name)
      by by eapply (StronglySorted_app_1_elem_of _ _ _ _ _ Hs').
    assert (Hne : x ≠ name) by (intros ->; by apply (Hdisj name)).
    assert (HxL : x ∈ L).
    { assert (x ∈ L') as HxL'.
      { rewrite <- (take_drop 50 L'). apply elem_of_app. by left. }
      by apply sorted_backups_insert_elem in HxL' as [?|?]. }
    apply list_elem_of_lookup_1 in HxL as [j Hj].
    destruct (decide (j < i)%nat) as [Hji|Hji].
    { apply list_elem_of_lookup_2 with j. by rewrite lookup_take_lt. }
    exfalso. assert (j ≠ i) by (intros ->; congruence).
    rewrite <- (take_drop j L) in Hs.
    assert (name_ge name x) as Hle.
    { eapply (StronglySorted_app_1_elem_of _ _ _ _ _ Hs).
      - apply list_elem_of_lookup_2 with i. rewrite lookup_take_lt by lia. done.
      - apply list_elem_of_lookup_2 with 0%nat. rewrite lookup_drop, Nat.add_0_r. done. }
    apply Hne. by apply (anti_symm name_ge). }
  assert (HndF : NoDup F) by by apply NoDup_filter.
  pose proof (submseteq_length _ _ (NoDup_submseteq _ _ HndF Hsub)) as Hle.
  rewrite length_take in Hle. lia.
Qed.

Lemma restore_backup_quiet (E : env) (name content : string) (s : store) :
  failing E = NoFault →
  backups s !! name = Some content →
  name ≠ backup_file_name E →
  (is_backup_name name = false
   ∨ ∃ i, (i < 49)%nat ∧ sorted_backups (backups s) !! i = Some name) →
  restore_backup BASE_DIR E name s
  = (set_live (Some content) (_create_backup E s).1, Ok true).
Proof.
  intros Hq Hname Hne Hrecent.
  destruct (create_backup_quiet_ok E s Hq) as [r Hr].
  assert (Hkept : backups (_create_backup E s).1 !! name = Some content).
  { destruct (live s) as [c|] eqn:Hl.
    - rewrite (create_backup_quiet E s c Hq Hl). cbn [fst backups set_backups].
      rewrite unlink_all_lookup_cases, decide_False.
      + by rewrite lookup_insert_ne.
      + destruct Hrecent as [Hno | (i & Hi & Hlook)].
        * intros Hin. assert (name ∈ sorted_backups (<[backup_file_name E:=c]> (backups s))).
          { rewrite <- (take_drop 50 (sorted_backups _)). apply elem_of_app. by right. }
          destruct (sorted_backups_spec (<[backup_file_name E:=c]> (backups s)))
            as (_ & _ & Hm).
          apply Hm in H0 as [? _]. congruence.
        * by eapply survives_pruning.
    - unfold _create_backup. by rewrite Hl. }
  destruct (_create_backup E s) as [s1 r1] eqn:Hb. cbn in Hr, Hkept. subst r1.
  eapply restore_backup_survivor; [by eexists|done..].
Qed.

(** X5: Restoring a backup that is there, nothing failing.  A backup among the
    forty-nine newest (or a file of the backup directory that does not
    carry the backup name pattern) survives the safety backup, whatever the
    clock says, provided it is not the file the safety backup writes; it
    becomes the document, and it is still in the backup directory. *)
Theorem restore_recent_backup (E : env) (name content : string) (s : store) :
  failing E = NoFault →
  backups s !! name = Some content →
  name ≠ backup_file_name E →
  (is_backup_name name = false
   ∨ ∃ i, (i < 49)%nat ∧ sorted_backups (backups s) !! i = Some name) →
  let r := restore_backup BASE_DIR E name s in
  r.2 = Ok true
  ∧ live r.1 = Some content
  ∧ backups r.1 !! name = Some content
  ∧ read BASE_DIR r.1 = match json_loads content with
                        | Parsed v => Ok v
                        | Malformed detail =>
                            Raise (ValueError ("Invalid JSON in " +:+ json_path BASE_DIR
                                               +:+ ": " +:+ detail))
                        | Failed e => Raise e
                        end.
Proof.
  intros Hq Hname Hne Hrecent. cbv zeta.
  pose proof (restore_backup_quiet E name content s Hq Hname Hne Hrecent) as Hr.
  rewrite Hr. cbn [fst snd live set_live backups]. split; [done|]. split; [done|].
  split; [|done].
  destruct (create_backup_quiet_ok E s Hq) as [r0 Hr0].
  destruct (_create_backup E s) as [s1 r1] eqn:Hb. cbn in Hr0. subst r1.
  unfold restore_backup in Hr. rewrite Hname, Hb in Hr. cbn [fst] in *.
  destruct (backups s1 !! name) as [c'|]; [|done].
  by injection Hr as ->.
Qed.

(** X6: A write can be undone: restoring the backup the write took brings the
    replaced document back, and when the clock has moved on the document
    that was written is itself kept as a backup. *)
Theorem write_can_be_undone (E1 E2 : env) (data v : json) (s : store) (c : string) :
  failing E1 = NoFault →
  failing E2 = NoFault →
  _validate_structure data = Ok () →
  json_loads (json_dumps data) = Parsed v →
  live s = Some c →
  (∀ m, m ∈ sorted_backups (backups s) → String.le m (backup_file_name E1)) →
  backup_file_name E2 ≠ backup_file_name E1 →
  let s1 := (write E1 data true s).1 in
  let r := restore_backup BASE_DIR E2 (backup_file_name E1) s1 in
  live s1 = Some (json_dumps data)
  ∧ r.2 = Ok true
  ∧ live r.1 = Some c
  ∧ (String.le (backup_file_name E1) (backup_file_name E2) →
     backups r.1 !! backup_file_name E2 = Some (json_dumps data)).
Proof.
  intros Hq1 Hq2 Hv Hl Hlive Hmax Hne. cbv zeta.
  rewrite (write_quiet_state E1 data v s Hq1 Hv Hl). cbn [fst].
  set (s0 := (_create_backup E1 s).1).
  set (s1 := set_temp None (set_live (Some (json_dumps data)) s0)).
  destruct (create_backup_keeps_new E1 s c Hq1 Hlive Hmax) as [[t Ht] Hkept].
  fold s0 in Ht, Hkept.
  assert (Hb1 : backups s1 = backups s0) by done.
  assert (Hname : backups s1 !! backup_file_name E1 = Some c) by by rewrite Hb1.
  assert (Hrecent : is_backup_name (backup_file_name E1) = false
            ∨ ∃ i, (i < 49)%nat ∧ sorted_backups (backups s1) !! i = Some (backup_file_name E1)).
  { right. exists 0%nat. split; [lia|]. by rewrite Hb1, Ht. }
  rewrite (restore_backup_quiet E2 _ c s1 Hq2 Hname (not_eq_sym Hne) Hrecent).
  cbn [fst snd live set_live]. split; [done|]. split; [done|]. split; [done|].
  intros Hle. cbn [backups set_live].
  assert (Hl1 : live s1 = Some (json_dumps data)) by done.
  destruct (create_backup_keeps_new E2 s1 _ Hq2 Hl1) as [_ Hk2]; [|done].
  intros m Hm. rewrite Hb1, Ht in Hm. apply elem_of_cons in Hm as [->|Hm]; [done|].
  etrans; [|exact Hle].
  pose proof (sorted_backups_strongly (backups s0)) as Hs. rewrite Ht in Hs.
  apply StronglySorted_inv in Hs as [_ Hall].
  exact (proj1 (Forall_forall _ _) Hall m Hm).
Qed.

End StoreFacts.

(** ** The backup listing and the backup pages *)

Section BackupPages.

Context `{Runtime}.
Variable BASE_DIR : list string.
Variable timestamp : Type.
Variable created : string → timestamp.

Import JSONHandler.

Lemma get_backups_names (s : store) :
  entry_name <$> get_backups BASE_DIR timestamp created s = sorted_backups (backups s).
Proof.
  unfold get_backups. rewrite <- list_fmap_compose.
  rewrite <- (list_fmap_id (sorted_backups (backups s))) at 2.
  by apply list_fmap_ext.
Qed.

(** X7: [get_backups] lists the files of the backup directory that carry the
    backup name pattern, each once, the latest name first, each with the
    size of its content, its path in the backup directory and the
    modification time the file system reports. *)
Theorem get_backups_newest_first (s : store) :
  let listing := get_backups BASE_DIR timestamp created s in
  Sorted name_ge (entry_name <$> listing)
  ∧ NoDup (entry_name <$> listing)
  ∧ (∀ n, n ∈ entry_name <$> listing
          ↔ is_backup_name n = true ∧ is_Some (backups s !! n))
  ∧ (∀ e, e ∈ listing →
       ∃ content, backups s !! entry_name e = Some content
         ∧ entry_size e = String.length content
         ∧ entry_path e = backup_dir BASE_DIR +:+ "/" +:+ entry_name e
         ∧ entry_created e = created (entry_name e)).
Proof.
  cbv zeta. rewrite get_backups_names.
  destruct (sorted_backups_spec (backups s)) as (Hs & Hnd & Hm).
  split; [done|]. split; [done|]. split; [done|].
  intros e (n & -> & Hn)%list_elem_of_fmap. cbn.
  apply Hm in Hn as [_ [content Hc]]. exists content. by rewrite Hc.
Qed.

Lemma slice_to_short {A} (l : list A) :
  (length l ≤ 50)%nat → BackupService.slice_to 50 l = l.
Proof. intros Hl. unfold BackupService.slice_to. cbn. by apply take_ge. Qed.

(** X8: After a write during which nothing fails the backup directory holds at
    most fifty backups: the backups page shows every one of them and
    [get_backup_info] counts them all; when no backup has a later name, the
    first entry is the backup this write took, with the size of the document
    it replaced. *)
Theorem backups_page_after_write (E : env) (data v : json) (s : store) (c : string) :
  failing E = NoFault →
  _validate_structure data = Ok () →
  json_loads (json_dumps data) = Parsed v →
  live s = Some c →
  let s' := (write E data true s).1 in
  let listing := get_backups BASE_DIR timestamp created s' in
  let info := BackupService.get_backup_info BASE_DIR timestamp created s' in
  AdminRoutes.backups BASE_DIR timestamp created s' = listing
  ∧ (length listing ≤ 50)%nat
  ∧ BackupService.count info = length listing
  ∧ BackupService.total_size info = sum_list (entry_size <$> listing)
  ∧ ((∀ m, m ∈ sorted_backups (backups s) → String.le m (backup_file_name E)) →
     ∃ e rest, listing = e :: rest
       ∧ entry_name e = backup_file_name E
       ∧ entry_size e = String.length c).
Proof.
  intros Hq Hv Hl Hlive. cbv zeta.
  rewrite (write_quiet_state E data v s Hq Hv Hl). cbn [fst].
  set (s1 := (_create_backup E s).1).
  set (s' := set_temp None (set_live (Some (json_dumps data)) s1)).
  assert (Hb : backups s' = backups s1) by done.
  assert (Hlen : (length (get_backups BASE_DIR timestamp created s') ≤ 50)%nat).
  { rewrite <- (length_fmap entry_name), get_backups_names, Hb. unfold s1.
    rewrite (create_backup_quiet E s c Hq Hlive). cbn [fst backups set_backups].
    rewrite sorted_backups_unlink, length_take. lia. }
  assert (Hpage : BackupService.list_backups BASE_DIR timestamp created 50 s'
                  = get_backups BASE_DIR timestamp created s').
  { unfold BackupService.list_backups. by apply slice_to_short. }
  split; [exact Hpage|]. split; [done|].
  unfold BackupService.get_backup_info. cbn [BackupService.count BackupService.total_size].
  rewrite Hpage. split; [done|]. split; [done|].
  intros Hmax.
  destruct (create_backup_keeps_new E s c Hq Hlive Hmax) as [[t Ht] Hkept].
  fold s1 in Ht, Hkept.
  unfold get_backups. rewrite Hb, Ht. cbn [fmap list_fmap].
  eexists _, _. split; [reflexivity|]. cbn. by rewrite Hkept.
Qed.

(** X9: Every backup the backups page lists, the fiftieth apart, can be
    restored from the page: the document becomes the content of that
    backup and the success message is flashed. *)
Theorem listed_backup_can_be_restored (E : env) (s : store) (i : nat)
    (e : backup_entry timestamp) :
  failing E = NoFault →
  AdminRoutes.backups BASE_DIR timestamp created s !! i = Some e →
  (i < 49)%nat →
  entry_name e ≠ backup_file_name E →
  ∃ content,
    backups s !! entry_name e = Some content
    ∧ entry_size e = String.length content
    ∧ let r := AdminRoutes.restore_backup BASE_DIR E (Some (entry_name e)) s in
      r.2 = AdminRoutes.to_backups "Backup restored successfully" "success"
      ∧ live r.1 = Some content.
Proof.
  intros Hq Hi Hlt Hne.
  unfold AdminRoutes.backups, BackupService.list_backups, BackupService.slice_to in Hi.
  cbn in Hi. apply lookup_take_Some in Hi as [Hi _].
  assert (Hname : sorted_backups (backups s) !! i = Some (entry_name e)).
  { rewrite <- get_backups_names, list_lookup_fmap, Hi. done. }
  destruct (sorted_backups_spec (backups s)) as (_ & _ & Hm).
  destruct (proj1 (Hm (entry_name e))) as [Hpat [content Hc]].
  { by eapply list_elem_of_lookup_2. }
  exists content. split; [done|]. split.
  { unfold get_backups in Hi. rewrite list_lookup_fmap in Hi.
    destruct (sorted_backups (backups s) !! i) as [n|]; [|done].
    cbn in Hi, Hname. injection Hname as ->. injection Hi as <-. cbn. by rewrite Hc. }
  cbv zeta. unfold AdminRoutes.restore_backup, BackupService.restore_backup.
  assert (Hnonempty : String.eqb (entry_name e) "" = false).
  { apply String.eqb_neq. intros Heq. rewrite Heq in Hpat. done. }
  rewrite Hnonempty.
  rewrite (restore_backup_quiet BASE_DIR E _ content s Hq Hc Hne).
  - done.
  - right. by exists i.
Qed.

End BackupPages.

(** ** What record validation looks at *)

Section ValidatorReach.

Variable root : FS.node.
Variable BASE_DIR : list string.

Lemma dict_mem_set {A} (k k' : string) (v : A) (d : list (string * A)) :
  dict_mem k (dict_set k' v d) = dict_mem k d || String.eqb k k'.
Proof.
  rewrite !dict_mem_as_get. destruct (String.eqb k k') eqn:Hk.
  - apply String.eqb_eq in Hk as ->. rewrite dict_get_set_eq, orb_true_r.
    apply bool_decide_eq_true. by eexists.
  - apply String.eqb_neq in Hk. rewrite dict_get_set_ne by done. by rewrite orb_false_r.
Qed.

Lemma dict_item_set_ne (k k' : string) (v : json) (d : dict) :
  k ≠ k' → dict_item k (dict_set k' v d) = dict_item k d.
Proof. intros Hne. unfold dict_item. by rewrite dict_get_set_ne. Qed.

Lemma missing_fields_set (required : list string) (k : string) (v : json) (record : dict) :
  dict_mem k record = true ∨ k ∉ required →
  Rules.missing_fields required (dict_set k v record) = Rules.missing_fields required record.
Proof.
  intros Hk. unfold Rules.missing_fields.
  induction required as [|f required IH]; [done|].
  assert (Hf : dict_mem f (dict_set k v record) = dict_mem f record).
  { rewrite dict_mem_set. destruct (String.eqb f k) eqn:Hfk; [|by rewrite orb_false_r].
    apply String.eqb_eq in Hfk as ->. destruct Hk as [Hk|Hk]; [by rewrite Hk|].
    exfalso. apply Hk. apply elem_of_cons. by left. }
  rewrite !filter_cons, Hf, IH; [done|].
  destruct Hk as [Hk|Hk]; [by left|right]. intros Hin. apply Hk.
  apply elem_of_cons. by right.
Qed.

(** X10: [validate_item] reads the values of [id], [name], [location],
    [radiusMeters], [icon], [model] and [badge] and of no other field, and
    [validate_badge] those of [id] and [icon]: of the remaining fields
    (the texts, [ping], the name and description of a game badge) only the
    presence counts, so giving such a field another value, whatever it is,
    leaves the list of errors as it was. *)
Theorem validation_ignores_other_values (record : dict) (k : string) (v : json) :
  dict_mem k record = true →
  (k ∉ Reach.item_fields_read →
     Validator.validate_item root BASE_DIR (dict_set k v record)
     = Validator.validate_item root BASE_DIR record)
  ∧ (k ∉ Reach.badge_fields_read →
     Validator.validate_badge root BASE_DIR (dict_set k v record)
     = Validator.validate_badge root BASE_DIR record).
Proof.
  intros Hmem. split; intros Hk.
  - assert (Hne : ∀ f, f ∈ Reach.item_fields_read → f ≠ k) by (intros f Hf ->; done).
    assert (Hitem : ∀ f, f ∈ Reach.item_fields_read →
              dict_item f (dict_set k v record) = dict_item f record).
    { intros f Hf. apply dict_item_set_ne. by apply Hne. }
    pose proof (missing_fields_set Validator.required_fields k v record (or_introl Hmem))
      as Hmiss.
    destruct (decide (Rules.missing_fields Validator.required_fields record = []))
      as [Hnone|Hsome].
    + rewrite !validate_item_complete by congruence.
      unfold Rules.item_violations, Rules.rule_id, Rules.rule_name, Rules.rule_location,
        Rules.rule_radius, Rules.rule_icon, Rules.rule_model, Rules.rule_badge.
      rewrite !Hitem; [done|unfold Reach.item_fields_read; set_solver..].
    + rewrite !validate_item_missing by congruence. by rewrite Hmiss.
  - assert (Hitem : ∀ f, f ∈ Reach.badge_fields_read →
              dict_item f (dict_set k v record) = dict_item f record).
    { intros f Hf. apply dict_item_set_ne. by intros ->. }
    assert (Hicon : dict_mem "icon" (dict_set k v record) = dict_mem "icon" record).
    { rewrite dict_mem_set. destruct (String.eqb "icon" k) eqn:Hik; [|by rewrite orb_false_r].
      apply String.eqb_eq in Hik as <-. by rewrite Hmem. }
    pose proof (missing_fields_set Rules.badge_required k v record (or_introl Hmem))
      as Hmiss.
    destruct (decide (Rules.missing_fields Rules.badge_required record = []))
      as [Hnone|Hsome].
    + rewrite !validate_badge_complete by congruence.
      unfold Rules.badge_violations, Rules.rule_id, Rules.rule_asset.
      rewrite Hicon, !Hitem; [done|unfold Reach.badge_fields_read; set_solver..].
    + rewrite !validate_badge_missing by congruence. by rewrite Hmiss.
Qed.

End ValidatorReach.

(** ** The coordinate check of the map and the location rule of a record *)

Section CoordinateFacts.

Variable root : FS.node.
Variable BASE_DIR : list string.

Lemma chained_le_between (lo hi : Z) (v : json) :
  Validator.chained_le lo v hi = Ok true ↔ Validator.number_between lo v hi = true.
Proof.
  unfold Validator.chained_le, Validator.number_between.
  destruct (as_number v); [|done]. split; [by intros [= ->]|by intros ->].
Qed.

Lemma validate_coordinates_true (lat lng : json) :
  Validator.validate_coordinates lat lng = Ok true
  ↔ Validator.number_between (-90) lat 90 = true
    ∧ Validator.number_between (-180) lng 180 = true.
Proof.
  unfold Validator.validate_coordinates. rewrite <- !chained_le_between.
  destruct (Validator.chained_le (-90) lat 90) as [[|]|e]; split;
    first [by intros [? ?] | by intros ?; split | done].
Qed.

Lemma asset_path_message_elsewhere (path : json) (field_name : string) :
  field_name ∈ ["icon.shadow"; "icon.found"; "model.url"; "model.usdz"; "badge.icon"] →
  Forall (λ m, startswith "'location." m = false)
    (Validator._validate_asset_path root BASE_DIR path field_name).
Proof.
  intros Hf. unfold Validator._validate_asset_path.
  repeat (apply elem_of_cons in Hf as [->|Hf]); [..|by apply elem_of_nil in Hf];
    (destruct path as [| | | |s| |]; try (by repeat constructor);
     destruct (String.eqb s ""); [by constructor|];
     destruct (negb (startswith "../../" s)); [by repeat constructor|];
     destruct (FS.exists_ root _) as [[|]|e]; by repeat constructor).
Qed.

Lemma not_elem_of_by_prefix (p x : string) (l : list string) :
  Forall (λ m, startswith p m = false) l → startswith p x = true → x ∉ l.
Proof.
  intros Hall Hx Hin. pose proof (proj1 (Forall_forall _ _) Hall x Hin) as Hf.
  cbn in Hf. congruence.
Qed.

Lemma other_rules_elsewhere (item : dict) :
  Forall (λ m, startswith "'location." m = false)
    (Rules.rule_id item ++ Rules.rule_name item)
  ∧ Forall (λ m, startswith "'location." m = false)
      (Rules.rule_radius item ++ Rules.rule_icon root BASE_DIR item
       ++ Rules.rule_model root BASE_DIR item ++ Rules.rule_badge root BASE_DIR item).
Proof.
  assert (Hasset : ∀ holder key f,
            f ∈ ["icon.shadow"; "icon.found"; "model.url"; "model.usdz"; "badge.icon"] →
            Forall (λ m, startswith "'location." m = false)
              (Rules.rule_asset root BASE_DIR holder key f)).
  { intros. by apply asset_path_message_elsewhere. }
  split.
  - unfold Rules.rule_id, Rules.rule_name.
    destruct (Validator.nonempty_str (dict_item "id" item)),
      (Validator.nonempty_str (dict_item "name" item)); by repeat constructor.
  - repeat apply Forall_app_2.
    + unfold Rules.rule_radius. destruct (Validator.not_positive_number _);
        by repeat constructor.
    + unfold Rules.rule_icon. destruct (dict_item "icon" item); try by repeat constructor.
      destruct (_ && _); [|by repeat constructor].
      apply Forall_app_2; apply Hasset; set_solver.
    + unfold Rules.rule_model. destruct (dict_item "model" item); try by repeat constructor.
      apply Forall_app_2.
      * destruct (dict_mem "url" kvs); [apply Hasset; set_solver|by repeat constructor].
      * destruct (dict_mem "usdz" kvs); [apply Hasset; set_solver|by constructor].
    + unfold Rules.rule_badge. destruct (dict_item "badge" item); try by repeat constructor.
      repeat apply Forall_app_2.
      * destruct (dict_mem "id" kvs); by repeat constructor.
      * destruct (dict_mem "name" kvs); by repeat constructor.
      * destruct (dict_mem "icon" kvs); [apply Hasset; set_solver|by constructor].
Qed.

(** X11: [validate_coordinates], by which the map accepts a position, and the
    location rule of [validate_item] agree: for a record with every
    required field whose location holds [lat] and [lng], the coordinate
    check returns [True] exactly when [validate_item] reports neither
    coordinate (when a coordinate is no number the check raises and
    [validate_item] reports it). *)
Theorem validate_coordinates_agrees (item location : dict) (lat lng : json) :
  Rules.missing_fields Validator.required_fields item = [] →
  dict_get "location" item = Some (JDict location) →
  dict_get "lat" location = Some lat →
  dict_get "lng" location = Some lng →
  Validator.validate_coordinates lat lng = Ok true
  ↔ ("'location.lat' must be between -90 and 90"
       ∉ Validator.validate_item root BASE_DIR item)
    ∧ ("'location.lng' must be between -180 and 180"
         ∉ Validator.validate_item root BASE_DIR item).
Proof.
  intros Hm Hloc Hlat Hlng.
  rewrite (validate_item_complete root BASE_DIR item Hm), validate_coordinates_true.
  destruct (other_rules_elsewhere item) as [Hfront Hback].
  unfold Rules.item_violations.
  assert (Hrule : Rules.rule_location item
                  = Rules.rule_lat location ++ Rules.rule_lng location).
  { unfold Rules.rule_location. rewrite (dict_item_get _ _ _ Hloc).
    rewrite (proj2 (dict_mem_get "lat" location)) by by eexists.
    by rewrite (proj2 (dict_mem_get "lng" location)) by by eexists. }
  assert (Honly : ∀ x, startswith "'location." x = true →
            x ∈ Rules.rule_id item ++ Rules.rule_name item ++ Rules.rule_location item
                ++ Rules.rule_radius item ++ Rules.rule_icon root BASE_DIR item
                ++ Rules.rule_model root BASE_DIR item ++ Rules.rule_badge root BASE_DIR item
            ↔ x ∈ Rules.rule_lat location ++ Rules.rule_lng location).
  { intros x Hx. rewrite Hrule.
    pose proof (not_elem_of_by_prefix _ x _ Hfront Hx) as Hnf.
    pose proof (not_elem_of_by_prefix _ x _ Hback Hx) as Hnb.
    rewrite (app_assoc (Rules.rule_id item)).
    rewrite (elem_of_app (Rules.rule_id item ++ Rules.rule_name item)).
    rewrite (elem_of_app (Rules.rule_lat location ++ Rules.rule_lng location)).
    tauto. }
  rewrite !Honly by reflexivity. clear Honly.
  unfold Rules.rule_lat, Rules.rule_lng.
  rewrite (dict_item_get _ _ _ Hlat), (dict_item_get _ _ _ Hlng).
  destruct (Validator.number_between (-90) lat 90),
    (Validator.number_between (-180) lng 180); cbn; split.
  all: try (intros [? ?]; done).
  all: try (intros _; split; apply not_elem_of_nil).
  all: try (intros _; split; [apply not_elem_of_nil|]; set_solver).
  all: intros [Ha Hb]; exfalso; first [apply Ha | apply Hb]; set_solver.
Qed.

End CoordinateFacts.

(** ** Uploaded files: extensions and listings *)

Section SplitFacts.

Lemma split_go_nonempty (sep : ascii) (s : string) :
  ∀ cur, split_go sep cur s ≠ [].
Proof.
  induction s as [|c s IH]; intros cur; cbn -[Ascii.eqb]; [done|].
  destruct (Ascii.eqb c sep); [done|apply IH].
Qed.

Lemma List_last_cons {A} (x d : A) (l : list A) :
  l ≠ [] → List.last (x :: l) d = List.last l d.
Proof. by destruct l. Qed.

Lemma after_last_app (sep : ascii) (stem ext : string) :
  ∀ cur, List.last (split_go sep cur (stem +:+ String sep ext)) ""
         = List.last (split_go sep "" ext) "".
Proof.
  induction stem as [|c stem IH]; intros cur.
  - change ("" +:+ ?x) with x. cbn -[Ascii.eqb].
    rewrite Ascii.eqb_refl. apply List_last_cons, split_go_nonempty.
  - change (String c stem +:+ ?x) with (String c (stem +:+ x)). cbn -[Ascii.eqb].
    destruct (Ascii.eqb c sep); [|apply IH].
    rewrite List_last_cons by apply split_go_nonempty. apply IH.
Qed.

Lemma rev_app_app (a b c : string) :
  String.rev_app a b +:+ c = String.rev_app a (b +:+ c).
Proof. revert b. induction a as [|x a IH]; intros b; cbn; [done|]. by rewrite IH. Qed.

Lemma str_app_cons (c : ascii) (a b : string) : String c a +:+ b = String c (a +:+ b).
Proof. done. Qed.

Lemma str_app_nil_r (s : string) : s +:+ "" = s.
Proof. induction s as [|c s IH]; [done|]. by rewrite str_app_cons, IH. Qed.

Lemma split_go_no_sep (sep : ascii) (s : string) :
  FileHandler.has_char sep s = false →
  ∀ cur, split_go sep cur s = [String.rev cur +:+ s].
Proof.
  induction s as [|c s IH]; intros Hno cur; cbn -[Ascii.eqb].
  - by rewrite str_app_nil_r.
  - cbn -[Ascii.eqb] in Hno. destruct (Ascii.eqb c sep); [done|].
    rewrite (IH Hno). unfold String.rev. cbn. by rewrite !rev_app_app.
Qed.

Lemma has_char_app (sep : ascii) (stem ext : string) :
  FileHandler.has_char sep (stem +:+ String sep ext) = true.
Proof.
  induction stem as [|c stem IH].
  - change ("" +:+ ?x) with x. cbn -[Ascii.eqb]. by rewrite Ascii.eqb_refl.
  - change (String c stem +:+ ?x) with (String c (stem +:+ x)). cbn -[Ascii.eqb].
    by destruct (Ascii.eqb c sep).
Qed.

End SplitFacts.

(** X12: [allowed_file] decides by what follows the last dot of the name, letter
    case apart: a name [stem.ext] is allowed exactly when [ext], lowered, is
    [glb] or [usdz] for the type [model] and [svg] or [png] for every other
    type, whatever [stem] holds (other dots and extensions included); a name
    without a dot is never allowed. *)
Theorem allowed_file_by_last_extension (stem ext filename file_type : string) :
  let accepted :=
    if String.eqb file_type "model" then ["glb"; "usdz"] else ["svg"; "png"] in
  (FileHandler.has_char "."%char ext = false →
     FileHandler.allowed_file (stem +:+ "." +:+ ext) file_type
     = bool_decide (FileHandler.lower ext ∈ accepted))
  ∧ (FileHandler.has_char "."%char filename = false →
     FileHandler.allowed_file filename file_type = false).
Proof.
  cbv zeta. split.
  - intros Hext. unfold FileHandler.allowed_file, FileHandler.after_last.
    change (stem +:+ "." +:+ ext) with (stem +:+ String "."%char ext).
    rewrite has_char_app, after_last_app, (split_go_no_sep _ _ Hext). cbn [List.last andb].
    change (String.rev "" +:+ ext) with ext.
    by destruct (String.eqb file_type "model").
  - intros Hno. unfold FileHandler.allowed_file. by rewrite Hno.
Qed.

(** *** Walking to an entry of a directory *)

Section WalkFacts.

Lemma walk_snoc (x : string) (es : list (string * FS.node)) :
  x ≠ ".." → (String.length x ≤ FS.NAME_MAX)%nat →
  ∀ (p : list string) (trail : list (string * FS.node)) (cur : FS.node) (canon : list string),
  FS.walk trail cur p = FS.Found canon (FS.Dir es) →
  FS.walk trail cur (p ++ [x])
  = match FS.entry x es with
    | Some c => FS.Found (canon ++ [x]) c
    | None => FS.NoEnt
    end.
Proof.
  intros Hx Hlen. induction p as [|a p IH]; intros trail cur canon Hw.
  - cbn in Hw. injection Hw as <- ->. cbn [app FS.walk].
    rewrite (proj2 (String.eqb_neq x "..")) by done.
    rewrite (proj2 (Nat.ltb_ge _ _)) by done.
    destruct (FS.entry x es); [|done]. cbn [FS.walk]. by rewrite fmap_cons, reverse_cons.
  - cbn [app FS.walk] in Hw |- *. destruct cur as [|es']; [done|].
    destruct (String.eqb a "..").
    + destruct trail as [|[? parent] trail']; by apply IH.
    + destruct (FS.NAME_MAX <? String.length a)%nat; [done|].
      destruct (FS.entry a es'); [by apply IH|done].
Qed.

Lemma entry_elem_of (n : string) (c : FS.node) (es : list (string * FS.node)) :
  NoDup (es.*1) → FS.entry n es = Some c ↔ (n, c) ∈ es.
Proof.
  induction es as [|[n' c'] es IH]; cbn.
  - intros _. split; [done|]. by intros ?%elem_of_nil.
  - intros [Hn' Hnd]%NoDup_cons. rewrite elem_of_cons.
    destruct (String.eqb n n') eqn:Hnn.
    + apply String.eqb_eq in Hnn as ->. split; [intros [= ->]; by left|].
      intros [[= ->]|Hin]; [done|]. exfalso. apply Hn'.
      apply list_elem_of_fmap. by exists (n', c).
    + apply String.eqb_neq in Hnn. rewrite (IH Hnd). split; [by right|].
      intros [[= ? ?]|?]; done.
Qed.

Lemma entry_is_Some (n : string) (es : list (string * FS.node)) :
  n ∈ es.*1 → is_Some (FS.entry n es).
Proof.
  induction es as [|[n' c'] es IH]; cbn; [by intros ?%elem_of_nil|].
  intros Hin. destruct (String.eqb n n') eqn:Hnn; [by eexists|].
  apply String.eqb_neq in Hnn. apply elem_of_cons in Hin as [?|?]; [done|by apply IH].
Qed.

End WalkFacts.

(** *** From a list of parts to a path and back *)

Section PathRoundTrip.

Lemma split_go_segment (a rest : string) :
  FileHandler.has_char "/"%char a = false →
  ∀ cur, split_go "/"%char cur (a +:+ String "/"%char rest)
         = (String.rev cur +:+ a) :: split_go "/"%char "" rest.
Proof.
  induction a as [|c a IH]; intros Hno cur.
  - change ("" +:+ ?x) with x. cbn. by rewrite str_app_nil_r.
  - rewrite str_app_cons. cbn -[Ascii.eqb] in Hno |- *.
    destruct (Ascii.eqb c "/"); [done|]. rewrite (IH Hno).
    unfold String.rev. cbn. by rewrite !rev_app_app.
Qed.

Lemma split_slash_join (parts : list string) :
  parts ≠ [] →
  Forall (λ p, FileHandler.has_char "/"%char p = false) parts →
  split_slash (join_slash parts) = parts.
Proof.
  unfold split_slash. induction parts as [|a parts IH]; [done|]. intros _ Hall.
  apply Forall_cons in Hall as [Ha Hall]. destruct parts as [|b parts].
  - cbn [join_slash]. by rewrite (split_go_no_sep _ _ Ha).
  - change (join_slash (a :: b :: parts))
      with (a +:+ String "/"%char (join_slash (b :: parts))).
    rewrite (split_go_segment _ _ Ha). by rewrite IH.
Qed.

(** [PurePosixPath(parts...).as_posix()] read again gives the parts. *)
Lemma parse_parts_join (parts : list string) :
  Forall Names.file_name parts → FS.parse_parts (join_slash parts) = parts.
Proof.
  intros Hall. unfold FS.parse_parts. destruct parts as [|a parts]; [done|].
  rewrite split_slash_join; [|done|].
  - induction Hall as [|x l Hx Hl IH]; [done|].
    destruct Hx as (? & ? & _). rewrite filter_cons, decide_True by done. by rewrite IH.
  - eapply Forall_impl; [exact Hall|]. by intros x (_ & _ & _ & ? & _).
Qed.

Lemma is_abs_join (parts : list string) :
  Forall Names.file_name parts → FS.is_abs (join_slash parts) = false.
Proof.
  destruct parts as [|a parts]; [done|]. intros [Ha _]%Forall_cons.
  destruct Ha as (Hne & _ & _ & Hno & _).
  destruct a as [|c a]; [done|]. cbn -[Ascii.eqb] in Hno.
  unfold FS.is_abs, startswith.
  assert (Hc : Ascii.eqb c "/" = false) by by destruct (Ascii.eqb c "/").
  destruct parts; cbn [join_slash]; rewrite ?str_app_cons; cbn [String.prefix].
  all: destruct (ascii_dec "/" c) as [<-|?]; [by rewrite Ascii.eqb_refl in Hc|done].
Qed.

Lemma startswith_prefixed (x : string) : startswith "../../" ("../../" +:+ x) = true.
Proof. by destruct x. Qed.

Lemma joinpath_join (base parts : list string) :
  Forall Names.file_name parts → FS.joinpath base (join_slash parts) = base ++ parts.
Proof.
  intros Hall. unfold FS.joinpath. by rewrite (is_abs_join _ Hall), (parse_parts_join _ Hall).
Qed.

End PathRoundTrip.

(** *** [list_assets] *)

Section ListingFacts.

Variable BASE_DIR cwd : list string.
Variable root : FS.node.

#[local] Instance by_name_total : Total FileHandler.by_name.
Proof. intros a b. unfold FileHandler.by_name. apply (total String.le). Qed.

Lemma stat_entry (rel canon : list string) (entries : list (string * FS.node)) (n : string) :
  FS.stat root (BASE_DIR ++ rel) = FS.Found canon (FS.Dir entries) →
  Names.file_name n →
  FS.stat root ((BASE_DIR ++ rel) ++ [n])
  = match FS.entry n entries with
    | Some c => FS.Found (canon ++ [n]) c
    | None => FS.NoEnt
    end.
Proof.
  intros Hdir (_ & _ & Hdd & _ & Hlen). unfold FS.stat in *. by apply walk_snoc.
Qed.

Lemma collect_assets_spec (rel canon : list string) (entries : list (string * FS.node))
    (names : list string) :
  FS.stat root (BASE_DIR ++ rel) = FS.Found canon (FS.Dir entries) →
  Forall Names.file_name names →
  ∀ assets,
  FileHandler.collect_assets BASE_DIR root (BASE_DIR ++ rel) names assets
  = Ok (assets ++ omap (Listing.listed rel entries) names).
Proof.
  intros Hdir Hnames. induction Hnames as [|n names Hn Hnames IH]; intros assets.
  - cbn. by rewrite app_nil_r.
  - cbn [FileHandler.collect_assets omap list_omap].
    unfold FS.is_file, FileHandler.st_size, Listing.listed.
    rewrite (stat_entry rel canon entries n Hdir Hn).
    destruct (FS.entry n entries) as [[content|sub]|]; rewrite IH; try done.
    rewrite <- (app_assoc BASE_DIR), drop_app_length, <- app_assoc. done.
Qed.

Lemma list_assets_spec (file_type : string) (rel canon : list string)
    (entries : list (string * FS.node)) :
  FileHandler.get_upload_directory BASE_DIR file_type = Ok (BASE_DIR ++ rel) →
  FS.stat root (BASE_DIR ++ rel) = FS.Found canon (FS.Dir entries) →
  Names.directory entries →
  FileHandler.list_assets BASE_DIR root file_type
  = Ok (merge_sort FileHandler.by_name (omap (Listing.listed rel entries) (entries.*1))).
Proof.
  intros Hup Hdir [_ Hnames]. unfold FileHandler.list_assets, FS.exists_.
  rewrite Hup, Hdir. by rewrite (collect_assets_spec rel canon entries _ Hdir Hnames).
Qed.

Lemma listed_elem_of (rel : list string) (entries : list (string * FS.node))
    (a : FileHandler.asset) :
  NoDup (entries.*1) →
  a ∈ omap (Listing.listed rel entries) (entries.*1)
  ↔ ∃ content,
      (FileHandler.asset_name a, FS.File content) ∈ entries
      ∧ FileHandler.asset_size a = String.length content
      ∧ FileHandler.asset_path a
        = "../../" +:+ join_slash (rel ++ [FileHandler.asset_name a]).
Proof.
  intros Hnd. rewrite list_elem_of_omap. unfold Listing.listed. split.
  - intros (n & Hn & Hl).
    destruct (FS.entry n entries) as [[content|?]|] eqn:He; try done.
    injection Hl as <-. cbn. exists content. split; [|done].
    by apply entry_elem_of.
  - intros (content & Hin & Hsize & Hpath). exists (FileHandler.asset_name a). split.
    + apply list_elem_of_fmap. by exists (FileHandler.asset_name a, FS.File content).
    + rewrite (proj2 (entry_elem_of _ _ _ Hnd) Hin). destruct a as [n p sz]; cbn in *.
      by subst.
Qed.

Lemma listed_names_sublist (rel : list string) (entries : list (string * FS.node))
    (names : list string) :
  sublist (FileHandler.asset_name <$> omap (Listing.listed rel entries) names) names.
Proof.
  induction names as [|n names IH]; [done|]. cbn [omap list_omap].
  unfold Listing.listed at 1.
  destruct (FS.entry n entries) as [[content|?]|]; cbn;
    first [by apply sublist_skip | by apply sublist_cons].
Qed.

(** X13: [list_assets] answers the empty list when the upload directory is not
    there, and otherwise lists the regular files of that directory, those
    and no other entry, each once, in the order of their names, with the
    size of the file and the path [../../<directory>/<name>] counted from
    the project root. *)
Theorem list_assets_lists_the_files (file_type : string) (rel canon : list string)
    (entries : list (string * FS.node)) :
  FileHandler.get_upload_directory BASE_DIR file_type = Ok (BASE_DIR ++ rel) →
  (FS.stat root (BASE_DIR ++ rel) = FS.NoEnt →
     FileHandler.list_assets BASE_DIR root file_type = Ok [])
  ∧ (FS.stat root (BASE_DIR ++ rel) = FS.Found canon (FS.Dir entries) →
     Names.directory entries →
     ∃ assets,
       FileHandler.list_assets BASE_DIR root file_type = Ok assets
       ∧ Sorted FileHandler.by_name assets
       ∧ NoDup (FileHandler.asset_name <$> assets)
       ∧ ∀ a, a ∈ assets
              ↔ ∃ content,
                  (FileHandler.asset_name a, FS.File content) ∈ entries
                  ∧ FileHandler.asset_size a = String.length content
                  ∧ FileHandler.asset_path a
                    = "../../" +:+ join_slash (rel ++ [FileHandler.asset_name a])).
Proof.
  intros Hup. split.
  - intros Hno. unfold FileHandler.list_assets, FS.exists_. by rewrite Hup, Hno.
  - intros Hdir Hd. eexists. split; [by eapply list_assets_spec|].
    destruct Hd as [Hnd Hnames].
    split; [apply Sorted_merge_sort; apply _|]. split.
    + rewrite merge_sort_Permutation.
      eapply sublist_NoDup; [exact Hnd|apply listed_names_sublist].
    + intros a. rewrite merge_sort_Permutation. by apply listed_elem_of.
Qed.

Lemma upload_directories (file_type : string) (rel : list string) :
  FileHandler.get_upload_directory BASE_DIR file_type = Ok (BASE_DIR ++ rel) →
  Forall Names.file_name rel.
Proof.
  unfold FileHandler.get_upload_directory, FileHandler.MODELS_DIR, FileHandler.SHADOWS_DIR,
    FileHandler.FOUND_DIR, FileHandler.BADGES_DIR, FileHandler.ASSETS_DIR.
  rewrite <- !app_assoc.
  repeat (case_match; [intros [= <-%app_inv_head];
                       repeat constructor; cbn; first [done|lia]|]).
  done.
Qed.

(** X14: What [list_assets] lists passes the check of asset paths: each path
    listed is accepted by [_validate_asset_path], whatever the field, and
    [file_exists] finds its file. *)
Theorem listed_assets_are_valid_paths (file_type field_name : string)
    (rel canon : list string) (entries : list (string * FS.node))
    (assets : list FileHandler.asset) (a : FileHandler.asset) :
  FileHandler.get_upload_directory BASE_DIR file_type = Ok (BASE_DIR ++ rel) →
  FS.stat root (BASE_DIR ++ rel) = FS.Found canon (FS.Dir entries) →
  Names.directory entries →
  FileHandler.list_assets BASE_DIR root file_type = Ok assets →
  a ∈ assets →
  Validator._validate_asset_path root BASE_DIR (JStr (FileHandler.asset_path a)) field_name
  = []
  ∧ FileHandler.file_exists BASE_DIR cwd root (FileHandler.asset_path a) = true.
Proof.
  intros Hup Hdir Hd Hlist Ha.
  rewrite (list_assets_spec file_type rel canon entries Hup Hdir Hd) in Hlist.
  injection Hlist as <-. rewrite merge_sort_Permutation in Ha.
  destruct Hd as [Hnd Hnames].
  apply (listed_elem_of rel entries a Hnd) in Ha as (content & Hin & _ & Hpath).
  set (n := FileHandler.asset_name a) in *.
  assert (Hn : Names.file_name n).
  { apply (proj1 (Forall_forall _ _) Hnames). apply list_elem_of_fmap.
    by exists (n, FS.File content). }
  assert (Hparts : Forall Names.file_name (rel ++ [n])).
  { apply Forall_app_2; [by eapply upload_directories|by constructor]. }
  assert (Hfull : FS.joinpath BASE_DIR (str_drop 6 (FileHandler.asset_path a))
                  = (BASE_DIR ++ rel) ++ [n]).
  { rewrite Hpath. change (str_drop 6 ("../../" +:+ ?x)) with x.
    by rewrite (joinpath_join _ _ Hparts), app_assoc. }
  assert (Hstat : FS.stat root ((BASE_DIR ++ rel) ++ [n])
                  = FS.Found (canon ++ [n]) (FS.File content)).
  { rewrite (stat_entry rel canon entries n Hdir Hn).
    by rewrite (proj2 (entry_elem_of _ _ _ Hnd) Hin). }
  assert (Hpre : startswith "../../" (FileHandler.asset_path a) = true)
    by (rewrite Hpath; apply startswith_prefixed).
  split.
  - unfold Validator._validate_asset_path. rewrite Hpre, Hfull. cbn [negb].
    assert (Hne : String.eqb (FileHandler.asset_path a) "" = false)
      by (rewrite Hpath; reflexivity).
    rewrite Hne. unfold FS.exists_. by rewrite Hstat.
  - unfold FileHandler.file_exists, FileHandler.exists_and_is_file, FileHandler.full_path.
    rewrite Hpre, Hfull. unfold FS.exists_, FS.is_file. by rewrite Hstat.
Qed.

End ListingFacts.

(** ** Deleting a file *)

Section RemoveFacts.

Import Tree.

Lemma descend_app (n : FS.node) (c d : list string) :
  descend n (c ++ d) = descend n c ≫= λ m, descend m d.
Proof.
  revert n. induction c as [|x c IH]; intros n; [done|]. cbn.
  destruct n as [|es]; [done|]. destruct (FS.entry x es); [apply IH|done].
Qed.

Lemma descend_snoc (n : FS.node) (c : list string) (x : string)
    (es : list (string * FS.node)) :
  descend n c = Some (FS.Dir es) → descend n (c ++ [x]) = FS.entry x es.
Proof.
  intros Hc. rewrite descend_app, Hc. cbn. by destruct (FS.entry x es).
Qed.

(** The canonical path a walk reports leads to the node it reports. *)
Lemma walk_descend (root : FS.node) (p : list string) :
  ∀ (t : list (string * FS.node)) (cur : FS.node) (cq : list string) (n : FS.node),
  trail_in root t →
  descend root (reverse (t.*1)) = Some cur →
  FS.walk t cur p = FS.Found cq n →
  descend root cq = Some n.
Proof.
  induction p as [|a p IH]; intros t cur cq n Ht Hcur Hw.
  - cbn in Hw. by injection Hw as <- <-.
  - cbn [FS.walk] in Hw. destruct cur as [|es]; [done|].
    destruct (String.eqb a "..").
    + destruct t as [|[x parent] t1].
      * by apply (IH [] (FS.Dir es) cq n).
      * destruct Ht as [Hp Ht1]. by apply (IH t1 parent cq n).
    + destruct (FS.NAME_MAX <? String.length a)%nat; [done|].
      destruct (FS.entry a es) as [child|] eqn:He; [|done].
      apply (IH ((a, FS.Dir es) :: t) child cq n); [done| |done].
      rewrite fmap_cons, reverse_cons. cbn [fst].
      by rewrite (descend_snoc _ _ _ _ Hcur).
Qed.

Lemma entry_filter_ne (x a : string) (es : list (string * FS.node)) :
  FS.entry a (filter (λ e, e.1 ≠ x) es) = if decide (a = x) then None else FS.entry a es.
Proof.
  induction es as [|[n c] es IH]; [by destruct (decide (a = x))|].
  rewrite filter_cons. cbn [fst]. destruct (decide (n ≠ x)) as [Hn|Hn].
  - cbn [FS.entry]. rewrite IH. destruct (decide (a = x)) as [->|Hax]; [|done].
    by rewrite (proj2 (String.eqb_neq x n)).
  - apply dec_stable in Hn as ->. rewrite IH. cbn [FS.entry].
    destruct (decide (a = x)) as [->|Hax]; [done|].
    by rewrite (proj2 (String.eqb_neq a x)).
Qed.

Lemma entry_fmap_at (x a : string) (f : FS.node → FS.node) (es : list (string * FS.node)) :
  FS.entry a ((λ e, if String.eqb e.1 x then (e.1, f e.2) else e) <$> es)
  = if decide (a = x) then f <$> FS.entry a es else FS.entry a es.
Proof.
  induction es as [|[n c] es IH]; [by destruct (decide (a = x))|].
  rewrite fmap_cons. cbn [fst snd]. destruct (String.eqb n x) eqn:Hnx.
  - apply String.eqb_eq in Hnx as ->. cbn [FS.entry]. rewrite IH.
    destruct (decide (a = x)) as [->|Hax].
    + by rewrite String.eqb_refl.
    + by rewrite (proj2 (String.eqb_neq a x)).
  - apply String.eqb_neq in Hnx. cbn [FS.entry]. rewrite IH.
    destruct (decide (a = x)) as [->|Hax].
    + by rewrite (proj2 (String.eqb_neq x n)).
    + done.
Qed.

Lemma linked_names (canon : list string) (t t' : list (string * FS.node)) :
  linked canon t t' → t.*1 = t'.*1.
Proof.
  revert t'. induction t as [|[x p] t IH]; intros [|[x' p'] t']; cbn; try done.
  intros (-> & _ & Hl). by rewrite (IH _ Hl).
Qed.

Lemma remove_last (x : string) (es : list (string * FS.node)) :
  FS.remove [x] (FS.Dir es) = FS.Dir (filter (λ e, e.1 ≠ x) es).
Proof. done. Qed.

Lemma remove_below (x y : string) (r : list string) (es : list (string * FS.node)) :
  FS.remove (x :: y :: r) (FS.Dir es)
  = FS.Dir ((λ e, if String.eqb e.1 x then (e.1, FS.remove (y :: r) e.2) else e) <$> es).
Proof. done. Qed.

Lemma remove_dir (r : list string) (es : list (string * FS.node)) :
  ∃ es', FS.remove r (FS.Dir es) = FS.Dir es'.
Proof. destruct r as [|x [|y r]]; by eexists. Qed.

Lemma off_path_snoc (canon c : list string) (a : string) :
  ¬ c `prefix_of` canon → ¬ (c ++ [a]) `prefix_of` canon.
Proof. intros Hn [k Hk]. apply Hn. exists ([a] ++ k). by rewrite Hk, <- app_assoc. Qed.

(** A walk through the tree without the file at [canon], beside the same
    walk through the tree as it was: it ends where the other ends, at the
    same file, unless that is the removed file, which it does not find. *)
Lemma walk_after_remove (canon : list string) (p : list string) :
  ∀ (t t' : list (string * FS.node)) (cur cur' : FS.node),
  linked canon t t' →
  here canon (reverse (t.*1)) cur cur' →
  match FS.walk t cur p with
  | FS.Found cq n =>
      if decide (cq = canon) then FS.walk t' cur' p = FS.NoEnt
      else ∃ n', FS.walk t' cur' p = FS.Found cq n'
                 ∧ ∀ content, n = FS.File content → n' = FS.File content
  | FS.NoEnt => FS.walk t' cur' p = FS.NoEnt
  | FS.NameTooLong => FS.walk t' cur' p = FS.NameTooLong
  end.
Proof.
  induction p as [|a p IH]; intros t t' cur cur' Hl Hh.
  - cbn [FS.walk]. rewrite <- (linked_names _ _ _ Hl).
    rewrite decide_False.
    + exists cur'. split; [done|]. intros content ->.
      destruct Hh as [(r & c0 & Hr & _ & Hd & ->)|[_ ->]]; [|done].
      by destruct r.
    + intros Heq. destruct Hh as [(r & c0 & Hr & Hc & _)|[Hn _]].
      * rewrite Heq in Hc. rewrite <- (app_nil_r canon) in Hc at 1.
        by apply app_inv_head in Hc.
      * apply Hn. by rewrite Heq.
  - destruct cur as [content|es].
    { cbn [FS.walk]. destruct Hh as [(r & c0 & Hr & _ & Hd & _)|[_ ->]]; [|done].
      by destruct r. }
    assert (Hdir : ∃ es', cur' = FS.Dir es'
              ∧ ((∃ x r' c0, canon = reverse (t.*1) ++ x :: r'
                    ∧ descend (FS.Dir es) (x :: r') = Some (FS.File c0)
                    ∧ FS.Dir es' = FS.remove (x :: r') (FS.Dir es)
                    ∧ (∀ b, b ≠ x → FS.entry b es' = FS.entry b es)
                    ∧ FS.entry x es' = match r' with
                                       | [] => None
                                       | _ :: _ => FS.remove r' <$> FS.entry x es
                                       end)
                 ∨ (¬ reverse (t.*1) `prefix_of` canon ∧ es' = es))).
    { destruct Hh as [(r & c0 & Hr & Hc & Hd & ->)|[Hn ->]]; [|by eexists; split; [|right]].
      destruct r as [|x [|y r'']]; [done|..].
      - eexists. split; [apply remove_last|]. left. exists x, [], c0.
        split; [done|]. split; [done|]. split; [done|]. split.
        + intros b Hb. by rewrite entry_filter_ne, decide_False.
        + by rewrite entry_filter_ne, decide_True.
      - eexists. split; [apply remove_below|]. left. exists x, (y :: r''), c0.
        split; [done|]. split; [done|]. split; [done|]. split.
        + intros b Hb. by rewrite entry_fmap_at, decide_False.
        + by rewrite entry_fmap_at, decide_True. }
    clear Hh. destruct Hdir as (es' & -> & Hcase). cbn [FS.walk].
    destruct (String.eqb a "..") eqn:Hdd.
    + assert (Hh : here canon (reverse (t.*1)) (FS.Dir es) (FS.Dir es')).
      { destruct Hcase as [(x & r' & c0 & Hc & Hd & Heq & Hne & Hx)|[Hn ->]]; [|by right].
        left. by exists (x :: r'), c0. }
      destruct t as [|[x parent] t1], t' as [|[x' parent'] t1']; cbn in Hl; try done.
      * by apply IH.
      * destruct Hl as (-> & Hhp & Hl1). by apply IH.
    + destruct (FS.NAME_MAX <? String.length a)%nat; [done|].
      assert (Hstep : ∀ child child',
                here canon (reverse (t.*1) ++ [a]) child child' →
                match FS.walk ((a, FS.Dir es) :: t) child p with
                | FS.Found cq n =>
                    if decide (cq = canon)
                    then FS.walk ((a, FS.Dir es') :: t') child' p = FS.NoEnt
                    else ∃ n', FS.walk ((a, FS.Dir es') :: t') child' p = FS.Found cq n'
                               ∧ ∀ content, n = FS.File content → n' = FS.File content
                | FS.NoEnt => FS.walk ((a, FS.Dir es') :: t') child' p = FS.NoEnt
                | FS.NameTooLong =>
                    FS.walk ((a, FS.Dir es') :: t') child' p = FS.NameTooLong
                end).
      { intros child child' Hch. apply IH.
        - cbn. split; [done|]. split; [|done].
          destruct Hcase as [(x & r' & c0 & Hc & Hd & Heq & Hne & Hx)|[Hn ->]]; [|by right].
          left. by exists (x :: r'), c0.
        - by rewrite fmap_cons, reverse_cons. }
      destruct Hcase as [(x & r' & c0 & Hc & Hd & Heq & Hne & Hx)|[Hn ->]].
      * cbn [descend] in Hd. destruct (decide (a = x)) as [->|Hax].
        -- rewrite Hx. destruct (FS.entry x es) as [child|] eqn:He; [|by destruct r'].
           destruct r' as [|y r''].
           ++ cbn in Hd. injection Hd as ->.
              destruct p as [|b p']; cbn [FS.walk]; [|done].
              rewrite fmap_cons, reverse_cons. cbn [fst]. by rewrite decide_True.
           ++ cbn [fmap option_fmap option_map].
              apply Hstep. left. exists (y :: r''), c0. split; [done|]. split; [|done].
              by rewrite <- app_assoc.
        -- rewrite (Hne a Hax). destruct (FS.entry a es) as [child|] eqn:He; [|done].
           apply Hstep. right. split; [|done]. rewrite Hc. intros [k Hk].
           rewrite <- !app_assoc in Hk. apply app_inv_head in Hk. cbn in Hk. congruence.
      * destruct (FS.entry a es) as [child|] eqn:He; [|done].
        apply Hstep. right. split; [|done]. by apply off_path_snoc.
Qed.

End RemoveFacts.

Section DeleteFacts.

Variable BASE_DIR cwd : list string.

Import Tree.

Lemma exists_and_is_file_true (root : FS.node) (p : list string) :
  FileHandler.exists_and_is_file root p = Ok true
  ↔ ∃ canon content, FS.stat root p = FS.Found canon (FS.File content).
Proof.
  unfold FileHandler.exists_and_is_file, FS.exists_, FS.is_file.
  destruct (FS.stat root p) as [canon [content|es]| |]; split;
    first [done | by intros (? & ? & ?) | by eexists _, _].
Qed.

(** X15: [delete_file] deletes the file its path names and nothing else.  When
    it returns [True] the file is no longer found under that path
    ([file_exists] answers [False], a second [delete_file] returns [False]
    and changes nothing), every other file is still where it was, with its
    content, and no path that led nowhere leads somewhere now. *)
Theorem delete_file_removes_only_that_file (root root' : FS.node) (file_path : string) :
  (∃ entries, root = FS.Dir entries) →
  FileHandler.delete_file BASE_DIR cwd root file_path = (root', Ok true) →
  FileHandler.file_exists BASE_DIR cwd root' file_path = false
  ∧ FileHandler.delete_file BASE_DIR cwd root' file_path = (root', Ok false)
  ∧ ∃ canon removed,
      FS.stat root (FileHandler.full_path BASE_DIR cwd file_path)
      = FS.Found canon (FS.File removed)
      ∧ (∀ q cq content,
           FS.stat root q = FS.Found cq (FS.File content) → cq ≠ canon →
           FS.stat root' q = FS.Found cq (FS.File content))
      ∧ (∀ q, FS.stat root q = FS.NoEnt → FS.stat root' q = FS.NoEnt).
Proof.
  intros [entries ->] Hdel. unfold FileHandler.delete_file in Hdel.
  set (p := FileHandler.full_path BASE_DIR cwd file_path) in *.
  destruct (FileHandler.exists_and_is_file (FS.Dir entries) p) as [[|]|e] eqn:Hex;
    try done.
  apply exists_and_is_file_true in Hex as (canon & removed & Hstat).
  injection Hdel as <-. unfold FileHandler.unlink. rewrite Hstat.
  set (root := FS.Dir entries) in *. set (root' := FS.remove canon root).
  assert (Hd : descend root canon = Some (FS.File removed)).
  { by apply (walk_descend root p [] root canon (FS.File removed)). }
  assert (Hne : canon ≠ []) by by intros ->.
  assert (Hsim : ∀ q,
            match FS.stat root q with
            | FS.Found cq n =>
                if decide (cq = canon) then FS.stat root' q = FS.NoEnt
                else ∃ n', FS.stat root' q = FS.Found cq n'
                           ∧ ∀ content, n = FS.File content → n' = FS.File content
            | FS.NoEnt => FS.stat root' q = FS.NoEnt
            | FS.NameTooLong => FS.stat root' q = FS.NameTooLong
            end).
  { intros q. apply (walk_after_remove canon q [] [] root root'); [done|].
    left. by exists canon, removed. }
  assert (Hgone : FS.stat root' p = FS.NoEnt).
  { pose proof (Hsim p) as Hp. rewrite Hstat in Hp. by rewrite decide_True in Hp. }
  split; [|split].
  - unfold FileHandler.file_exists, FileHandler.exists_and_is_file, FS.exists_.
    fold p. by rewrite Hgone.
  - unfold FileHandler.delete_file, FileHandler.exists_and_is_file, FS.exists_.
    fold p. by rewrite Hgone.
  - exists canon, removed. split; [done|]. split.
    + intros q cq content Hq Hcq. pose proof (Hsim q) as Hs. rewrite Hq in Hs.
      rewrite decide_False in Hs by done. destruct Hs as (n' & Hn' & Hfile).
      by rewrite Hn', (Hfile content eq_refl).
    + intros q Hq. pose proof (Hsim q) as Hs. by rewrite Hq in Hs.
Qed.

End DeleteFacts.

(** ** The routes that change one element of the document *)

Section FindingFacts.

Context `{Runtime}.
Import JSONHandler.

Lemma find_index_match (same : json → bool) (l : list json) (i : nat) (d : dict) :
  Finding.first_match same l i d →
  ∀ k, ItemRoutes.find_index same k l = Ok (Some ((k + i)%nat, JDict d)).
Proof.
  revert l. induction i as [|i IH]; intros l (Hi & (a & Ha & Hsame) & Hbefore) k.
  - destruct l as [|v l]; [done|]. cbn in Hi. injection Hi as ->.
    cbn. rewrite Ha, Hsame. by rewrite Nat.add_0_r.
  - destruct l as [|v l]; [done|]. cbn in Hi.
    destruct (Hbefore 0%nat v) as (b & Hb & Hnot); [lia|done|].
    destruct v as [| | | | | |dv]; try done. cbn in Hb. cbn. rewrite Hb, Hnot.
    rewrite (IH l); [f_equal; f_equal; f_equal; lia|].
    split; [done|]. split; [by exists a|].
    intros j v Hj Hv. apply (Hbefore (S j) v); [lia|done].
Qed.

Lemma find_index_no_match (same : json → bool) (l : list json) :
  Finding.no_match same l → ∀ k, ItemRoutes.find_index same k l = Ok None.
Proof.
  induction 1 as [|v l (b & Hb & Hnot) Hl IH]; intros k; [done|].
  destruct v as [| | | | | |dv]; try done. cbn in Hb. cbn. rewrite Hb, Hnot. apply IH.
Qed.

(** *** The structural validation of the changed document *)

Lemma validate_structure_eq (top : dict) (items game_badges : list json) :
  dict_get "items" top = Some (JList items) →
  dict_get "gameBadges" top = Some (JList game_badges) →
  _validate_structure (JDict top)
  = match check_entries "Item" "item" 0 [] items with
    | Ok _ => check_entries "Game badge" "game badge" 0 [] game_badges
    | Raise e => Raise e
    end.
Proof.
  intros Hi Hb. unfold _validate_structure.
  rewrite (proj2 (dict_mem_get "items" top)) by by eexists.
  rewrite (proj2 (dict_mem_get "gameBadges" top)) by by eexists.
  cbn [negb]. by rewrite (dict_item_get _ _ _ Hi), (dict_item_get _ _ _ Hb).
Qed.

Lemma validated_collections (top : dict) :
  _validate_structure (JDict top) = Ok () →
  ∃ items game_badges,
    dict_get "items" top = Some (JList items)
    ∧ dict_get "gameBadges" top = Some (JList game_badges)
    ∧ Report.in_order items ∧ Report.in_order game_badges.
Proof.
  intros Hok.
  destruct (validate_structure_ok _ Hok)
    as (top' & items & game_badges & [= <-] & Hi & Hb & _ & _).
  exists items, game_badges. split; [done|]. split; [done|].
  rewrite (validate_structure_eq top items game_badges Hi Hb) in Hok.
  destruct (check_entries "Item" "item" 0 [] items) as [[]|e] eqn:Hitems; [|done].
  split; by eapply check_entries_valid.
Qed.

Lemma validate_in_order (top : dict) (items game_badges : list json) :
  dict_get "items" top = Some (JList items) →
  dict_get "gameBadges" top = Some (JList game_badges) →
  Report.in_order items → Report.in_order game_badges →
  _validate_structure (JDict top) = Ok ().
Proof.
  intros Hi Hb Hoi Hob. rewrite (validate_structure_eq top items game_badges Hi Hb).
  rewrite (check_entries_in_order _ _ _ Hoi). by apply check_entries_in_order.
Qed.

Lemma in_order_delete (l : list json) (i : nat) :
  Report.in_order l → Report.in_order (delete i l).
Proof.
  intros [[Hall Hnd] Hhash].
  assert (Hlook : ∀ j v, delete i l !! j = Some v →
            ∃ j', l !! j' = Some v ∧ (j' = j ∧ (j < i)%nat ∨ j' = S j ∧ (i ≤ j)%nat)).
  { intros j v Hj. destruct (decide (j < i)%nat).
    - rewrite list_lookup_delete_lt in Hj by done. exists j. split; [done|]. left. lia.
    - rewrite list_lookup_delete_ge in Hj by lia. exists (S j). split; [done|]. right. lia. }
  split; [split|].
  - apply Forall_lookup. intros j v (j' & Hj' & _)%Hlook.
    by apply (Forall_lookup_1 _ _ _ _ Hall Hj').
  - intros j k va vb a b Hjk (j' & Hj' & Hjj)%Hlook (k' & Hk' & Hkk)%Hlook Ha Hb.
    apply (Hnd j' k' va vb a b); [lia|done..].
  - apply Forall_lookup. intros j v (j' & Hj' & _)%Hlook.
    by apply (Forall_lookup_1 _ _ _ _ Hhash Hj').
Qed.

Lemma same_id_shape_refl (v : json) : Shape.same_id_shape v v.
Proof. by destruct v. Qed.

Lemma same_shape_insert (l : list json) (i : nat) (d d' : dict) :
  l !! i = Some (JDict d) →
  dict_get "id" d' = dict_get "id" d →
  Forall2 Shape.same_id_shape l (<[i := JDict d']> l).
Proof.
  revert i. induction l as [|v l IH]; intros i Hi Hid; [done|].
  destruct i as [|i]; cbn in Hi |- *.
  - injection Hi as ->. constructor; [done|].
    apply Forall2_same_length_lookup_2; [done|].
    intros j x y Hx Hy. assert (x = y) as -> by congruence. apply same_id_shape_refl.
  - constructor; [apply same_id_shape_refl|by apply IH].
Qed.

Lemma in_order_same_shape (l l' : list json) :
  Forall2 Shape.same_id_shape l l' → Report.in_order l → Report.in_order l'.
Proof.
  intros Hs Hord. apply (check_entries_valid "Item" "item" l' 0).
  rewrite (check_entries_same_shape _ _ _ _ Hs). by apply check_entries_in_order.
Qed.

End FindingFacts.

Section DeleteRoutes.

Context `{Runtime}.
Variable root : FS.node.
Variable BASE_DIR : list string.
Variable E : JSONHandler.env.

Import JSONHandler.

Lemma pop_by_id_found (key wanted : string) (top : dict) (raw : list json) (i : nat)
    (d : dict) :
  dict_get key top = Some (JList raw) →
  Finding.first_match (λ v, ItemRoutes.eq_str v wanted) raw i d →
  ItemRoutes.pop_by_id key wanted (JDict top)
  = Ok (Some (JDict d, JDict (dict_set key (JList (delete i raw)) top))).
Proof.
  intros Hk Hf. unfold ItemRoutes.pop_by_id. cbn. rewrite Hk. cbn.
  by rewrite (find_index_match _ _ _ _ Hf 0).
Qed.

Lemma pop_by_id_none (key wanted : string) (top : dict) (raw : list json) :
  dict_get key top = Some (JList raw) →
  Finding.no_match (λ v, ItemRoutes.eq_str v wanted) raw →
  ItemRoutes.pop_by_id key wanted (JDict top) = Ok None.
Proof.
  intros Hk Hn. unfold ItemRoutes.pop_by_id. cbn. rewrite Hk. cbn.
  by rewrite (find_index_no_match _ _ Hn 0).
Qed.

Lemma validate_with_items (top : dict) (raw raw' : list json) :
  _validate_structure (JDict top) = Ok () →
  dict_get "items" top = Some (JList raw) →
  (Report.in_order raw → Report.in_order raw') →
  _validate_structure (JDict (dict_set "items" (JList raw') top)) = Ok ().
Proof.
  intros (items & game_badges & Hi & Hb & Hoi & Hob)%validated_collections Hraw Hord.
  assert (items = raw) as -> by congruence.
  apply (validate_in_order _ raw' game_badges); [apply dict_get_set_eq| |by apply Hord|done].
  by rewrite dict_get_set_ne.
Qed.

Lemma validate_with_badges (top : dict) (raw raw' : list json) :
  _validate_structure (JDict top) = Ok () →
  dict_get "gameBadges" top = Some (JList raw) →
  (Report.in_order raw → Report.in_order raw') →
  _validate_structure (JDict (dict_set "gameBadges" (JList raw') top)) = Ok ().
Proof.
  intros (items & game_badges & Hi & Hb & Hoi & Hob)%validated_collections Hraw Hord.
  assert (game_badges = raw) as -> by congruence.
  apply (validate_in_order _ items raw'); [|apply dict_get_set_eq|done|by apply Hord].
  by rewrite dict_get_set_ne.
Qed.

Lemma no_match_after_delete (wanted : string) (raw : list json) (i : nat) (d : dict) :
  Report.in_order raw →
  Finding.first_match (λ v, ItemRoutes.eq_str v wanted) raw i d →
  Finding.no_match (λ v, ItemRoutes.eq_str v wanted) (delete i raw).
Proof.
  intros [[Hall Hnd] _] (Hi & (a & Ha & Hsame) & Hbefore).
  apply Forall_lookup. intros j v Hj. destruct (decide (j < i)%nat) as [Hlt|Hge].
  - rewrite list_lookup_delete_lt in Hj by done. by apply (Hbefore j v).
  - rewrite list_lookup_delete_ge in Hj by lia.
    destruct (Forall_lookup_1 _ _ _ _ Hall Hj) as [b Hb]. exists b. split; [done|].
    destruct (ItemRoutes.eq_str b wanted) eqn:Hbw; [|done]. exfalso.
    apply (Hnd i (S j) (JDict d) v a b); [lia|done..|]. right.
    destruct a, b; cbn in Hsame, Hbw; try done.
    apply String.eqb_eq in Hsame, Hbw. congruence.
Qed.

(** X16: Deleting an item.  On a stored document that is in order, the route
    finds the first item with the id and hands to [handler.write] the
    document without it, every other item as it was and in its place; that
    document is in order too.  When nothing fails it becomes the document
    file, a row is added to the change log and the success message is
    flashed.  An item without [name] is removed from the document file all
    the same, but the route then flashes an error and logs nothing. *)
Theorem delete_removes_the_item (user : Z) (item_id : string) (st : site) (top : dict)
    (raw : list json) (i : nat) (d : dict) :
  read BASE_DIR (files st) = Ok (JDict top) →
  _validate_structure (JDict top) = Ok () →
  dict_get "items" top = Some (JList raw) →
  Finding.first_match (λ v, ItemRoutes.eq_str v item_id) raw i d →
  let data' := JDict (dict_set "items" (JList (delete i raw)) top) in
  _validate_structure data' = Ok ()
  ∧ (failing E = NoFault →
     ∀ v, json_loads (json_dumps data') = Parsed v →
     let r := ItemRoutes.delete BASE_DIR E user item_id st in
     live (files r.1) = Some (json_dumps data')
     ∧ match dict_get "name" d with
       | Some name =>
           r.2 = Ok (ItemRoutes.to_list "Item deleted successfully" "success")
           ∧ change_log r.1
             = change_log st
               ++ [{| Models.user_id := user;
                      Models.action := "delete";
                      Models.entity_type := "item";
                      Models.entity_id := item_id;
                      Models.changes := "Deleted item: " +:+ py_str name |}]
       | None =>
           r.2 = Ok (ItemRoutes.to_list "Error deleting item: 'name'" "error")
           ∧ change_log r.1 = change_log st
       end).
Proof.
  intros Hread Hvalid Hitems Hfirst. cbv zeta.
  assert (Hvalid' : _validate_structure
                      (JDict (dict_set "items" (JList (delete i raw)) top)) = Ok ()).
  { apply (validate_with_items top raw); [done..|]. apply in_order_delete. }
  split; [done|]. intros Hq v Hl. unfold ItemRoutes.delete.
  rewrite Hread, (pop_by_id_found "items" item_id top raw i d Hitems Hfirst).
  rewrite (write_quiet_state E _ v (files st) Hq Hvalid' Hl). cbn [ItemRoutes.getitem].
  destruct (dict_get "name" d) as [name|]; cbn; done.
Qed.

(** X17: Once deleted, the id is not found again: on the document the deletion
    leaves, the route answers "Item not found" and changes nothing, neither
    the files nor the change log. *)
Theorem deleted_item_is_not_found_again (user : Z) (item_id : string) (st : site)
    (top : dict) (raw : list json) (i : nat) (d : dict) :
  _validate_structure (JDict top) = Ok () →
  dict_get "items" top = Some (JList raw) →
  Finding.first_match (λ v, ItemRoutes.eq_str v item_id) raw i d →
  read BASE_DIR (files st)
  = Ok (JDict (dict_set "items" (JList (delete i raw)) top)) →
  ItemRoutes.delete BASE_DIR E user item_id st
  = (st, Ok (ItemRoutes.to_list "Item not found" "error")).
Proof.
  intros Hvalid Hitems Hfirst Hread. unfold ItemRoutes.delete. rewrite Hread.
  rewrite (pop_by_id_none "items" item_id _ (delete i raw)); [done|apply dict_get_set_eq|].
  apply (no_match_after_delete item_id raw i d); [|done].
  apply validated_collections in Hvalid as (items & gb & Hi & _ & Hoi & _).
  by assert (items = raw) as -> by congruence.
Qed.

(** X18: Deleting a game badge: as for an item, on the collection of game
    badges. *)
Theorem delete_game_removes_the_badge (user : Z) (badge_id : string) (st : site)
    (top : dict) (raw : list json) (i : nat) (d : dict) :
  read BASE_DIR (files st) = Ok (JDict top) →
  _validate_structure (JDict top) = Ok () →
  dict_get "gameBadges" top = Some (JList raw) →
  Finding.first_match (λ v, ItemRoutes.eq_str v badge_id) raw i d →
  let data' := JDict (dict_set "gameBadges" (JList (delete i raw)) top) in
  _validate_structure data' = Ok ()
  ∧ (failing E = NoFault →
     ∀ v, json_loads (json_dumps data') = Parsed v →
     let r := BadgeRoutes.delete_game BASE_DIR E user badge_id st in
     live (files r.1) = Some (json_dumps data')
     ∧ match dict_get "name" d with
       | Some name =>
           r.2 = Ok (BadgeRoutes.to_list "Badge deleted successfully" "success")
           ∧ change_log r.1
             = change_log st
               ++ [{| Models.user_id := user;
                      Models.action := "delete";
                      Models.entity_type := "game_badge";
                      Models.entity_id := badge_id;
                      Models.changes := "Deleted game badge: " +:+ py_str name |}]
       | None =>
           r.2 = Ok (BadgeRoutes.to_list "Error deleting badge: 'name'" "error")
           ∧ change_log r.1 = change_log st
       end).
Proof.
  intros Hread Hvalid Hbadges Hfirst. cbv zeta.
  assert (Hvalid' : _validate_structure
                      (JDict (dict_set "gameBadges" (JList (delete i raw)) top)) = Ok ()).
  { apply (validate_with_badges top raw); [done..|]. apply in_order_delete. }
  split; [done|]. intros Hq v Hl. unfold BadgeRoutes.delete_game.
  rewrite Hread, (pop_by_id_found "gameBadges" badge_id top raw i d Hbadges Hfirst).
  rewrite (write_quiet_state E _ v (files st) Hq Hvalid' Hl). cbn [ItemRoutes.getitem].
  destruct (dict_get "name" d) as [name|]; cbn; done.
Qed.

End DeleteRoutes.

(** ** Editing a game badge, moving an item, changing a field *)

Section ChangeFacts.

Context `{Runtime}.

Lemma change_by_id_found (key : string) (same : json → bool)
    (change : dict → result dict) (top : dict) (raw : list json) (i : nat) (d a' : dict) :
  dict_get key top = Some (JList raw) →
  Finding.first_match same raw i d →
  change d = Ok a' →
  ItemRoutes.change_by_id key same change (JDict top)
  = Ok (Some (a', JDict (dict_set key (JList (<[i := JDict a']> raw)) top))).
Proof.
  intros Hk Hf Hc. unfold ItemRoutes.change_by_id. cbn. rewrite Hk. cbn.
  by rewrite (find_index_match _ _ _ _ Hf 0), Hc.
Qed.

Lemma change_by_id_none (key : string) (same : json → bool)
    (change : dict → result dict) (top : dict) (raw : list json) :
  dict_get key top = Some (JList raw) →
  Finding.no_match same raw →
  ItemRoutes.change_by_id key same change (JDict top) = Ok None.
Proof.
  intros Hk Hn. unfold ItemRoutes.change_by_id. cbn. rewrite Hk. cbn.
  by rewrite (find_index_no_match _ _ Hn 0).
Qed.

Lemma in_order_insert (raw : list json) (i : nat) (d d' : dict) :
  raw !! i = Some (JDict d) →
  dict_get "id" d' = dict_get "id" d →
  Report.in_order raw → Report.in_order (<[i := JDict d']> raw).
Proof.
  intros Hi Hid. apply in_order_same_shape. by apply (same_shape_insert raw i d d').
Qed.

End ChangeFacts.

Section EditGame.

Context `{Runtime}.
Variable root : FS.node.
Variable BASE_DIR : list string.
Variable E : JSONHandler.env.

Import JSONHandler.

Lemma fill_in_get (form : list (string * string)) (d : dict) (k : string) :
  dict_get k (BadgeRoutes.fill_in form d)
  = if bool_decide (k ∈ ["name"; "description"; "icon"; "gamePath"])
    then Some (JStr (BadgeRoutes.form_get form k))
    else dict_get k d.
Proof.
  unfold BadgeRoutes.fill_in. cbv zeta.
  destruct (decide (k = "gamePath")) as [->|Hn4]; [by rewrite dict_get_set_eq|].
  rewrite dict_get_set_ne by done.
  destruct (decide (k = "icon")) as [->|Hn3]; [by rewrite dict_get_set_eq|].
  rewrite dict_get_set_ne by done.
  destruct (decide (k = "description")) as [->|Hn2]; [by rewrite dict_get_set_eq|].
  rewrite dict_get_set_ne by done.
  destruct (decide (k = "name")) as [->|Hn1]; [by rewrite dict_get_set_eq|].
  rewrite dict_get_set_ne by done.
  rewrite bool_decide_eq_false_2; [done|]. intros Hin.
  repeat (apply elem_of_cons in Hin as [?|Hin]; [done|]). by apply elem_of_nil in Hin.
Qed.

Lemma validate_filled_in (form : list (string * string)) (d : dict) (badge_id : string) :
  dict_get "id" d = Some (JStr badge_id) →
  badge_id ≠ "" →
  Validator.validate_badge root BASE_DIR (BadgeRoutes.fill_in form d)
  = Validator._validate_asset_path root BASE_DIR
      (JStr (BadgeRoutes.form_get form "icon")) "icon".
Proof.
  intros Hid Hne.
  assert (Hmem : ∀ k v, dict_get k (BadgeRoutes.fill_in form d) = Some v →
            dict_mem k (BadgeRoutes.fill_in form d) = true).
  { intros k v Hk. apply dict_mem_get. by eexists. }
  assert (Hgid : dict_get "id" (BadgeRoutes.fill_in form d) = Some (JStr badge_id)).
  { by rewrite fill_in_get. }
  rewrite validate_badge_complete.
  - unfold Rules.badge_violations, Rules.rule_id, Rules.rule_asset.
    rewrite (dict_item_get _ _ _ Hgid).
    rewrite (Hmem "icon" _ (fill_in_get form d "icon")).
    rewrite (dict_item_get _ _ _ (fill_in_get form d "icon")). cbn [Validator.nonempty_str].
    by rewrite (proj2 (String.eqb_neq badge_id "")).
  - unfold Rules.missing_fields, Rules.badge_required.
    rewrite !filter_cons, filter_nil.
    rewrite (Hmem "id" _ Hgid), (Hmem "name" _ (fill_in_get form d "name")),
      (Hmem "description" _ (fill_in_get form d "description")).
    done.
Qed.

Lemma first_match_id (wanted : string) (raw : list json) (i : nat) (d : dict) :
  Finding.first_match (λ v, ItemRoutes.eq_str v wanted) raw i d →
  dict_get "id" d = Some (JStr wanted).
Proof. intros (_ & (a & Ha & Hsame%eq_str_iff) & _). by subst. Qed.

Lemma edit_game_found (user : Z) (method : string) (form : list (string * string))
    (badge_id : string) (st : site) (top : dict) (raw : list json) (i : nat) (d : dict) :
  read BASE_DIR (files st) = Ok (JDict top) →
  dict_get "gameBadges" top = Some (JList raw) →
  Finding.first_match (λ v, ItemRoutes.eq_str v badge_id) raw i d →
  BadgeRoutes.edit_game root BASE_DIR E user method form badge_id st
  = if negb (String.eqb method "POST") then
      (st, Ok {| Flask.flashed := [];
                 Flask.returned := BadgeRoutes.edit_page (JDict d) |})
    else
      let badge := BadgeRoutes.fill_in form d in
      let data := JDict (dict_set "gameBadges" (JList (<[i := JDict badge]> raw)) top) in
      let errors := Validator.validate_badge root BASE_DIR badge in
      if negb (bool_decide (errors = [])) then
        (st, Ok {| Flask.flashed :=
                     [("Validation errors: " +:+ str_join ", " errors, "error")];
                   Flask.returned := BadgeRoutes.edit_page (JDict badge) |})
      else
        match write E data true (files st) with
        | (fs, Raise e) =>
            ({| files := fs; change_log := change_log st |},
             Ok {| Flask.flashed := [("Error saving badge: " +:+ exn_str e, "error")];
                   Flask.returned := BadgeRoutes.edit_page (JDict badge) |})
        | (fs, Ok _) =>
            ({| files := fs;
                change_log :=
                  change_log st
                  ++ [{| Models.user_id := user;
                         Models.action := "update";
                         Models.entity_type := "game_badge";
                         Models.entity_id := badge_id;
                         Models.changes :=
                           "Updated game badge: " +:+ py_str (dict_item "name" badge) |}] |},
             Ok (BadgeRoutes.to_list "Badge updated successfully" "success"))
        end.
Proof.
  intros Hread Hk Hf. unfold BadgeRoutes.edit_game. rewrite Hread. cbn. rewrite Hk. cbn.
  by rewrite (find_index_match _ _ _ _ Hf 0).
Qed.

(** X19: Editing a game badge checks the icon path and nothing else: the badge
    found has its id, a non-empty string, and the route itself sets the
    name and the description, so the errors of [validate_badge] are those
    of the icon path the form gives.  When there are any, the page is shown
    again with them and nothing changes, neither the files nor the change
    log; a request that is no POST shows the badge as it is stored. *)
Theorem edit_game_checks_the_icon_only (user : Z) (form : list (string * string))
    (badge_id : string) (st : site) (top : dict) (raw : list json) (i : nat) (d : dict) :
  read BASE_DIR (files st) = Ok (JDict top) →
  dict_get "gameBadges" top = Some (JList raw) →
  Finding.first_match (λ v, ItemRoutes.eq_str v badge_id) raw i d →
  badge_id ≠ "" →
  let badge := BadgeRoutes.fill_in form d in
  let errors :=
    Validator._validate_asset_path root BASE_DIR
      (JStr (BadgeRoutes.form_get form "icon")) "icon" in
  Validator.validate_badge root BASE_DIR badge = errors
  ∧ (errors ≠ [] →
     BadgeRoutes.edit_game root BASE_DIR E user "POST" form badge_id st
     = (st, Ok {| Flask.flashed :=
                    [("Validation errors: " +:+ str_join ", " errors, "error")];
                  Flask.returned := BadgeRoutes.edit_page (JDict badge) |}))
  ∧ (∀ method, method ≠ "POST" →
     BadgeRoutes.edit_game root BASE_DIR E user method form badge_id st
     = (st, Ok {| Flask.flashed := [];
                  Flask.returned := BadgeRoutes.edit_page (JDict d) |})).
Proof.
  intros Hread Hk Hf Hne. cbv zeta.
  pose proof (validate_filled_in form d badge_id (first_match_id _ _ _ _ Hf) Hne) as Hv.
  split; [done|]. split.
  - intros Herr. rewrite (edit_game_found _ _ _ _ _ top raw i d Hread Hk Hf).
    cbn [String.eqb Ascii.eqb Bool.eqb negb]. cbv zeta. rewrite Hv.
    by rewrite bool_decide_eq_false_2.
  - intros method Hm. rewrite (edit_game_found _ _ _ _ _ top raw i d Hread Hk Hf).
    by rewrite (proj2 (String.eqb_neq method "POST")).
Qed.

(** X20: A POST whose icon path is accepted: the badge keeps its id and every
    field the form does not set, the document with the badge replaced is in
    order, and when nothing fails it becomes the document file, a row is
    added to the change log and the success message is flashed. *)
Theorem edit_game_updates_the_badge (user : Z) (form : list (string * string))
    (badge_id : string) (st : site) (top : dict) (raw : list json) (i : nat) (d : dict) :
  read BASE_DIR (files st) = Ok (JDict top) →
  _validate_structure (JDict top) = Ok () →
  dict_get "gameBadges" top = Some (JList raw) →
  Finding.first_match (λ v, ItemRoutes.eq_str v badge_id) raw i d →
  badge_id ≠ "" →
  Validator._validate_asset_path root BASE_DIR
    (JStr (BadgeRoutes.form_get form "icon")) "icon" = [] →
  let badge := BadgeRoutes.fill_in form d in
  let data' := JDict (dict_set "gameBadges" (JList (<[i := JDict badge]> raw)) top) in
  (∀ k, dict_get k badge
        = if bool_decide (k ∈ ["name"; "description"; "icon"; "gamePath"])
          then Some (JStr (BadgeRoutes.form_get form k))
          else dict_get k d)
  ∧ _validate_structure data' = Ok ()
  ∧ (failing E = NoFault →
     ∀ v, json_loads (json_dumps data') = Parsed v →
     let r := BadgeRoutes.edit_game root BASE_DIR E user "POST" form badge_id st in
     r.2 = Ok (BadgeRoutes.to_list "Badge updated successfully" "success")
     ∧ live (files r.1) = Some (json_dumps data')
     ∧ change_log r.1
       = change_log st
         ++ [{| Models.user_id := user;
                Models.action := "update";
                Models.entity_type := "game_badge";
                Models.entity_id := badge_id;
                Models.changes :=
                  "Updated game badge: " +:+ BadgeRoutes.form_get form "name" |}]).
Proof.
  intros Hread Hvalid Hk Hf Hne Hicon. cbv zeta.
  split; [intros k; apply fill_in_get|].
  assert (Hvalid' : _validate_structure
            (JDict (dict_set "gameBadges"
                      (JList (<[i := JDict (BadgeRoutes.fill_in form d)]> raw)) top))
            = Ok ()).
  { apply (validate_with_badges top raw); [done..|].
    apply (in_order_insert raw i d); [by destruct Hf|by rewrite fill_in_get]. }
  split; [done|]. intros Hq v Hl.
  rewrite (edit_game_found _ _ _ _ _ top raw i d Hread Hk Hf).
  cbn [String.eqb Ascii.eqb Bool.eqb negb]. cbv zeta.
  rewrite (validate_filled_in form d badge_id (first_match_id _ _ _ _ Hf) Hne), Hicon.
  rewrite bool_decide_eq_true_2 by done. cbn [negb].
  rewrite (write_quiet_state E _ v (files st) Hq Hvalid' Hl). cbn.
  by rewrite (dict_item_get _ _ _ (fill_in_get form d "name")).
Qed.

End EditGame.

(** ** Moving an item on the map *)

Section MapFacts.

Context `{Runtime}.
Variable BASE_DIR : list string.
Variable E : JSONHandler.env.

Import JSONHandler.

Lemma relocate_get (lat lng radius : json) (d : dict) (k : string) :
  dict_get k (MapRoutes.relocate lat lng radius d)
  = if String.eqb k "radiusMeters" then Some radius
    else if String.eqb k "location" then Some (JDict [("lat", lat); ("lng", lng)])
    else dict_get k d.
Proof.
  unfold MapRoutes.relocate. cbv zeta.
  destruct (String.eqb k "radiusMeters") eqn:Hr.
  { apply String.eqb_eq in Hr as ->. by rewrite dict_get_set_eq. }
  apply String.eqb_neq in Hr. rewrite dict_get_set_ne by done.
  destruct (String.eqb k "location") eqn:Hl.
  { apply String.eqb_eq in Hl as ->. by rewrite dict_get_set_eq. }
  apply String.eqb_neq in Hl. by rewrite dict_get_set_ne.
Qed.

Lemma is_none_false (v : json) : v ≠ JNull → is_none v = false.
Proof. by destruct v. Qed.

(** X21: Moving an item from the map.  For a request that names an item of a
    stored document in order and gives both coordinates: coordinates that
    [validate_coordinates] refuses are answered with status 400 and nothing
    is written; so is a latitude that is a number out of range, whatever the
    longitude holds, since the longitude is then not looked at.  When
    [validate_coordinates] raises the route raises and nothing is written:
    this is the [TypeError] of the comparison, for a latitude that is no
    number and for a longitude that is no number beside a latitude in
    range.  Coordinates it accepts are stored in the first item with the
    id, the radius as the request gives it, unchecked; the item keeps every
    other field, the location rule of the record validator finds nothing to
    report on it, the changed document is in order and, when nothing
    fails, becomes the document file. *)
Theorem update_location_stores_checked_coordinates (request top : dict)
    (raw : list json) (i : nat) (d : dict) (s : store) :
  read BASE_DIR s = Ok (JDict top) →
  _validate_structure (JDict top) = Ok () →
  dict_get "items" top = Some (JList raw) →
  let item_id := default JNull (dict_get "item_id" request) in
  let lat := default JNull (dict_get "lat" request) in
  let lng := default JNull (dict_get "lng" request) in
  let radius := default (JInt 10) (dict_get "radius" request) in
  truthy item_id = true → lat ≠ JNull → lng ≠ JNull →
  Finding.first_match (λ v, py_eq v item_id) raw i d →
  let item := MapRoutes.relocate lat lng radius d in
  let data' := JDict (dict_set "items" (JList (<[i := JDict item]> raw)) top) in
  let r := MapRoutes.update_location BASE_DIR E (JDict request) s in
  (Validator.validate_coordinates lat lng = Ok false →
     r = (s, Ok (MapRoutes.error "Invalid coordinates" 400)))
  ∧ (is_Some (as_number lat) → Validator.number_between (-90) lat 90 = false →
     r = (s, Ok (MapRoutes.error "Invalid coordinates" 400)))
  ∧ (∀ e, Validator.validate_coordinates lat lng = Raise e → r = (s, Raise e))
  ∧ (as_number lat = None → r = (s, Raise (Validator.le_error lat)))
  ∧ (Validator.number_between (-90) lat 90 = true → as_number lng = None →
     r = (s, Raise (Validator.le_error lng)))
  ∧ (Validator.validate_coordinates lat lng = Ok true →
     Rules.rule_location item = []
     ∧ dict_get "radiusMeters" item = Some radius
     ∧ (∀ k, k ≠ "radiusMeters" → k ≠ "location" → dict_get k item = dict_get k d)
     ∧ _validate_structure data' = Ok ()
     ∧ (failing E = NoFault →
        ∀ v, json_loads (json_dumps data') = Parsed v →
        r.2 = Ok {| Flask.flashed := [];
                    Flask.returned :=
                      Flask.Jsonify (JDict [("success", JBool true); ("item", JDict item)])
                        200 |}
        ∧ live r.1 = Some (json_dumps data'))).
Proof.
  intros Hread Hvalid Hitems item_id lat lng radius Hid Hlat Hlng Hf item data' r.
  assert (Hr : r = match Validator.validate_coordinates lat lng with
                   | Raise e => (s, Raise e)
                   | Ok false => (s, Ok (MapRoutes.error "Invalid coordinates" 400))
                   | Ok true =>
                       match write E data' true s with
                       | (s', Ok _) =>
                           (s', Ok {| Flask.flashed := [];
                                      Flask.returned :=
                                        Flask.Jsonify
                                          (JDict [("success", JBool true);
                                                  ("item", JDict item)]) 200 |})
                       | (s', Raise e) => (s', Ok (MapRoutes.error (exn_str e) 500))
                       end
                   end).
  { unfold r, MapRoutes.update_location. rewrite Hread. cbv zeta.
    fold item_id lat lng radius.
    rewrite Hid, (is_none_false _ Hlat), (is_none_false _ Hlng). cbn [negb orb].
    destruct (Validator.validate_coordinates lat lng) as [[|]|e]; [|done..].
    by rewrite (change_by_id_found "items" _ (λ i, Ok (MapRoutes.relocate lat lng radius i))
                  top raw i d item Hitems Hf eq_refl). }
  rewrite Hr. clear Hr r. split; [by intros ->|].
  split.
  { intros [x Hx] Hout. unfold Validator.validate_coordinates, Validator.chained_le.
    unfold Validator.number_between in Hout. rewrite Hx in Hout |- *. by rewrite Hout. }
  split; [by intros e ->|].
  split.
  { intros Hno. unfold Validator.validate_coordinates, Validator.chained_le.
    by rewrite Hno. }
  split.
  { intros Hin Hno. unfold Validator.validate_coordinates.
    rewrite (proj2 (chained_le_between (-90) 90 lat) Hin).
    unfold Validator.chained_le. by rewrite Hno. }
  intros Hok. rewrite Hok.
  apply validate_coordinates_true in Hok as [Hla Hlo].
  assert (Hvalid' : _validate_structure data' = Ok ()).
  { apply (validate_with_items top raw); [done..|].
    apply (in_order_insert raw i d); [by destruct Hf|unfold item; by rewrite relocate_get]. }
  revert Hvalid'. subst data' item. intros Hvalid'.
  split; [|split; [|split; [|split]]].
  - unfold Rules.rule_location, Rules.rule_lat, Rules.rule_lng.
    rewrite (dict_item_get _ _ _ (relocate_get lat lng radius d "location")). cbn.
    unfold dict_item. cbn. by rewrite Hla, Hlo.
  - by rewrite relocate_get.
  - intros k Hk1 Hk2. rewrite relocate_get.
    by rewrite (proj2 (String.eqb_neq k "radiusMeters")), (proj2 (String.eqb_neq k "location")).
  - done.
  - intros Hq v Hl. by rewrite (write_quiet_state E _ v s Hq Hvalid' Hl).
Qed.

End MapFacts.

(** ** Changing a field from the bulk editor *)

Section ContentFacts.

Context `{Runtime}.
Variable BASE_DIR : list string.
Variable E : JSONHandler.env.

Import JSONHandler.

Lemma update_passes_the_check (request top : dict) (s : store) :
  read BASE_DIR s = Ok (JDict top) →
  let entity_type := default JNull (dict_get "type" request) in
  let entity_id := default JNull (dict_get "id" request) in
  let field := default JNull (dict_get "field" request) in
  let value := default JNull (dict_get "value" request) in
  truthy entity_type = true → truthy entity_id = true → truthy field = true →
  value ≠ JNull →
  ContentRoutes.update BASE_DIR E (JDict request) s
  = match ContentRoutes.find_and_update entity_type entity_id field value (JDict top) with
    | Raise e => (s, Raise e)
    | Ok data =>
        match write E data true s with
        | (s', Ok _) =>
            (s', Ok {| Flask.flashed := [];
                       Flask.returned :=
                         Flask.Jsonify (JDict [("success", JBool true)]) 200 |})
        | (s', Raise e) => (s', Ok (MapRoutes.error (exn_str e) 500))
        end
    end.
Proof.
  intros Hread entity_type entity_id field value Ht Hi Hf Hv.
  unfold ContentRoutes.update. rewrite Hread. cbv zeta.
  fold entity_type entity_id field value.
  by rewrite Ht, Hi, Hf, (is_none_false _ Hv).
Qed.

(** X22: A request that matches nothing still writes.  When the type is
    neither [item] nor [game_badge], or no element of the collection has the
    id, [update] changes nothing in the document, hands it to
    [handler.write] all the same and answers success: the document file is
    written anew with the document read, and a backup of the file it
    replaces is taken (and kept, when no backup has a later name). *)
Theorem update_without_a_match_rewrites_the_document (request top : dict)
    (raw : list json) (v : json) (s : store) (c : string) :
  read BASE_DIR s = Ok (JDict top) →
  _validate_structure (JDict top) = Ok () →
  live s = Some c →
  let entity_type := default JNull (dict_get "type" request) in
  let entity_id := default JNull (dict_get "id" request) in
  let field := default JNull (dict_get "field" request) in
  let value := default JNull (dict_get "value" request) in
  truthy entity_type = true → truthy entity_id = true → truthy field = true →
  value ≠ JNull →
  (ItemRoutes.eq_str entity_type "item" = false
   ∧ ItemRoutes.eq_str entity_type "game_badge" = false)
  ∨ (entity_type = JStr "item" ∧ dict_get "items" top = Some (JList raw)
     ∧ Finding.no_match (λ a, py_eq a entity_id) raw)
  ∨ (entity_type = JStr "game_badge" ∧ dict_get "gameBadges" top = Some (JList raw)
     ∧ Finding.no_match (λ a, py_eq a entity_id) raw) →
  failing E = NoFault →
  json_loads (json_dumps (JDict top)) = Parsed v →
  let r := ContentRoutes.update BASE_DIR E (JDict request) s in
  r.2 = Ok {| Flask.flashed := [];
              Flask.returned := Flask.Jsonify (JDict [("success", JBool true)]) 200 |}
  ∧ live r.1 = Some (json_dumps (JDict top))
  ∧ ((∀ m, m ∈ sorted_backups (backups s) → String.le m (backup_file_name E)) →
     backups r.1 !! backup_file_name E = Some c).
Proof.
  intros Hread Hvalid Hlive entity_type entity_id field value Ht Hi Hf Hv Hcase Hq Hl r.
  assert (Hsame : ContentRoutes.find_and_update entity_type entity_id field value (JDict top)
                  = Ok (JDict top)).
  { unfold ContentRoutes.find_and_update.
    destruct Hcase as [[-> ->]|[(-> & Hk & Hn)|(-> & Hk & Hn)]]; [done|..]; cbn.
    - by rewrite (change_by_id_none "items" _ _ top raw Hk Hn).
    - by rewrite (change_by_id_none "gameBadges" _ _ top raw Hk Hn). }
  unfold r. rewrite (update_passes_the_check request top s Hread Ht Hi Hf Hv).
  fold entity_type entity_id field value. rewrite Hsame.
  rewrite (write_quiet_state E _ v s Hq Hvalid Hl). cbn [fst snd].
  split; [done|]. split; [done|]. intros Hmax. cbn [backups set_temp set_live].
  by destruct (create_backup_keeps_new E s c Hq Hlive Hmax) as [_ ?].
Qed.

(** X23: Changing a field of an item.  For a request of type [item] that names
    a string field: when the first item with the id has the field (and the
    field is not [id]), the document written is the stored one with that
    field of that item set to the value, and it is in order; when the item
    does not have the field, and the field is neither [badge_description]
    nor [badge_name], nothing is changed: [update] never adds a field to an
    item. *)
Theorem update_changes_one_field (request top : dict) (raw : list json) (i : nat)
    (d : dict) (k : string) (s : store) :
  read BASE_DIR s = Ok (JDict top) →
  _validate_structure (JDict top) = Ok () →
  dict_get "items" top = Some (JList raw) →
  dict_get "type" request = Some (JStr "item") →
  dict_get "field" request = Some (JStr k) →
  k ≠ "" →
  let entity_id := default JNull (dict_get "id" request) in
  let value := default JNull (dict_get "value" request) in
  truthy entity_id = true → value ≠ JNull →
  Finding.first_match (λ a, py_eq a entity_id) raw i d →
  let r := ContentRoutes.update BASE_DIR E (JDict request) s in
  (dict_mem k d = true → k ≠ "id" →
     let data' := JDict (dict_set "items" (JList (<[i := JDict (dict_set k value d)]> raw)) top) in
     ContentRoutes.find_and_update (JStr "item") entity_id (JStr k) value (JDict top)
     = Ok data'
     ∧ _validate_structure data' = Ok ()
     ∧ (failing E = NoFault →
        ∀ v, json_loads (json_dumps data') = Parsed v →
        r.2 = Ok {| Flask.flashed := [];
                    Flask.returned := Flask.Jsonify (JDict [("success", JBool true)]) 200 |}
        ∧ live r.1 = Some (json_dumps data')))
  ∧ (dict_mem k d = false → k ≠ "badge_description" → k ≠ "badge_name" →
     ContentRoutes.find_and_update (JStr "item") entity_id (JStr k) value (JDict top)
     = Ok (JDict top)).
Proof.
  intros Hread Hvalid Hitems Htype Hfield Hk entity_id value Hid Hv Hf r.
  assert (Hr : r = match ContentRoutes.find_and_update (JStr "item") entity_id (JStr k)
                           value (JDict top) with
                   | Raise e => (s, Raise e)
                   | Ok data =>
                       match write E data true s with
                       | (s', Ok _) =>
                           (s', Ok {| Flask.flashed := [];
                                      Flask.returned :=
                                        Flask.Jsonify (JDict [("success", JBool true)]) 200 |})
                       | (s', Raise e) => (s', Ok (MapRoutes.error (exn_str e) 500))
                       end
                   end).
  { unfold r. rewrite (update_passes_the_check request top s Hread).
    - by rewrite Htype, Hfield.
    - by rewrite Htype.
    - done.
    - rewrite Hfield. cbn. by rewrite (proj2 (String.eqb_neq k "")).
    - done. }
  rewrite Hr. clear Hr r. split.
  - intros Hmem Hnid. cbv zeta.
    assert (Hupd : ContentRoutes.find_and_update (JStr "item") entity_id (JStr k) value
                     (JDict top)
                   = Ok (JDict (dict_set "items"
                                  (JList (<[i := JDict (dict_set k value d)]> raw)) top))).
    { unfold ContentRoutes.find_and_update. cbn [ItemRoutes.eq_str String.eqb Ascii.eqb Bool.eqb].
      rewrite (change_by_id_found "items" _ (ContentRoutes.change_item (JStr k) value)
                 top raw i d (dict_set k value d) Hitems Hf); [done|].
      unfold ContentRoutes.change_item, ContentRoutes.contains. by rewrite Hmem. }
    assert (Hvalid' : _validate_structure
              (JDict (dict_set "items" (JList (<[i := JDict (dict_set k value d)]> raw)) top))
              = Ok ()).
    { apply (validate_with_items top raw); [done..|].
      apply (in_order_insert raw i d); [by destruct Hf|].
      by rewrite dict_get_set_ne by done. }
    split; [done|]. split; [done|]. intros Hq v Hl.
    by rewrite Hupd, (write_quiet_state E _ v s Hq Hvalid' Hl).
  - intros Hmem Hn1 Hn2. unfold ContentRoutes.find_and_update.
    cbn [ItemRoutes.eq_str String.eqb Ascii.eqb Bool.eqb].
    rewrite (change_by_id_found "items" _ (ContentRoutes.change_item (JStr k) value)
               top raw i d d Hitems Hf).
    + destruct Hf as (Hi & _). by rewrite list_insert_id, dict_set_same.
    + unfold ContentRoutes.change_item, ContentRoutes.contains. rewrite Hmem.
      cbn [ItemRoutes.eq_str].
      by rewrite (proj2 (String.eqb_neq k "badge_description")),
        (proj2 (String.eqb_neq k "badge_name")).
Qed.

End ContentFacts.

(** ** The further properties on the demo installation *)

Section WorkedExamples.

Import JSONHandler.

(** Evaluate both sides. *)
Ltac run := vm_compute; reflexivity.

(** The first element of the collection is the one looked for. *)
Ltac first_at_0 :=
  split; [reflexivity|];
  split; [eexists; split; reflexivity|];
  intros ? ? ? ?; lia.

(** The backup directory is empty. *)
Ltac no_backup := intros m Hm; vm_compute in Hm; apply elem_of_nil in Hm; destruct Hm.

(** A name the file system allows. *)
Ltac a_file_name :=
  split; [discriminate|]; split; [discriminate|]; split; [discriminate|];
  split; [reflexivity|]; vm_compute; lia.

(** Two different strings. *)
Ltac differ := let Heq := fresh in intros Heq; vm_compute in Heq; discriminate Heq.

(** Witness of X2. *)
Lemma validation_reads_ids_only_witness :
  _validate_structure (JDict DemoSite.renamed_top)
  = _validate_structure (JDict DemoSite.top).
Proof.
  apply (validation_reads_ids_only DemoSite.top DemoSite.renamed_top
           DemoDocument.items
           [JDict [("id", JStr "fox"); ("name", JInt 7)];
            JDict [("name", JNull); ("id", JStr "fox-copy-1")]]
           [JDict DemoSite.owl_badge] [JDict [("id", JStr "owl")]]
           eq_refl eq_refl eq_refl eq_refl).
  - repeat (constructor; [reflexivity|]). constructor.
  - repeat (constructor; [reflexivity|]). constructor.
Defined.

(** Witness of X3.  The third item of [DemoSite.out_of_order] has the id of
    the first: it is the one the error names. *)
Lemma validation_error_names_first_offender_witness :
  _validate_structure (JDict DemoSite.out_of_order)
  = Raise (ValueError "Duplicate item ID: fox").
Proof.
  pose proof (proj1 (validation_error_names_first_offender DemoSite.out_of_order
                       [JDict DemoDocument.fox; JDict DemoDocument.earlier_copy;
                        JDict [("id", JStr "fox")]]
                       [JDict DemoSite.owl_badge; JDict [("name", JStr "Bat")]]
                       2 (JDict [("id", JStr "fox")]) eq_refl eq_refl)
                (check_entries_valid "Item" "item" DemoDocument.items 0 eq_refl) eq_refl)
    as (_ & _ & Hdup).
  apply (Hdup [("id", JStr "fox")] (JStr "fox") (JStr "fox")); try reflexivity.
  constructor.
Defined.

(** Witness of X4. *)
Lemma write_then_read_witness :
  let E := Scenario.quiet (DemoStore.at_second 7) in
  let s' := (write E DemoDocument.data true DemoStore.fresh).1 in
  (write E DemoDocument.data true DemoStore.fresh).2 = Ok true
  ∧ read Demo.BASE_DIR s' = Ok DemoDocument.data
  ∧ temp s' = None
  ∧ backups s' !! backup_file_name E = Some DemoStore.document_text.
Proof.
  intros E s'.
  unshelve epose proof (write_then_read Demo.BASE_DIR E DemoDocument.data DemoDocument.data
                          DemoStore.fresh _ _ _) as (Hok & Hread & Htemp & _ & Hbackup);
    [reflexivity | run | run |].
  split; [exact Hok|]. split; [exact Hread|]. split; [exact Htemp|].
  apply (Hbackup DemoStore.document_text eq_refl). no_backup.
Defined.

(** Witness of X5. *)
Lemma restore_recent_backup_witness :
  let E := Scenario.quiet (DemoStore.at_second 100) in
  let r := restore_backup Demo.BASE_DIR E (DemoStore.stamp 2) DemoStore.full in
  r.2 = Ok true
  ∧ live r.1 = Some "backup 2"
  ∧ backups r.1 !! DemoStore.stamp 2 = Some "backup 2"
  ∧ read Demo.BASE_DIR r.1
    = match json_loads "backup 2" with
      | Parsed v => Ok v
      | Malformed detail =>
          Raise (ValueError ("Invalid JSON in " +:+ json_path Demo.BASE_DIR
                             +:+ ": " +:+ detail))
      | Failed e => Raise e
      end.
Proof.
  intros E.
  apply (restore_recent_backup Demo.BASE_DIR E (DemoStore.stamp 2) "backup 2" DemoStore.full).
  - reflexivity.
  - run.
  - differ.
  - right. exists 48%nat. split; [lia | run].
Defined.

(** Witness of X6. *)
Lemma write_can_be_undone_witness :
  let E1 := Scenario.quiet (DemoStore.at_second 7) in
  let E2 := Scenario.quiet (DemoStore.at_second 9) in
  let s1 := (write E1 DemoDocument.data true DemoStore.fresh).1 in
  let r := restore_backup Demo.BASE_DIR E2 (backup_file_name E1) s1 in
  live s1 = Some (json_dumps DemoDocument.data)
  ∧ r.2 = Ok true
  ∧ live r.1 = Some DemoStore.document_text
  ∧ backups r.1 !! backup_file_name E2 = Some (json_dumps DemoDocument.data).
Proof.
  intros E1 E2 s1 r.
  unshelve epose proof (write_can_be_undone Demo.BASE_DIR E1 E2 DemoDocument.data
                          DemoDocument.data DemoStore.fresh DemoStore.document_text
                          _ _ _ _ _ _ _) as (Hlive & Hok & Hback & Hkept);
    [reflexivity | reflexivity | run | run | reflexivity | no_backup | differ |].
  split; [exact Hlive|]. split; [exact Hok|]. split; [exact Hback|].
  apply Hkept. apply (bool_decide_unpack _). run.
Defined.

(** Witness of X8. *)
Lemma backups_page_after_write_witness :
  let E := Scenario.quiet (DemoStore.at_second 7) in
  let s' := (write E DemoDocument.data true DemoStore.fresh).1 in
  let listing := get_backups Demo.BASE_DIR string (λ name, name) s' in
  let info := BackupService.get_backup_info Demo.BASE_DIR string (λ name, name) s' in
  AdminRoutes.backups Demo.BASE_DIR string (λ name, name) s' = listing
  ∧ (length listing ≤ 50)%nat
  ∧ BackupService.count info = length listing
  ∧ BackupService.total_size info = sum_list (entry_size <$> listing)
  ∧ ∃ e rest, listing = e :: rest
      ∧ entry_name e = backup_file_name E
      ∧ entry_size e = String.length DemoStore.document_text.
Proof.
  intros E s' listing info.
  unshelve epose proof (backups_page_after_write Demo.BASE_DIR string (λ name, name) E
                          DemoDocument.data DemoDocument.data DemoStore.fresh
                          DemoStore.document_text _ _ _ _)
    as (Hpage & Hlen & Hcount & Hsize & Hfirst);
    [reflexivity | run | run | reflexivity |].
  split; [exact Hpage|]. split; [exact Hlen|]. split; [exact Hcount|]. split; [exact Hsize|].
  apply Hfirst. no_backup.
Defined.

(** Witness of X9. *)
Lemma listed_backup_can_be_restored_witness :
  let E := Scenario.quiet (DemoStore.at_second 100) in
  let e := {| entry_path := "/srv/hrp/cms/backups/assets_20240101_000049.json";
              entry_name := "assets_20240101_000049.json";
              entry_size := 9;
              entry_created := "assets_20240101_000049.json" |} in
  ∃ content,
    backups DemoStore.full !! entry_name e = Some content
    ∧ entry_size e = String.length content
    ∧ let r := AdminRoutes.restore_backup Demo.BASE_DIR E (Some (entry_name e))
                 DemoStore.full in
      r.2 = AdminRoutes.to_backups "Backup restored successfully" "success"
      ∧ live r.1 = Some content.
Proof.
  intros E e.
  apply (listed_backup_can_be_restored Demo.BASE_DIR string (λ name, name) E
           DemoStore.full 1 e).
  - reflexivity.
  - run.
  - lia.
  - differ.
Defined.

(** Witness of X10.  The description of an item or of a badge may hold
    anything. *)
Lemma validation_ignores_other_values_witness :
  Validator.validate_item Demo.root Demo.BASE_DIR
    (dict_set "description" (JInt 5) Demo.bad_item)
  = Validator.validate_item Demo.root Demo.BASE_DIR Demo.bad_item
  ∧ Validator.validate_badge Demo.root Demo.BASE_DIR
      (dict_set "description" (JInt 5) Demo.bad_item)
    = Validator.validate_badge Demo.root Demo.BASE_DIR Demo.bad_item.
Proof.
  destruct (validation_ignores_other_values Demo.root Demo.BASE_DIR Demo.bad_item
              "description" (JInt 5) eq_refl) as [Hitem Hbadge].
  split; [apply Hitem | apply Hbadge]; apply (bool_decide_unpack _); run.
Defined.

(** Witness of X11. *)
Lemma validate_coordinates_agrees_witness :
  Validator.validate_coordinates (JInt 51) (JInt 0) = Ok true
  ↔ ("'location.lat' must be between -90 and 90"
       ∉ Validator.validate_item Demo.root Demo.BASE_DIR DemoSite.heron)
    ∧ ("'location.lng' must be between -180 and 180"
         ∉ Validator.validate_item Demo.root Demo.BASE_DIR DemoSite.heron).
Proof.
  apply (validate_coordinates_agrees Demo.root Demo.BASE_DIR DemoSite.heron
           [("lat", JInt 51); ("lng", JInt 0)] (JInt 51) (JInt 0)); reflexivity.
Defined.

(** Witness of X12. *)
Lemma allowed_file_by_last_extension_witness :
  FileHandler.allowed_file "fox.v2.GLB" "model" = true
  ∧ FileHandler.allowed_file "README" "model" = false.
Proof.
  destruct (allowed_file_by_last_extension "fox.v2" "GLB" "README" "model") as [Hext Hnone].
  split; [exact (Hext eq_refl) | exact (Hnone eq_refl)].
Defined.

(** Witness of X13.  The directory of the found icons holds one file; the
    directory of the badge icons is not there. *)
Lemma list_assets_lists_the_files_witness :
  FileHandler.list_assets Demo.BASE_DIR Demo.root "badge" = Ok []
  ∧ ∃ assets,
      FileHandler.list_assets Demo.BASE_DIR Demo.root "found" = Ok assets
      ∧ Sorted FileHandler.by_name assets
      ∧ NoDup (FileHandler.asset_name <$> assets)
      ∧ ∀ a, a ∈ assets
             ↔ ∃ content,
                 (FileHandler.asset_name a, FS.File content)
                 ∈ [("fox.svg", FS.File "<svg/>")]
                 ∧ FileHandler.asset_size a = String.length content
                 ∧ FileHandler.asset_path a
                   = "../../" +:+ join_slash (["assets"; "icons"; "found"]
                                              ++ [FileHandler.asset_name a]).
Proof.
  split.
  - apply (proj1 (list_assets_lists_the_files Demo.BASE_DIR Demo.root "badge"
                    ["assets"; "badges"; "icons"] [] [] eq_refl)).
    reflexivity.
  - apply (proj2 (list_assets_lists_the_files Demo.BASE_DIR Demo.root "found"
                    ["assets"; "icons"; "found"]
                    ["srv"; "hrp"; "assets"; "icons"; "found"]
                    [("fox.svg", FS.File "<svg/>")] eq_refl)).
    + reflexivity.
    + split.
      * apply (bool_decide_unpack _). run.
      * constructor; [|constructor].
        a_file_name.
Defined.

(** Witness of X14. *)
Lemma listed_assets_are_valid_paths_witness :
  let a := {| FileHandler.asset_name := "fox.svg";
              FileHandler.asset_path := "../../assets/icons/found/fox.svg";
              FileHandler.asset_size := 6 |} in
  Validator._validate_asset_path Demo.root Demo.BASE_DIR
    (JStr (FileHandler.asset_path a)) "icon.found" = []
  ∧ FileHandler.file_exists Demo.BASE_DIR DemoSite.cwd Demo.root
      (FileHandler.asset_path a) = true.
Proof.
  intros a.
  apply (listed_assets_are_valid_paths Demo.BASE_DIR DemoSite.cwd Demo.root "found"
           "icon.found" ["assets"; "icons"; "found"]
           ["srv"; "hrp"; "assets"; "icons"; "found"]
           [("fox.svg", FS.File "<svg/>")] [a] a).
  - reflexivity.
  - reflexivity.
  - split.
    + apply (bool_decide_unpack _). run.
    + constructor; [|constructor].
      a_file_name.
  - reflexivity.
  - constructor.
Defined.

(** Witness of X15. *)
Lemma delete_file_removes_only_that_file_witness :
  let file_path := "../../assets/icons/found/fox.svg" in
  let root' := (FileHandler.delete_file Demo.BASE_DIR DemoSite.cwd Demo.root file_path).1 in
  FileHandler.file_exists Demo.BASE_DIR DemoSite.cwd root' file_path = false
  ∧ FileHandler.delete_file Demo.BASE_DIR DemoSite.cwd root' file_path = (root', Ok false)
  ∧ ∃ canon removed,
      FS.stat Demo.root (FileHandler.full_path Demo.BASE_DIR DemoSite.cwd file_path)
      = FS.Found canon (FS.File removed)
      ∧ (∀ q cq content,
           FS.stat Demo.root q = FS.Found cq (FS.File content) → cq ≠ canon →
           FS.stat root' q = FS.Found cq (FS.File content))
      ∧ (∀ q, FS.stat Demo.root q = FS.NoEnt → FS.stat root' q = FS.NoEnt).
Proof.
  intros file_path root'.
  apply (delete_file_removes_only_that_file Demo.BASE_DIR DemoSite.cwd Demo.root root'
           file_path).
  - eexists. reflexivity.
  - run.
Defined.

(** Witness of X16. *)
Lemma delete_removes_the_item_witness :
  let E := Scenario.quiet (DemoStore.at_second 7) in
  let data' := JDict (dict_set "items" (JList (delete 0%nat DemoDocument.items))
                        DemoSite.top) in
  let r := ItemRoutes.delete Demo.BASE_DIR E 1 "fox" DemoSite.site in
  _validate_structure data' = Ok ()
  ∧ live (files r.1) = Some (json_dumps data')
  ∧ r.2 = Ok (ItemRoutes.to_list "Item deleted successfully" "success")
  ∧ change_log r.1
    = [{| Models.user_id := 1;
          Models.action := "delete";
          Models.entity_type := "item";
          Models.entity_id := "fox";
          Models.changes := "Deleted item: Fox" |}].
Proof.
  intros E data' r.
  unshelve epose proof (delete_removes_the_item Demo.BASE_DIR E 1 "fox" DemoSite.site
                          DemoSite.top DemoDocument.items 0 DemoDocument.fox _ _ _ _)
    as [Hvalid Hwritten];
    [run | run | reflexivity | first_at_0 |].
  split; [exact Hvalid|].
  apply (Hwritten eq_refl data'). run.
Defined.

(** Witness of X17.  The item deleted above is looked for once more. *)
Lemma deleted_item_is_not_found_again_witness :
  let E := Scenario.quiet (DemoStore.at_second 7) in
  let st := (ItemRoutes.delete Demo.BASE_DIR E 1 "fox" DemoSite.site).1 in
  ItemRoutes.delete Demo.BASE_DIR E 1 "fox" st
  = (st, Ok (ItemRoutes.to_list "Item not found" "error")).
Proof.
  intros E st.
  apply (deleted_item_is_not_found_again Demo.BASE_DIR E 1 "fox" st DemoSite.top
           DemoDocument.items 0 DemoDocument.fox).
  - run.
  - reflexivity.
  - first_at_0.
  - run.
Defined.

(** Witness of X18. *)
Lemma delete_game_removes_the_badge_witness :
  let E := Scenario.quiet (DemoStore.at_second 7) in
  let data' := JDict (dict_set "gameBadges" (JList []) DemoSite.top) in
  let r := BadgeRoutes.delete_game Demo.BASE_DIR E 1 "owl" DemoSite.site in
  _validate_structure data' = Ok ()
  ∧ live (files r.1) = Some (json_dumps data')
  ∧ r.2 = Ok (BadgeRoutes.to_list "Badge deleted successfully" "success")
  ∧ change_log r.1
    = [{| Models.user_id := 1;
          Models.action := "delete";
          Models.entity_type := "game_badge";
          Models.entity_id := "owl";
          Models.changes := "Deleted game badge: Owl" |}].
Proof.
  intros E data' r.
  unshelve epose proof (delete_game_removes_the_badge Demo.BASE_DIR E 1 "owl" DemoSite.site
                          DemoSite.top [JDict DemoSite.owl_badge] 0 DemoSite.owl_badge
                          _ _ _ _)
    as [Hvalid Hwritten];
    [run | run | reflexivity | first_at_0 |].
  split; [exact Hvalid|].
  apply (Hwritten eq_refl data'). run.
Defined.

(** Witness of X19.  The form names an icon that is not there. *)
Lemma edit_game_checks_the_icon_only_witness :
  let E := Scenario.quiet (DemoStore.at_second 7) in
  let form := DemoSite.owl_form_without_icon in
  let badge := BadgeRoutes.fill_in form DemoSite.owl_badge in
  let errors := ["'icon' path does not exist: ../../assets/icons/found/owl.svg"] in
  Validator.validate_badge Demo.root Demo.BASE_DIR badge = errors
  ∧ BadgeRoutes.edit_game Demo.root Demo.BASE_DIR E 1 "POST" form "owl" DemoSite.site
    = (DemoSite.site,
       Ok {| Flask.flashed :=
               [("Validation errors: " +:+ str_join ", " errors, "error")];
             Flask.returned := BadgeRoutes.edit_page (JDict badge) |})
  ∧ BadgeRoutes.edit_game Demo.root Demo.BASE_DIR E 1 "GET" form "owl" DemoSite.site
    = (DemoSite.site,
       Ok {| Flask.flashed := [];
             Flask.returned := BadgeRoutes.edit_page (JDict DemoSite.owl_badge) |}).
Proof.
  intros E form badge errors.
  unshelve epose proof (edit_game_checks_the_icon_only Demo.root Demo.BASE_DIR E 1 form
                          "owl" DemoSite.site DemoSite.top [JDict DemoSite.owl_badge] 0
                          DemoSite.owl_badge _ _ _ _)
    as (Hcheck & Hshown & Hget);
    [run | reflexivity | first_at_0 | discriminate |].
  split; [exact Hcheck|]. split; [|apply Hget; discriminate].
  apply Hshown. differ.
Defined.

(** Witness of X20. *)
Lemma edit_game_updates_the_badge_witness :
  let E := Scenario.quiet (DemoStore.at_second 7) in
  let form := DemoSite.owl_form in
  let badge := BadgeRoutes.fill_in form DemoSite.owl_badge in
  let data' := JDict (dict_set "gameBadges" (JList [JDict badge]) DemoSite.top) in
  let r := BadgeRoutes.edit_game Demo.root Demo.BASE_DIR E 1 "POST" form "owl"
             DemoSite.site in
  dict_get "id" badge = Some (JStr "owl")
  ∧ dict_get "name" badge = Some (JStr "Barn owl")
  ∧ _validate_structure data' = Ok ()
  ∧ r.2 = Ok (BadgeRoutes.to_list "Badge updated successfully" "success")
  ∧ live (files r.1) = Some (json_dumps data')
  ∧ change_log r.1
    = [{| Models.user_id := 1;
          Models.action := "update";
          Models.entity_type := "game_badge";
          Models.entity_id := "owl";
          Models.changes := "Updated game badge: Barn owl" |}].
Proof.
  intros E form badge data' r.
  unshelve epose proof (edit_game_updates_the_badge Demo.root Demo.BASE_DIR E 1 form
                          "owl" DemoSite.site DemoSite.top [JDict DemoSite.owl_badge] 0
                          DemoSite.owl_badge _ _ _ _ _ _)
    as (Hfields & Hvalid & Hwritten);
    [run | run | reflexivity | first_at_0 | discriminate | run |].
  split; [exact (Hfields "id")|]. split; [exact (Hfields "name")|].
  split; [exact Hvalid|].
  apply (Hwritten eq_refl data'). run.
Defined.

(** Witness of X21.  The item [fox] is moved; a latitude out of range
    beside a longitude that is no number is refused; a longitude that is no
    number beside a latitude in range makes the route raise. *)
Lemma update_location_stores_checked_coordinates_witness :
  let E := Scenario.quiet (DemoStore.at_second 7) in
  let item := MapRoutes.relocate (JInt 51) (JInt 0) (JInt 25) DemoDocument.fox in
  let data' := JDict (dict_set "items" (JList (<[0%nat := JDict item]> DemoDocument.items))
                        DemoSite.top) in
  let r := MapRoutes.update_location Demo.BASE_DIR E (JDict DemoSite.move_fox)
             DemoSite.store in
  let far := [("item_id", JStr "fox"); ("lat", JInt 91); ("lng", JStr "x")] in
  let nowhere := [("item_id", JStr "fox"); ("lat", JInt 51); ("lng", JStr "x")] in
  Rules.rule_location item = []
  ∧ dict_get "radiusMeters" item = Some (JInt 25)
  ∧ dict_get "name" item = dict_get "name" DemoDocument.fox
  ∧ _validate_structure data' = Ok ()
  ∧ r.2 = Ok {| Flask.flashed := [];
                Flask.returned :=
                  Flask.Jsonify (JDict [("success", JBool true); ("item", JDict item)])
                    200 |}
  ∧ live r.1 = Some (json_dumps data')
  ∧ MapRoutes.update_location Demo.BASE_DIR E (JDict far) DemoSite.store
    = (DemoSite.store, Ok (MapRoutes.error "Invalid coordinates" 400))
  ∧ MapRoutes.update_location Demo.BASE_DIR E (JDict nowhere) DemoSite.store
    = (DemoSite.store,
       Raise (TypeError "'<=' not supported between instances of 'int' and 'str'")).
Proof.
  intros E item data' r far nowhere.
  unshelve epose proof (update_location_stores_checked_coordinates Demo.BASE_DIR E
                          DemoSite.move_fox DemoSite.top DemoDocument.items 0
                          DemoDocument.fox DemoSite.store _ _ _ _ _ _ _)
    as (_ & _ & _ & _ & _ & Hstored);
    [run | run | reflexivity | reflexivity | discriminate | discriminate | first_at_0 |].
  destruct (Hstored eq_refl) as (Hrule & Hradius & Hkept & Hvalid & Hwritten).
  split; [exact Hrule|]. split; [exact Hradius|].
  split; [apply Hkept; discriminate|]. split; [exact Hvalid|].
  destruct (Hwritten eq_refl data') as [Hok Hlive]; [run|].
  split; [exact Hok|]. split; [exact Hlive|].
  split.
  - unshelve epose proof (update_location_stores_checked_coordinates Demo.BASE_DIR E
                            far DemoSite.top DemoDocument.items 0
                            DemoDocument.fox DemoSite.store _ _ _ _ _ _ _)
      as (_ & Hfar & _);
      [run | run | reflexivity | reflexivity | discriminate | discriminate | first_at_0 |].
    apply Hfar; [eexists; reflexivity | reflexivity].
  - unshelve epose proof (update_location_stores_checked_coordinates Demo.BASE_DIR E
                            nowhere DemoSite.top DemoDocument.items 0
                            DemoDocument.fox DemoSite.store _ _ _ _ _ _ _)
      as (_ & _ & _ & _ & Hraise & _);
      [run | run | reflexivity | reflexivity | discriminate | discriminate | first_at_0 |].
    apply Hraise; reflexivity.
Defined.

(** Witness of X22.  No item has the id [wolf]: the document is written back
    as it was. *)
Lemma update_without_a_match_rewrites_the_document_witness :
  let E := Scenario.quiet (DemoStore.at_second 7) in
  let r := ContentRoutes.update Demo.BASE_DIR E (JDict DemoSite.rename_wolf)
             DemoSite.store in
  r.2 = Ok {| Flask.flashed := [];
              Flask.returned := Flask.Jsonify (JDict [("success", JBool true)]) 200 |}
  ∧ live r.1 = Some (json_dumps (JDict DemoSite.top))
  ∧ backups r.1 !! backup_file_name E = Some (json_dumps (JDict DemoSite.top)).
Proof.
  intros E r.
  unshelve epose proof (update_without_a_match_rewrites_the_document Demo.BASE_DIR E
                          DemoSite.rename_wolf DemoSite.top DemoDocument.items
                          (JDict DemoSite.top) DemoSite.store
                          (json_dumps (JDict DemoSite.top)) _ _ _ _ _ _ _ _ _ _)
    as (Hok & Hlive & Hbackup);
    [run | run | reflexivity | reflexivity | reflexivity | reflexivity | discriminate
    | | reflexivity | run |].
  { right. left. split; [reflexivity|]. split; [reflexivity|].
    repeat (constructor; [eexists; split; reflexivity|]). constructor. }
  split; [exact Hok|]. split; [exact Hlive|].
  apply Hbackup. no_backup.
Defined.

(** Witness of X23.  The item [fox] is given another name; a colour it
    cannot be given. *)
Lemma update_changes_one_field_witness :
  let E := Scenario.quiet (DemoStore.at_second 7) in
  let data' :=
    JDict (dict_set "items"
             (JList (<[0%nat := JDict (dict_set "name" (JStr "Red fox") DemoDocument.fox)]>
                       DemoDocument.items))
             DemoSite.top) in
  let r := ContentRoutes.update Demo.BASE_DIR E (JDict DemoSite.rename_fox)
             DemoSite.store in
  ContentRoutes.find_and_update (JStr "item") (JStr "fox") (JStr "name") (JStr "Red fox")
    (JDict DemoSite.top) = Ok data'
  ∧ _validate_structure data' = Ok ()
  ∧ r.2 = Ok {| Flask.flashed := [];
                Flask.returned := Flask.Jsonify (JDict [("success", JBool true)]) 200 |}
  ∧ live r.1 = Some (json_dumps data')
  ∧ ContentRoutes.find_and_update (JStr "item") (JStr "fox") (JStr "colour") (JStr "red")
      (JDict DemoSite.top) = Ok (JDict DemoSite.top).
Proof.
  intros E data' r.
  unshelve epose proof (update_changes_one_field Demo.BASE_DIR E DemoSite.rename_fox
                          DemoSite.top DemoDocument.items 0 DemoDocument.fox "name"
                          DemoSite.store _ _ _ _ _ _ _ _ _)
    as [Hchanged _];
    [run | run | reflexivity | reflexivity | reflexivity | discriminate | reflexivity
    | discriminate | first_at_0 |].
  destruct (Hchanged eq_refl) as (Hupdate & Hvalid & Hwritten); [discriminate|].
  split; [exact Hupdate|]. split; [exact Hvalid|].
  destruct (Hwritten eq_refl data') as [Hok Hlive]; [run|].
  split; [exact Hok|]. split; [exact Hlive|].
  unshelve epose proof (update_changes_one_field Demo.BASE_DIR E
                          [("type", JStr "item"); ("id", JStr "fox");
                           ("field", JStr "colour"); ("value", JStr "red")]
                          DemoSite.top DemoDocument.items 0 DemoDocument.fox "colour"
                          DemoSite.store _ _ _ _ _ _ _ _ _)
    as [_ Hkept];
    [run | run | reflexivity | reflexivity | reflexivity | discriminate | reflexivity
    | discriminate | first_at_0 |].
  apply Hkept; [reflexivity | discriminate | discriminate].
Defined.

End WorkedExamples.
